(** * ForecastIQ: the demand-forecasting core of the backend

    A shallow embedding of the forecast routes of the backend
    (the file that imports [date-fns] and [simple-statistics], declares
    [class SimpleForecast], [prepareSalesData] and the routes
    [POST /generate/:sku], [POST /generate-all], [GET /dashboard/summary]
    and [GET /:sku]).

    Modelling decisions, once and for all:

    - A JavaScript number is a rational ([Q]); equality of numbers is
      [Qeq] ([==]).  The counts that reach this code are whole numbers read
      from INTEGER columns; whole numbers below 2^53 and their sums are
      exact in the binary64 arithmetic of the language, and such sums are
      written with the exact [+].  The predictors of [class SimpleForecast]
      are evaluated in exact arithmetic: what is proved of them is proved of
      the method (the fitted line, the smoothed value, the mean), which the
      source follows up to the rounding of its products and quotients.  The
      routes then add up forecasts that need not be whole, divide, multiply
      by fractions and take [Math.floor], [Math.ceil] and [Math.round] of
      the results, where the rounding of binary64 decides which whole number
      comes out: that arithmetic is evaluated in binary64 ([double]), each
      operation rounded to the nearest representable number, ties to even.
      [NaN] and the infinities are not represented: every division the
      embedded code performs is shown or guarded to have a non-zero divisor,
      and no magnitude comes near 2^1024.
    - A calendar date, as the source keys its object by it (the text
      [yyyy-MM-dd], ordered by [Array.prototype.sort]), is its day number
      ([Z]): on four-digit years the text is in order-preserving bijection
      with the day number.  A [Date] is kept in two ways.  Where the code
      only formats the date it has moved (the dates of the forecast points)
      it is its calendar day, [format] changes nothing and [addDays] adds
      ([datefns]).  Where the code also compares [Date]s (the loop of
      [prepareSalesData]) the time of day matters and so does the time zone
      of the process: there a [Date] is its wall-clock reading in that zone
      ([localtime]).
    - An exception is a value of [exn] carried by [result]; [try]/[catch] is
      [catch].
    - An array length handed to [Array(n)] is a [nat]; where the source can
      hand it something else, [parseInt] of a text is modelled by [IntOrNaN]
      and a number of a JSON body by a rational. *)

From Stdlib Require Import ZArith QArith Qround Qabs Qpower Lia Lqa.
From stdpp Require Import gmap strings list sorting.
From Equations Require Import Equations.

Local Open Scope Z_scope.

(** ** Exceptions *)

Inductive exn : Type :=
| RangeError (msg : string)
| TypeError (msg : string)
| Error (msg : string).

Inductive result (A : Type) : Type :=
| Ok (a : A)
| Throw (e : exn).
Arguments Ok {A} a.
Arguments Throw {A} e.

#[global] Instance result_bind : MBind result := fun A B k r =>
  match r with
  | Ok a => k a
  | Throw e => Throw e
  end.

Definition catch {A} (body : result A) (handler : exn -> result A) : result A :=
  match body with
  | Ok a => Ok a
  | Throw e => handler e
  end.

Fixpoint mapM {A B} (f : A -> result B) (l : list A) : result (list B) :=
  match l with
  | [] => Ok []
  | x :: xs => y ← f x; ys ← mapM f xs; Ok (y :: ys)
  end.

(** ** The JavaScript operations the code uses *)

Module Math.

(** [Math.round]: the nearest integer, halves towards +infinity. *)
Definition round (x : Q) : Z := Qfloor (x + (1 # 2)).
Definition floor (x : Q) : Z := Qfloor x.
Definition ceil (x : Q) : Z := Qceiling x.
Definition max (a b : Q) : Q := if Qle_bool a b then b else a.

Definition minZ (a b : Z) : Z := Z.min a b.
Definition maxZ (a b : Z) : Z := Z.max a b.

End Math.

(** ** Binary64 arithmetic *)

(** The numbers of binary64 are the rationals [m * 2^e] with [|m| < 2^53]
    and [e >= -1074]; [rnd x] is the one nearest to [x], the one with the
    even [m] when two are equally near.  An operation of the language reads
    its operands, which are such numbers, and rounds the exact result; a
    value that the exact arithmetic of the predictors hands over (the mean
    of a short series) is read as the number nearest to it, which is what
    the division of a whole sum by a length gives in the source. *)
Module double.

(** [floor(log2 x)] for a positive [x]. *)
Definition ilog2 (x : Q) : Z :=
  let p := Qnum x in
  let q := Zpos (Qden x) in
  let k := Z.log2 p - Z.log2 q in
  if (if 0 <=? k then q * 2 ^ k <=? p else q <=? p * 2 ^ (- k)) then k else k - 1.

Definition pow2 (e : Z) : Q :=
  if 0 <=? e then inject_Z (2 ^ e) else (/ inject_Z (2 ^ (- e)))%Q.

(** The nearest integer, halves to the even one. *)
Definition nearest_even (x : Q) : Z :=
  let f := Qfloor x in
  match (x - inject_Z f ?= 1 # 2)%Q with
  | Lt => f
  | Gt => f + 1
  | Eq => if Z.even f then f else f + 1
  end.

(** The exponent of the last binary place of the binary64 numbers next to
    [x]: 52 places below the leading one, and -1074 at the least. *)
Definition last_place (x : Q) : Z := Z.max (ilog2 (Qabs x) - 52) (-1074).

Definition rnd (x : Q) : Q :=
  let x := Qred x in
  if Qeq_bool x 0 then 0%Q
  else
    let e := last_place x in
    Qred (inject_Z (nearest_even (x * pow2 (- e))) * pow2 e).

Definition add (x y : Q) : Q := rnd (rnd x + rnd y).
Definition sub (x y : Q) : Q := rnd (rnd x - rnd y).
Definition mul (x y : Q) : Q := rnd (rnd x * rnd y).
Definition div (x y : Q) : Q := rnd (rnd x / rnd y).

End double.

(** [x || d] on a number: [0] is the only falsy rational. *)
Definition falsy (x : Q) : bool := Qeq_bool x 0.
Definition or_num (x d : Q) : Q := if falsy x then d else x.

(** [a[i] || d]: an index outside the array reads [undefined], which is
    falsy as well. *)
Definition or_undef (x : option Q) (d : Q) : Q :=
  match x with
  | Some v => or_num v d
  | None => d
  end.

(** [a.slice(start)]: a negative [start] counts from the end. *)
Definition slice (start : Z) (a : list Q) : list Q :=
  let len := Z.of_nat (length a) in
  let k := if start <? 0 then Z.max (len + start) 0 else Z.min start len in
  drop (Z.to_nat k) a.

(** [Array(n).fill(v)] *)
Definition fill (n : nat) (v : Q) : list Q := replicate n v.

(** ** simple-statistics *)

Module ss.

Definition sum (x : list Q) : Q := foldl Qplus 0%Q x.

(** [mean] throws on the empty array. *)
Definition mean (x : list Q) : result Q :=
  match x with
  | [] => Throw (Error "mean requires at least one data point")
  | _ => Ok (sum x / inject_Z (Z.of_nat (length x)))%Q
  end.

Record line : Type := { m : Q; b : Q }.

(** The four running sums of [linearRegression]:
    [sumX], [sumY], [sumXX] and [sumXY]. *)
Definition sums (data : list (Q * Q)) : Q * Q * Q * Q :=
  foldl (fun '(sumX, sumY, sumXX, sumXY) '(x, y) =>
           (sumX + x, sumY + y, sumXX + x * x, sumXY + x * y)%Q)
        (0, 0, 0, 0)%Q data.

(** Least squares over the points [(x, y)]; a single point gives the
    horizontal line through it.  It does not throw. *)
Definition linearRegression (data : list (Q * Q)) : result line :=
  match data with
  | [(_, y)] => Ok {| m := 0; b := y |}
  | _ =>
    let dataLength := inject_Z (Z.of_nat (length data)) in
    let '(sumX, sumY, sumXX, sumXY) := sums data in
    let m := ((dataLength * sumXY - sumX * sumY)
              / (dataLength * sumXX - sumX * sumX))%Q in
    let b := (sumY / dataLength - (m * sumX) / dataLength)%Q in
    Ok {| m := m; b := b |}
  end.

Definition linearRegressionLine (mb : line) (x : Q) : Q :=
  (b mb + m mb * x)%Q.

End ss.

(** ** date-fns *)

(** On day numbers [parseISO] and [format(_, 'yyyy-MM-dd')] change nothing
    and [addDays] adds. *)
Module datefns.

Definition parseISO (text : Z) : Z := text.
Definition format (d : Z) : Z := d.
Definition addDays (d : Z) (amount : Z) : Z := d + amount.

End datefns.

(** ** date-fns on the clock of the process *)

Definition msPerDay : Z := 86400000.

(** The time zone of the process, as far as setting a [Date] by its local
    fields depends on it.  Where the clocks of the zone are put forward the
    wall-clock readings in between do not exist; [gap reading] is the width
    of the gap that skips [reading], and 0 for a reading that exists.  No
    zone has put its clocks forward by more than a day. *)
Record TimeZone : Type := {
  gap : Z -> Z;
  gap_range : forall reading, 0 <= gap reading <= msPerDay
}.

(** A [Date] is its wall-clock reading in the zone of the process, in
    milliseconds from the local midnight of day 0.  A [Date] set to a
    reading that the zone skips takes the reading later by the width of the
    gap ([setDate], [setHours]).  Later readings are later instants: the
    readings that a zone repeats when its clocks are put back are taken at
    their first occurrence. *)
Module localtime.

Definition set (tz : TimeZone) (reading : Z) : Z := reading + gap tz reading.

(** [parseISO] of a date without time: the local midnight of the day. *)
Definition parseISO (tz : TimeZone) (text : Z) : Z := set tz (text * msPerDay).

(** [format(_, 'yyyy-MM-dd')]: the local calendar day. *)
Definition format (d : Z) : Z := d / msPerDay.

(** [addDays]: [setDate(getDate() + amount)], the same time of day
    [amount] days on. *)
Definition addDays (tz : TimeZone) (d : Z) (amount : Z) : Z :=
  set tz (d + amount * msPerDay).

End localtime.

(** ** [class SimpleForecast] *)

Module SimpleForecast.

Definition last_or_undef (data : list Q) : option Q :=
  data !! (length data - 1)%nat.

Definition movingAverage (data : list Q) (periods : Z) : result Q :=
  if Z.of_nat (length data) <? periods then
    Ok (if (0 <? length data)%nat then default 0%Q (last_or_undef data) else 0%Q)
  else
    let recent := slice (- periods) data in
    ss.mean recent.

Definition linearTrend (data : list Q) (forecastDays : nat) : result (list Q) :=
  if (length data <? 2)%nat then
    Ok (fill forecastDays (if (0 <? length data)%nat then default 0%Q (data !! 0%nat) else 0%Q))
  else
    let regressionData := imap (fun index value => (inject_Z (Z.of_nat index), value)) data in
    catch
      (regression ← ss.linearRegression regressionData;
       let predict := ss.linearRegressionLine regression in
       Ok (map (fun i : nat =>
                  let dayIndex := inject_Z (Z.of_nat (length data + i)) in
                  let predicted := predict dayIndex in
                  Math.max 0 (inject_Z (Math.round predicted)))
               (seq 0 forecastDays)))
      (fun _ =>
         let lastValue := or_undef (last_or_undef data) 0 in
         Ok (fill forecastDays lastValue)).

Definition exponentialSmoothing (data : list Q) (alpha : Q) (forecastDays : nat)
  : result (list Q) :=
  match data with
  | [] => Ok (fill forecastDays 0)
  | [x] => Ok (fill forecastDays x)
  | x :: rest =>
    let smoothed := foldl (fun smoothed d => alpha * d + (1 - alpha) * smoothed)%Q x rest in
    Ok (fill forecastDays (Math.max 0 (inject_Z (Math.round smoothed))))
  end.

Definition seasonalNaive (data : list Q) (seasonLength forecastDays : nat)
  : result (list Q) :=
  if (length data <? seasonLength)%nat then
    avgValue ← movingAverage data (Z.of_nat (length data));
    Ok (fill forecastDays (Math.max 0 avgValue))
  else
    Ok (map (fun i : nat =>
               let seasonIndex := (i mod seasonLength)%nat in
               let historicalIndex := (length data - seasonLength + seasonIndex)%nat in
               let value := or_undef (data !! historicalIndex) 0 in
               Math.max 0 value)
            (seq 0 forecastDays)).

Definition combinedForecast (data : list Q) (forecastDays : nat) : result (list Q) :=
  linear ← linearTrend data forecastDays;
  exponential ← exponentialSmoothing data (3 # 10) forecastDays;
  seasonal ← seasonalNaive data 7 forecastDays;
  let methods := [linear; exponential; seasonal] in
  mapM (fun i : nat =>
          let values := map (fun method : list Q => or_undef (method !! i) 0) methods in
          avg ← ss.mean values;
          Ok (inject_Z (Math.round avg)))
       (seq 0 forecastDays).

End SimpleForecast.

(** ** [prepareSalesData] *)

Record SalesRecord : Type := { date : Z; units_sold : Q }.

(** [!x] on a property read: [undefined] and [0] are falsy. *)
Definition not_undef (x : option Q) : bool :=
  match x with
  | Some v => falsy v
  | None => true
  end.

(** The body of the [forEach]: after the guard the property exists, so the
    [+=] always reads a number. *)
Definition group_record (dailySales : gmap Z Q) (record : SalesRecord) : gmap Z Q :=
  let d := date record in
  let dailySales :=
    if not_undef (dailySales !! d) then <[d := 0%Q]> dailySales else dailySales in
  <[d := (default 0 (dailySales !! d) + units_sold record)%Q]> dailySales.

(** [Object.keys(o).sort()] *)
Definition sorted_keys (o : gmap Z Q) : list Z :=
  merge_sort Z.le (map fst (map_to_list o)).

(** The [while (currentDate <= endDate)] loop; [<=] compares the two
    [Date]s as instants. *)
Equations? fill_days (tz : TimeZone) (dailySales : gmap Z Q) (endDate currentDate : Z)
    (timeSeries : list Q) : list Q
  by wf (Z.to_nat (localtime.format endDate - localtime.format currentDate + 1)) lt :=
  fill_days tz dailySales endDate currentDate timeSeries
    with Z_le_dec currentDate endDate => {
    | left _ :=
        let dateStr := localtime.format currentDate in
        fill_days tz dailySales endDate (localtime.addDays tz currentDate 1)
                  (timeSeries ++ [or_undef (dailySales !! dateStr) 0])
    | right _ := timeSeries }.
Proof.
  unfold localtime.addDays, localtime.set, localtime.format, msPerDay.
  pose proof (gap_range tz (currentDate + 1 * 86400000)) as [Hgap _].
  assert (currentDate / 86400000 <= endDate / 86400000)
    by (apply Z.div_le_mono; lia).
  assert (currentDate / 86400000 + 1
          <= (currentDate + 1 * 86400000 + gap tz (currentDate + 1 * 86400000)) / 86400000).
  { rewrite <- Z.div_add by lia. apply Z.div_le_mono; lia. }
  lia.
Qed.

(** [tz] is the time zone of the process that runs the function. *)
Definition prepareSalesData (tz : TimeZone) (salesRecords : list SalesRecord) : list Q :=
  let dailySales := foldl group_record ∅ salesRecords in
  let sortedDates := sorted_keys dailySales in
  match head sortedDates, last sortedDates with
  | Some first, Some final =>
    let startDate := localtime.parseISO tz first in
    let endDate := localtime.parseISO tz final in
    fill_days tz dailySales endDate startDate []
  | _, _ => []
  end.

(** ** The routes *)

Inductive Priority : Type := high | medium | low.

#[global] Instance Priority_eq_dec : EqDecision Priority.
Proof. solve_decision. Defined.

Record InventoryItem : Type := {
  item_sku : string;
  name : string;
  quantity : Q;
  reorder_level : Q
}.

(** [parseInt] yields an integer or [NaN]. *)
Inductive IntOrNaN : Type := Int (n : Z) | NaN.

(** The collaborators of the routes, for the authenticated user:
    the reads of [dbHelpers] (which throw on a database error, and
    [getInventoryBySku] also when there is no such row), the calendar day
    of the clock, and the time zone of the process. *)
Record World : Type := {
  getSalesData : string -> option Z -> option Z -> result (list SalesRecord);
  getInventoryBySku : string -> result InventoryItem;
  getInventory : result (list InventoryItem);
  today : Z;
  timeZone : TimeZone
}.

(** [req.params.sku] and [req.body]; a field of the body that is absent is
    [None] and takes its default in the destructuring.  [days] carries the
    value [parseInt] gives for the field. *)
Record Request : Type := {
  sku : string;
  days : option IntOrNaN;
  method : option string;
  startDate : option Z;
  endDate : option Z
}.

Record ForecastPoint : Type := {
  fp_date : Z;
  predicted_demand : Q;
  fp_sku : string
}.

Record ReorderSuggestion : Type := {
  needed : bool;
  currentStock : Q;
  predictedDemand : Q;
  suggestedQuantity : option Z;
  daysUntilStockout : option Z;
  daysOfStock : option Z;
  priority : option Priority
}.

Record ForecastData : Type := {
  data_sku : string;
  data_method : string;
  requestedMethod : string;
  period_days : nat;
  period_startDate : option Z;
  period_endDate : option Z;
  totalRecords : nat;
  historical_averageDailyDemand : Q;
  totalHistoricalSales : Q;
  forecast : list ForecastPoint;
  totalPredictedDemand : Q;
  averageDailyDemand : Q;
  peakDay : ForecastPoint;
  reorderSuggestion : option ReorderSuggestion
}.

Record BatchForecast : Type := {
  bf_sku : string;
  bf_name : string;
  bf_currentStock : Q;
  bf_reorderLevel : Q;
  bf_predictedDemand : Q;
  reorderNeeded : bool;
  bf_priority : Priority
}.

Record BatchError : Type := { be_sku : string; be_error : string }.

Record BatchData : Type := {
  totalSkus : nat;
  successfulForecasts : nat;
  errors : nat;
  forecasts : list BatchForecast;
  highPriority : nat;
  mediumPriority : nat;
  summary_reorderNeeded : nat;
  errorDetails : option (list BatchError)
}.

Inductive Response : Type :=
| Status400 (error message : string)
| Status404 (error message : string)
| Status500 (error message : string)
| Json (data : ForecastData)
| JsonBatch (data : BatchData).

(** [a.reduce(f)] without an initial value throws on the empty array. *)
Definition reduce1 {A} (f : A -> A -> A) (a : list A) : result A :=
  match a with
  | [] => Throw (TypeError "Reduce of empty array with no initial value")
  | x :: xs => Ok (foldl f x xs)
  end.

(** [Math.min(Math.max(parseInt(days), 1), 90)]: [NaN] goes through both. *)
Definition clamp_days (parsed : IntOrNaN) : IntOrNaN :=
  match parsed with
  | Int n => Int (Math.minZ (Math.maxZ n 1) 90)
  | NaN => NaN
  end.

(** A forecast of [forecastDays] days.  When [forecastDays] is [NaN] no
    branch of the [switch] leads to a response: [Array(NaN)] is a
    [RangeError], and where a predictor only loops ([i < NaN] is false at
    once) the forecast is empty and [forecastData.reduce] is a [TypeError];
    both reach the outer [catch]. *)
Definition with_days {A} (forecastDays : IntOrNaN) (k : nat -> result A) : result A :=
  match forecastDays with
  | Int n => k (Z.to_nat n)
  | NaN => Throw (RangeError "Invalid array length")
  end.

Definition gtb (a b : Q) : bool := negb (Qle_bool a b).

(** The reorder suggestion of [POST /generate/:sku]. *)
Definition suggest (totalPredictedDemand avgDailyDemand : Q) (currentInventory : InventoryItem)
  : ReorderSuggestion :=
  let currentStock := quantity currentInventory in
  let reorderLevel := reorder_level currentInventory in
  if gtb totalPredictedDemand currentStock then
    let suggestedReorder :=
      Math.ceil (double.add (double.sub totalPredictedDemand currentStock) reorderLevel) in
    {| needed := true;
       currentStock := currentStock;
       predictedDemand := totalPredictedDemand;
       suggestedQuantity := Some suggestedReorder;
       daysUntilStockout :=
         Some (Math.floor (double.div currentStock (or_num avgDailyDemand 1)));
       daysOfStock := None;
       priority := Some (if Qle_bool currentStock reorderLevel then high else medium) |}
  else
    {| needed := false;
       currentStock := currentStock;
       predictedDemand := totalPredictedDemand;
       suggestedQuantity := None;
       daysUntilStockout := None;
       daysOfStock := Some (Math.floor (double.div currentStock (or_num avgDailyDemand 1)));
       priority := None |}.

(** [Math.round(x * 100) / 100] *)
Definition round2 (x : Q) : Q :=
  double.div (inject_Z (Math.round (double.mul x 100))) 100.

(** The [switch (method)]. *)
Definition dispatch (method : string) (timeSeries : list Q) (forecastDays : nat)
  : result (list Q * string) :=
  if decide (method = "linear") then
    f ← SimpleForecast.linearTrend timeSeries forecastDays; Ok (f, "linear")
  else if decide (method = "exponential") then
    f ← SimpleForecast.exponentialSmoothing timeSeries (3 # 10) forecastDays; Ok (f, "exponential")
  else if decide (method = "seasonal") then
    f ← SimpleForecast.seasonalNaive timeSeries 7 forecastDays; Ok (f, "seasonal")
  else
    f ← SimpleForecast.combinedForecast timeSeries forecastDays; Ok (f, "combined").

(** [router.post('/generate/:sku')]: the body of the outer [try].
    Two statements of the source leave no trace here: the
    [Array.isArray(forecast)] repair, since every predictor returns an
    array, and the write of the forecast to the database, which sits in a
    [try]/[catch] of its own and does not reach the response. *)
Definition generate_try (w : World) (req : Request) : result Response :=
  let sku := sku req in
  let days := default (Int 30) (days req) in
  let method := default "combined" (method req) in
  if decide (sku = "") then
    Ok (Status400 "Bad Request" "SKU is required")
  else
    let forecastDays := clamp_days days in
    salesData ← getSalesData w sku (startDate req) (endDate req);
    if (length salesData =? 0)%nat then
      Ok (Status404 "No Data" ("No sales data found for SKU: " +:+ sku))
    else
      let timeSeries := prepareSalesData (timeZone w) salesData in
      with_days forecastDays (fun forecastDays =>
        '(forecast, forecastMethod) ← dispatch method timeSeries forecastDays;
        let forecastData :=
          imap (fun index value =>
                  {| fp_date := datefns.format (datefns.addDays (today w) (Z.of_nat index + 1));
                     predicted_demand := value;
                     fp_sku := sku |}) forecast in
        let totalPredictedDemand := foldl double.add 0%Q forecast in
        let avgDailyDemand :=
          double.div totalPredictedDemand (inject_Z (Z.of_nat forecastDays)) in
        historicalAvg ← (if (0 <? length timeSeries)%nat then ss.mean timeSeries else Ok 0%Q);
        let reorderSuggestion :=
          match getInventoryBySku w sku with
          | Ok currentInventory => Some (suggest totalPredictedDemand avgDailyDemand currentInventory)
          | Throw _ => None
          end in
        peak ← reduce1 (fun max current =>
                          if gtb (predicted_demand current) (predicted_demand max)
                          then current else max) forecastData;
        Ok (Json {|
          data_sku := sku;
          data_method := forecastMethod;
          requestedMethod := method;
          period_days := forecastDays;
          period_startDate := fp_date <$> head forecastData;
          period_endDate := fp_date <$> last forecastData;
          totalRecords := length salesData;
          historical_averageDailyDemand := round2 historicalAvg;
          totalHistoricalSales := foldl (fun sum record => sum + units_sold record)%Q 0%Q salesData;
          forecast := forecastData;
          totalPredictedDemand := totalPredictedDemand;
          averageDailyDemand := round2 avgDailyDemand;
          peakDay := peak;
          reorderSuggestion := reorderSuggestion |})).

Definition generate (w : World) (req : Request) : Response :=
  match generate_try w req with
  | Ok response => response
  | Throw _ => Status500 "Internal Server Error" "Failed to generate forecast"
  end.

(** [a.sort(compareFn)]: the sort of the language is stable, and for a
    comparator that is a difference of ranks the stable result is unique;
    it is computed here by straight insertion. *)
Fixpoint insert_by {A} (compareFn : A -> A -> Z) (x : A) (a : list A) : list A :=
  match a with
  | [] => [x]
  | y :: ys =>
    if compareFn x y <=? 0 then x :: y :: ys
    else y :: insert_by compareFn x ys
  end.

Definition sort_by {A} (compareFn : A -> A -> Z) (a : list A) : list A :=
  foldr (insert_by compareFn) [] a.

Definition priorityOrder (p : Priority) : Z :=
  match p with
  | high => 3
  | medium => 2
  | low => 1
  end.

Definition message (e : exn) : string :=
  match e with
  | RangeError msg | TypeError msg | Error msg => msg
  end.

(** [combinedForecast(timeSeries, days)] where [days] is a number of the
    body as it came: [exponentialSmoothing] evaluates [Array(forecastDays)]
    on every path, and [linearTrend] before it either does the same or only
    loops, so a number that is no array length (a negative one, one with a
    fraction, 2^32 or more) is a [RangeError]. *)
Definition is_array_length (n : Q) : bool :=
  Qeq_bool n (inject_Z (Qfloor n)) && (0 <=? Qfloor n) && (Qfloor n <? 2 ^ 32).

Definition combinedForecast_number (timeSeries : list Q) (forecastDays : Q)
  : result (list Q) :=
  if is_array_length forecastDays then
    SimpleForecast.combinedForecast timeSeries (Z.to_nat (Qfloor forecastDays))
  else Throw (RangeError "Invalid array length").

(** One turn of the [for (const item of inventory)] loop: the item's entry
    for [forecasts], or its entry for [errors] (pushed before [continue] or
    by the [catch]).  The forecasts of the combined method are whole
    numbers, which add up exactly. *)
Definition forecast_item (w : World) (days : Q) (item : InventoryItem)
  : BatchForecast + BatchError :=
  let attempt : result (BatchForecast + BatchError) :=
    salesData ← getSalesData w (item_sku item) None None;
    if (length salesData =? 0)%nat then
      Ok (inr {| be_sku := item_sku item; be_error := "No sales data found" |})
    else
      let timeSeries := prepareSalesData (timeZone w) salesData in
      forecast ← combinedForecast_number timeSeries days;
      let totalPredictedDemand := foldl Qplus 0%Q forecast in
      let reorderNeeded := gtb totalPredictedDemand (quantity item) in
      Ok (inl {|
        bf_sku := item_sku item;
        bf_name := name item;
        bf_currentStock := quantity item;
        bf_reorderLevel := reorder_level item;
        bf_predictedDemand := totalPredictedDemand;
        reorderNeeded := reorderNeeded;
        bf_priority :=
          if Qle_bool (quantity item) (reorder_level item) then high
          else if reorderNeeded then medium else low |}) in
  match attempt with
  | Ok entry => entry
  | Throw error => inr {| be_sku := item_sku item; be_error := message error |}
  end.

Definition batch_loop (w : World) (days : Q) (inventory : list InventoryItem)
  : list BatchForecast * list BatchError :=
  foldl (fun '(forecasts, errors) item =>
           match forecast_item w days item with
           | inl f => (forecasts ++ [f], errors)
           | inr e => (forecasts, errors ++ [e])
           end)
        ([], []) inventory.

Definition by_priority (a b : BatchForecast) : Z :=
  priorityOrder (bf_priority b) - priorityOrder (bf_priority a).

(** [router.post('/generate-all')].  [days] is the field of the body, a
    number, default 30; the route hands it to [combinedForecast] as it
    came, neither parsed nor limited. *)
Definition generate_all_try (w : World) (days : option Q) : result Response :=
  let days := default 30%Q days in
  inventory ← getInventory w;
  if (length inventory =? 0)%nat then
    Ok (Status404 "No Data" "No inventory items found")
  else
    let '(forecasts, errors) := batch_loop w days inventory in
    let forecasts := sort_by by_priority forecasts in
    Ok (JsonBatch {|
      totalSkus := length inventory;
      successfulForecasts := length forecasts;
      errors := length errors;
      forecasts := forecasts;
      highPriority := length (filter (fun f => bf_priority f = high) forecasts);
      mediumPriority := length (filter (fun f => bf_priority f = medium) forecasts);
      summary_reorderNeeded := length (filter (fun f => reorderNeeded f = true) forecasts);
      errorDetails := if (0 <? length errors)%nat then Some errors else None |}).

Definition generate_all (w : World) (days : option Q) : Response :=
  match generate_all_try w days with
  | Ok response => response
  | Throw _ => Status500 "Internal Server Error" "Failed to generate batch forecasts"
  end.

(** ** [GET /dashboard/summary] and [GET /:sku] *)

(** [combinedForecast(timeSeries, parseInt(days))] where the horizon is not
    clamped: [exponentialSmoothing] evaluates [Array(forecastDays)] on every
    path and [linearTrend] before it either does the same or loops zero
    times, so a negative horizon or [NaN] is a [RangeError]. *)
Definition combinedForecast_parsed (timeSeries : list Q) (forecastDays : IntOrNaN)
  : result (list Q) :=
  match forecastDays with
  | Int n =>
    if n <? 0 then Throw (RangeError "Invalid array length")
    else SimpleForecast.combinedForecast timeSeries (Z.to_nat n)
  | NaN => Throw (RangeError "Invalid array length")
  end.

Record QuickForecast : Type := {
  qf_sku : string;
  qf_name : string;
  qf_predictedDemand : Z;
  qf_totalSales : Q
}.

Record SummaryData : Type := {
  quickForecasts : list QuickForecast;
  lowStockCount : nat;
  lowStockItems : list InventoryItem;
  trendingSKUs : list QuickForecast;
  accuracy : Z;
  demandTrend : Z;
  accuracyTrend : Z
}.

Inductive SummaryResponse : Type :=
| SummaryJson (data : SummaryData)
| SummaryStatus500 (error message : string).

(** One turn of the loop over the first five items.  Both [push]es come
    after the calls that can throw, so an exception leaves the two arrays as
    they were. *)
Definition summary_item (w : World) (days : IntOrNaN)
    (state : list QuickForecast * list InventoryItem) (item : InventoryItem)
  : list QuickForecast * list InventoryItem :=
  let '(quickForecasts, lowStockItems) := state in
  let attempt : result (list QuickForecast * list InventoryItem) :=
    salesData ← getSalesData w (item_sku item) None None;
    quickForecasts ←
      (if (2 <=? length salesData)%nat then
         let timeSeries := prepareSalesData (timeZone w) salesData in
         forecast ← combinedForecast_parsed timeSeries days;
         let totalPredictedDemand := foldl Qplus 0%Q forecast in
         Ok (quickForecasts ++
             [{| qf_sku := item_sku item;
                 qf_name := name item;
                 qf_predictedDemand := Math.round totalPredictedDemand;
                 qf_totalSales :=
                   foldl (fun sum record => sum + units_sold record)%Q 0%Q salesData |}])
       else Ok quickForecasts);
    let lowStockItems :=
      if Qle_bool (quantity item) (reorder_level item)
      then lowStockItems ++ [item] else lowStockItems in
    Ok (quickForecasts, lowStockItems) in
  match attempt with
  | Ok state => state
  | Throw _ => (quickForecasts, lowStockItems)
  end.

Definition by_predictedDemand (a b : QuickForecast) : Z :=
  qf_predictedDemand b - qf_predictedDemand a.

(** The first [router.get('/dashboard/summary')], the one that answers.
    [days] is [parseInt] of the query field, default 7; [random] is the
    value [Math.random()] returns.  The response object is built field by
    field, so [quickForecasts.sort] has sorted the array in place before
    [quickForecasts.slice(0, 3)] reads it. *)
Definition dashboard_summary_try (w : World) (random : Q) (days : option IntOrNaN)
  : result SummaryResponse :=
  let days := default (Int 7) days in
  inventory ← getInventory w;
  if (length inventory =? 0)%nat then
    Ok (SummaryJson {|
      quickForecasts := []; lowStockCount := 0; lowStockItems := [];
      trendingSKUs := []; accuracy := 85; demandTrend := 5; accuracyTrend := 2 |})
  else
    let '(quickForecasts, lowStockItems) :=
      foldl (summary_item w days) ([], []) (take 5 inventory) in
    let accuracy :=
      Math.minZ 95 (Math.maxZ 70
        (75 + Math.floor (inject_Z (Z.of_nat (length quickForecasts)) * 3))) in
    let demandTrend :=
      if (0 <? length quickForecasts)%nat then
        Math.round
          (double.mul
             (double.div
                (foldl (fun sum f => sum + (inject_Z (qf_predictedDemand f) - qf_totalSales f))%Q
                       0%Q quickForecasts)
                (inject_Z (Z.of_nat (length quickForecasts))))
             (1 # 10))
      else 0 in
    let accuracyTrend := Math.floor (double.sub (double.mul random 6) 1) in
    let quickForecasts := sort_by by_predictedDemand quickForecasts in
    Ok (SummaryJson {|
      quickForecasts := quickForecasts;
      lowStockCount := length lowStockItems;
      lowStockItems := lowStockItems;
      trendingSKUs := take 3 quickForecasts;
      accuracy := Math.maxZ 0 (Math.minZ 100 accuracy);
      demandTrend := Math.maxZ (-20) (Math.minZ 30 demandTrend);
      accuracyTrend := Math.maxZ (-5) (Math.minZ 8 accuracyTrend) |}).

Definition dashboard_summary (w : World) (random : Q) (days : option IntOrNaN)
  : SummaryResponse :=
  match dashboard_summary_try w random days with
  | Ok response => response
  | Throw _ => SummaryStatus500 "Internal Server Error" "Failed to generate dashboard summary"
  end.

(** [a.slice(0, end)]: [NaN] is 0 and a negative [end] counts from the end. *)
Definition slice_0 {A} (final : IntOrNaN) (a : list A) : list A :=
  let len := Z.of_nat (length a) in
  let k :=
    match final with
    | Int e => if e <? 0 then Z.max (len + e) 0 else Z.min e len
    | NaN => 0
    end in
  take (Z.to_nat k) a.

Inductive SavedResponse (A : Type) : Type :=
| SavedJson (data : list A) (count : nat)
| SavedStatus400 (error message : string)
| SavedStatus500 (error message : string).
Arguments SavedJson {A} data count.
Arguments SavedStatus400 {A} error message.
Arguments SavedStatus500 {A} error message.

(** [router.get('/:sku')]: the saved forecasts of a sku, as
    [dbHelpers.getForecast] returns them; [limit] is [parseInt] of the query
    field, default 30. *)
Definition saved_forecasts {A} (getForecast : string -> result (list A))
    (sku : string) (limit : option IntOrNaN) : SavedResponse A :=
  let limit := default (Int 30) limit in
  if decide (sku = "") then SavedStatus400 "Bad Request" "SKU is required"
  else
    match getForecast sku with
    | Ok forecasts => SavedJson (slice_0 limit forecasts) (length forecasts)
    | Throw _ => SavedStatus500 "Internal Server Error" "Failed to fetch forecasts"
    end.

(** * Vocabulary of the properties, and example inputs *)

(** ** Moving average *)

(** The last [n] values of a series, and the mean of a list of numbers. *)
Definition lastn (n : nat) (l : list Q) : list Q := drop (length l - n) l.

Definition average (l : list Q) : Q := (ss.sum l / inject_Z (Z.of_nat (length l)))%Q.

(** The helper in the words of the specification: the mean of the last
    [min(periods, len(series))] values, 0 on the empty series. *)
Definition movingAverage_spec (data : list Q) (periods : Z) : Q :=
  match data with
  | [] => 0%Q
  | _ => average (lastn (Z.to_nat (Z.min periods (Z.of_nat (length data)))) data)
  end.

(** ** Observations *)

Definition sale (d u : Z) : SalesRecord := {| date := d; units_sold := inject_Z u |}.

(** The first and the last observed day, and the quantity sold on a day. *)
Definition d_min (records : list SalesRecord) : Z :=
  match records with
  | [] => 0
  | r :: rs => foldr Z.min (date r) (map date rs)
  end.

Definition d_max (records : list SalesRecord) : Z :=
  match records with
  | [] => 0
  | r :: rs => foldr Z.max (date r) (map date rs)
  end.

Definition sold_on (d : Z) (records : list SalesRecord) : Q :=
  ss.sum (map units_sold (filter (fun r => date r = d) records)).

(** What [dailySales[d] || 0] reads. *)
Definition reads (dailySales : gmap Z Q) (d : Z) : Q := or_undef (dailySales !! d) 0.

(** ** Time zones *)

(** The zone has the local midnight of every day from [first] to [final]:
    its clocks are not put forward at midnight on any of them. *)
Definition midnights_exist (tz : TimeZone) (first final : Z) : Prop :=
  forall d : Z, first <= d <= final -> gap tz (d * msPerDay) = 0.

(** A zone whose clocks are never put forward. *)
Definition utc : TimeZone :=
  {| gap := fun _ => 0;
     gap_range := fun _ => conj (Z.le_refl 0) (Pos2Z.is_nonneg 86400000) |}.

(** The first Sunday of November 2018, day 17839 of the epoch: at
    midnight the clocks of America/Sao_Paulo went from 00:00 to 01:00. *)
Definition dst_start : Z := 17839.

(** America/Sao_Paulo around that day: the first hour of [dst_start] is
    skipped. *)
Definition sao_paulo : TimeZone.
Proof.
  refine {| gap := fun reading =>
              if (dst_start * msPerDay <=? reading)
                 && (reading <? dst_start * msPerDay + 3600000)
              then 3600000 else 0 |}.
  intros reading. destruct (_ && _); unfold msPerDay; lia.
Defined.

(** ** Requests and responses *)

(** The forecast points of a response, from the forecast they are built of. *)
Definition points (w : World) (sku : string) (forecast : list Q) : list ForecastPoint :=
  imap (fun index value =>
          {| fp_date := today w + (Z.of_nat index + 1);
             predicted_demand := value;
             fp_sku := sku |}) forecast.

(** The method a request is served with. *)
Definition served_method (method : string) : string :=
  if decide (method = "linear") then "linear"
  else if decide (method = "exponential") then "exponential"
  else if decide (method = "seasonal") then "seasonal"
  else "combined".

(** A response that refuses the request as invalid. *)
Definition rejected (r : Response) : Prop :=
  match r with
  | Status400 _ _ => True
  | _ => False
  end.

(** A request that the validation of the specification would refuse. *)
Definition invalid_request (req : Request) : Prop :=
  sku req = "" \/
  match default (Int 30) (days req) with
  | Int n => ~ (1 <= n <= 90)
  | NaN => True
  end \/
  default "combined" (method req) ∉ ["linear"; "exponential"; "seasonal"; "combined"].

(** The same request with another method, and the same response with
    another [requestedMethod] echoed. *)
Definition with_method (m : string) (req : Request) : Request :=
  {| sku := sku req; days := days req; method := Some m;
     startDate := startDate req; endDate := endDate req |}.

Definition echo_method (m : string) (r : Response) : Response :=
  match r with
  | Json d =>
    Json {| data_sku := data_sku d; data_method := data_method d;
            requestedMethod := m; period_days := period_days d;
            period_startDate := period_startDate d; period_endDate := period_endDate d;
            totalRecords := totalRecords d;
            historical_averageDailyDemand := historical_averageDailyDemand d;
            totalHistoricalSales := totalHistoricalSales d;
            forecast := forecast d; totalPredictedDemand := totalPredictedDemand d;
            averageDailyDemand := averageDailyDemand d; peakDay := peakDay d;
            reorderSuggestion := reorderSuggestion d |}
  | _ => r
  end.

(** ** The batch *)

(** The entry of an item in [forecasts], when it has one. *)
Definition success (w : World) (days : Q) (item : InventoryItem) : option BatchForecast :=
  match forecast_item w days item with
  | inl f => Some f
  | inr _ => None
  end.

Definition has_priority (p : Priority) (f : BatchForecast) : Prop := bf_priority f = p.

#[global] Instance has_priority_dec p f : Decision (has_priority p f).
Proof. unfold has_priority. apply _. Defined.

(** ** Example inputs *)

(** A world with one sale of 5 units on day 0, read on day 10, and no
    inventory row; and requests against it. *)
Definition one_sale_world : World := {|
  getSalesData := fun _ _ _ => Ok [sale 0 5];
  getInventoryBySku := fun _ => Throw (Error "no rows");
  getInventory := Ok [];
  today := 10;
  timeZone := utc
|}.

Definition three_day_request : Request :=
  {| sku := "SKU-1"; days := Some (Int 3); method := None;
     startDate := None; endDate := None |}.

Definition out_of_range_request : Request :=
  {| sku := "SKU-1"; days := Some (Int 200); method := Some "prophet";
     startDate := None; endDate := None |}.

Definition no_data : ForecastData :=
  {| data_sku := ""; data_method := ""; requestedMethod := ""; period_days := 0;
     period_startDate := None; period_endDate := None; totalRecords := 0;
     historical_averageDailyDemand := 0; totalHistoricalSales := 0;
     forecast := []; totalPredictedDemand := 0; averageDailyDemand := 0;
     peakDay := {| fp_date := 0; predicted_demand := 0; fp_sku := "" |};
     reorderSuggestion := None |}.

(** The data of the response to [three_day_request]. *)
Definition three_day_data : ForecastData :=
  Eval vm_compute in
    match generate one_sale_world three_day_request with
    | Json data => data
    | _ => no_data
    end.

(** An inventory row by its sku, stock and reorder level. *)
Definition item (sku : string) (quantity reorder_level : Z) : InventoryItem :=
  {| item_sku := sku; name := sku;
     quantity := inject_Z quantity; reorder_level := inject_Z reorder_level |}.

(** A world with three days of sales, of 1, 1 and 5 units, and a stock of
    70 with a reorder level of 250; and a request for thirty days of the
    seasonal method. *)
Definition short_season_world : World := {|
  getSalesData := fun _ _ _ => Ok [sale 0 1; sale 1 1; sale 2 5];
  getInventoryBySku := fun sku => Ok (item sku 70 250);
  getInventory := Ok [];
  today := 10;
  timeZone := utc
|}.

Definition seasonal_request : Request :=
  {| sku := "SKU-1"; days := Some (Int 30); method := Some "seasonal";
     startDate := None; endDate := None |}.

(** A world with three sales records on two days forty days apart, 23
    units in all. *)
Definition forty_day_world : World := {|
  getSalesData := fun _ _ _ => Ok [sale 0 20; sale 39 0; sale 0 3];
  getInventoryBySku := fun _ => Throw (Error "no rows");
  getInventory := Ok [];
  today := 50;
  timeZone := utc
|}.

(** An inventory of five items; every sku but "E" has one sale of 5 units. *)

Definition five_item_world : World := {|
  getSalesData := fun sku _ _ => if decide (sku = "E") then Ok [] else Ok [sale 0 5];
  getInventoryBySku := fun _ => Throw (Error "no rows");
  getInventory := Ok [item "A" 100 10; item "B" 5 10; item "E" 1 1; item "C" 8 2; item "D" 0 0];
  today := 10;
  timeZone := utc
|}.

(** The data of the response to a batch run of two days over it. *)
Definition five_item_batch : BatchData :=
  Eval vm_compute in
    match generate_all five_item_world (Some 2%Q) with
    | JsonBatch data => data
    | _ => {| totalSkus := 0; successfulForecasts := 0; errors := 0; forecasts := [];
              highPriority := 0; mediumPriority := 0; summary_reorderNeeded := 0;
              errorDetails := None |}
    end.

(** The entry of an item in [errors], when it has one. *)
Definition failure (w : World) (days : Q) (item : InventoryItem) : option BatchError :=
  match forecast_item w days item with
  | inl _ => None
  | inr e => Some e
  end.

(** ** The dashboard loop, item by item *)

(** The quick forecast of an item, when the turn of the loop makes one; and
    whether the turn runs to its end, without an exception. *)
Definition quick_of (w : World) (days : IntOrNaN) (item : InventoryItem)
  : option QuickForecast :=
  match getSalesData w (item_sku item) None None with
  | Ok salesData =>
    if (2 <=? length salesData)%nat then
      match combinedForecast_parsed (prepareSalesData (timeZone w) salesData) days with
      | Ok forecast =>
        Some {| qf_sku := item_sku item;
                qf_name := name item;
                qf_predictedDemand := Math.round (foldl Qplus 0%Q forecast);
                qf_totalSales :=
                  foldl (fun sum record => sum + units_sold record)%Q 0%Q salesData |}
      | Throw _ => None
      end
    else None
  | Throw _ => None
  end.

Definition completes (w : World) (days : IntOrNaN) (item : InventoryItem) : bool :=
  match getSalesData w (item_sku item) None None with
  | Ok salesData =>
    if (2 <=? length salesData)%nat then
      match combinedForecast_parsed (prepareSalesData (timeZone w) salesData) days with
      | Ok _ => true
      | Throw _ => false
      end
    else true
  | Throw _ => false
  end.

Definition low_stock (item : InventoryItem) : bool :=
  Qle_bool (quantity item) (reorder_level item).

Definition reported_low (w : World) (days : IntOrNaN) (item : InventoryItem) : Prop :=
  completes w days item && low_stock item = true.

#[global] Instance reported_low_dec w days item : Decision (reported_low w days item).
Proof. unfold reported_low. apply _. Defined.

Definition is_low (item : InventoryItem) : Prop := low_stock item = true.

#[global] Instance is_low_dec item : Decision (is_low item).
Proof. unfold is_low. apply _. Defined.

(** ** Example inputs for the dashboard *)

(** An inventory of six items for the dashboard: "A", "B" and "C" have
    sales on several days, "D" has one sale, the sales of "E" cannot be
    read, and "F" is the sixth item. *)
Definition dashboard_world : World := {|
  getSalesData := fun sku _ _ =>
    if decide (sku = "A") then Ok [sale 0 5; sale 1 7]
    else if decide (sku = "B") then Ok [sale 0 1; sale 1 1; sale 2 1]
    else if decide (sku = "C") then Ok [sale 0 9; sale 2 9]
    else if decide (sku = "E") then Throw (Error "connection lost")
    else Ok [sale 0 5];
  getInventoryBySku := fun _ => Throw (Error "no rows");
  getInventory :=
    Ok [item "A" 100 10; item "B" 5 10; item "C" 8 2; item "D" 0 0; item "E" 1 1;
        item "F" 0 3];
  today := 10;
  timeZone := utc
|}.

(** The data of its dashboard for three days, with [Math.random()] = 1/2. *)
Definition dashboard_data : SummaryData :=
  Eval vm_compute in
    match dashboard_summary dashboard_world (1 # 2) (Some (Int 3)) with
    | SummaryJson data => data
    | _ => {| quickForecasts := []; lowStockCount := 0; lowStockItems := [];
              trendingSKUs := []; accuracy := 0; demandTrend := 0; accuracyTrend := 0 |}
    end.

(** ** Proof steps for the priority groups *)

Ltac decide_priority Hx :=
  repeat match goal with
  | |- context [decide (has_priority ?p ?x)] =>
    first [ rewrite (decide_True (P := has_priority p x)) by exact Hx
          | rewrite (decide_False (P := has_priority p x))
              by (unfold has_priority; rewrite Hx; discriminate) ]
  end.

Ltac ranks Hx :=
  unfold has_priority, by_priority; intros ? ->; rewrite Hx; simpl; lia.

(** * Properties *)

Import SimpleForecast.

(** ** Numbers *)

Lemma Math_max_0_nonneg (x : Q) : (0 <= Math.max 0 x)%Q.
Proof.
  unfold Math.max. destruct (Qle_bool 0 x) eqn:E.
  - by apply Qle_bool_iff.
  - apply Qle_refl.
Qed.

Lemma or_num_0 (x : Q) : (or_num x 0 == x)%Q.
Proof.
  unfold or_num, falsy. destruct (Qeq_bool x 0) eqn:E; [|reflexivity].
  symmetry. by apply Qeq_bool_iff.
Qed.

Lemma length_fill n v : length (fill n v) = n.
Proof. apply length_replicate. Qed.

Lemma Forall_fill (P : Q -> Prop) n v : P v -> Forall P (fill n v).
Proof. intros Hv. apply Forall_replicate. exact Hv. Qed.

Lemma mapM_Ok {A B} (g : A -> B) (f : A -> result B) (l : list A) :
  (forall x, f x = Ok (g x)) -> mapM f l = Ok (map g l).
Proof.
  intros Hf. induction l as [|x xs IH]; [reflexivity|].
  simpl. rewrite Hf, IH. reflexivity.
Qed.

Lemma sum_nonneg (l : list Q) : Forall (Qle 0) l -> (0 <= ss.sum l)%Q.
Proof.
  unfold ss.sum. assert (H : forall a, (0 <= a)%Q -> Forall (Qle 0) l -> (0 <= foldl Qplus a l)%Q).
  { induction l as [|x xs IH]; intros a Ha Hl; [exact Ha|].
    inversion Hl; subst. simpl. apply IH; [|assumption]. lra. }
  apply H. lra.
Qed.

Lemma mean_nonneg (l : list Q) (v : Q) :
  Forall (Qle 0) l -> ss.mean l = Ok v -> (0 <= v)%Q.
Proof.
  intros Hl. destruct l as [|x xs]; [discriminate|].
  unfold ss.mean. intros [= <-].
  apply Qle_shift_div_l.
  - change 0%Q with (inject_Z 0). rewrite <- Zlt_Qlt. simpl length. lia.
  - rewrite Qmult_0_l. by apply sum_nonneg.
Qed.

Lemma mean_ok_iff (l : list Q) : (exists v, ss.mean l = Ok v) <-> l <> [].
Proof.
  destruct l; simpl; split; try congruence; eauto.
  intros [v [=]].
Qed.

(** ** Binary64 *)

Lemma rnd_comp (x y : Q) : (x == y)%Q -> double.rnd x = double.rnd y.
Proof. intros H. unfold double.rnd. by rewrite (Qred_complete x y H). Qed.

Lemma pow2_pos (e : Z) : (0 < double.pow2 e)%Q.
Proof.
  unfold double.pow2. destruct (0 <=? e) eqn:E.
  - apply Z.leb_le in E. change 0%Q with (inject_Z 0). rewrite <- Zlt_Qlt.
    by apply Z.pow_pos_nonneg.
  - apply Z.leb_gt in E. apply Qinv_lt_0_compat.
    change 0%Q with (inject_Z 0). rewrite <- Zlt_Qlt.
    apply Z.pow_pos_nonneg; lia.
Qed.

Lemma nearest_even_nonneg (x : Q) : (0 <= x)%Q -> 0 <= double.nearest_even x.
Proof.
  intros Hx. unfold double.nearest_even.
  assert (0 <= Qfloor x).
  { change 0%Q with (inject_Z 0) in Hx. apply Qfloor_resp_le in Hx.
    by rewrite Qfloor_Z in Hx. }
  destruct (_ ?= _)%Q; [destruct (Z.even _)| |]; lia.
Qed.

Lemma nearest_even_Z (x : Q) (n : Z) : (x == inject_Z n)%Q -> double.nearest_even x = n.
Proof.
  intros Hx. unfold double.nearest_even.
  rewrite (Qfloor_comp _ _ Hx), Qfloor_Z.
  replace (x - inject_Z n ?= 1 # 2)%Q with Lt; [reflexivity|].
  symmetry. apply Qlt_alt.
  assert (x - inject_Z n == 0)%Q as -> by (rewrite Hx; ring). reflexivity.
Qed.

Lemma rnd_nonneg (x : Q) : (0 <= x)%Q -> (0 <= double.rnd x)%Q.
Proof.
  intros Hx. unfold double.rnd. destruct (Qeq_bool _ _); [discriminate|].
  rewrite Qred_correct. apply Qmult_le_0_compat.
  - change 0%Q with (inject_Z 0). rewrite <- Zle_Qle. apply nearest_even_nonneg.
    apply Qmult_le_0_compat; [by rewrite Qred_correct | apply Qlt_le_weak, pow2_pos].
  - apply Qlt_le_weak, pow2_pos.
Qed.

Lemma add_nonneg (x y : Q) : (0 <= x)%Q -> (0 <= y)%Q -> (0 <= double.add x y)%Q.
Proof.
  intros Hx Hy. apply rnd_nonneg.
  pose proof (rnd_nonneg x Hx). pose proof (rnd_nonneg y Hy). lra.
Qed.

Lemma Qred_inject_Z (n : Z) : Qred (inject_Z n) = inject_Z n.
Proof.
  unfold Qred, inject_Z. pose proof (Z.ggcd_gcd n 1) as Hg.
  pose proof (Z.ggcd_correct_divisors n 1) as Hd.
  destruct (Z.ggcd n 1) as [g [aa bb]]. simpl in *.
  rewrite Z.gcd_1_r in Hg. subst g. destruct Hd as [Ha Hb].
  assert (bb = 1) as -> by lia. assert (aa = n) as -> by lia. reflexivity.
Qed.

(** Whole numbers below 2^53 are numbers of binary64. *)
Lemma rnd_whole (x : Q) (n : Z) :
  (x == inject_Z n)%Q -> Z.abs n < 2 ^ 53 -> double.rnd x = inject_Z n.
Proof.
  intros Hx Hn. rewrite (rnd_comp x (inject_Z n) Hx). unfold double.rnd.
  rewrite Qred_inject_Z.
  destruct (Qeq_bool (inject_Z n) 0) eqn:E0.
  { apply Qeq_bool_iff in E0. change 0%Q with (inject_Z 0) in E0.
    apply (proj1 (inject_Z_injective n 0)) in E0. by rewrite E0. }
  assert (Hn0 : n <> 0).
  { intros ->. discriminate. }
  assert (Hlog : double.ilog2 (Qabs (inject_Z n)) = Z.log2 (Z.abs n)).
  { unfold double.ilog2. simpl. rewrite Z.sub_0_r.
    pose proof (Z.log2_nonneg (Z.abs n)) as Hk.
    replace (0 <=? Z.log2 (Z.abs n)) with true by (symmetry; apply Z.leb_le; lia).
    replace (1 * 2 ^ Z.log2 (Z.abs n) <=? Z.abs n) with true; [reflexivity|].
    symmetry. apply Z.leb_le. pose proof (Z.log2_spec (Z.abs n)). lia. }
  unfold double.last_place. rewrite Hlog.
  assert (Hk : 0 <= Z.log2 (Z.abs n) <= 52).
  { split; [apply Z.log2_nonneg|].
    assert (Z.log2 (Z.abs n) < 53); [|lia].
    apply Z.log2_lt_pow2; lia. }
  rewrite Z.max_l by lia.
  set (k := 52 - Z.log2 (Z.abs n)).
  replace (- (Z.log2 (Z.abs n) - 52)) with k by (subst k; lia).
  replace (Z.log2 (Z.abs n) - 52) with (- k) by (subst k; lia).
  assert (0 <= k) by (subst k; lia).
  assert (Hp : (double.pow2 k == inject_Z (2 ^ k))%Q).
  { unfold double.pow2. replace (0 <=? k) with true by (symmetry; apply Z.leb_le; lia).
    reflexivity. }
  assert (Hm : (double.pow2 (- k) * inject_Z (2 ^ k) == 1)%Q).
  { unfold double.pow2. destruct (0 <=? - k) eqn:E.
    - apply Z.leb_le in E. assert (k = 0) as -> by lia. reflexivity.
    - rewrite Z.opp_involutive. rewrite Qmult_comm. apply Qmult_inv_r.
      change 0%Q with (inject_Z 0). intros Heq. apply (proj1 (inject_Z_injective _ 0)) in Heq.
      pose proof (Z.pow_pos_nonneg 2 k). lia. }
  rewrite (nearest_even_Z _ (n * 2 ^ k)).
  2:{ rewrite Hp, inject_Z_mult. reflexivity. }
  transitivity (Qred (inject_Z n)); [|apply Qred_inject_Z]. apply Qred_complete.
  rewrite inject_Z_mult, <- Qmult_assoc, (Qmult_comm (inject_Z (2 ^ k))), Hm. ring.
Qed.

Lemma sub_whole (x y : Q) (n k : Z) :
  (x == inject_Z n)%Q -> (y == inject_Z k)%Q ->
  Z.abs n < 2 ^ 53 -> Z.abs k < 2 ^ 53 -> Z.abs (n - k) < 2 ^ 53 ->
  double.sub x y = inject_Z (n - k).
Proof.
  intros Hx Hy Hn Hk Hnk. unfold double.sub.
  rewrite (rnd_whole x n Hx Hn), (rnd_whole y k Hy Hk).
  apply rnd_whole; [|exact Hnk].
  unfold Z.sub. rewrite inject_Z_plus, inject_Z_opp. reflexivity.
Qed.

Lemma add_whole (x y : Q) (n k : Z) :
  (x == inject_Z n)%Q -> (y == inject_Z k)%Q ->
  Z.abs n < 2 ^ 53 -> Z.abs k < 2 ^ 53 -> Z.abs (n + k) < 2 ^ 53 ->
  double.add x y = inject_Z (n + k).
Proof.
  intros Hx Hy Hn Hk Hnk. unfold double.add.
  rewrite (rnd_whole x n Hx Hn), (rnd_whole y k Hy Hk).
  apply rnd_whole; [|exact Hnk]. rewrite inject_Z_plus. reflexivity.
Qed.

(** The model on well-known values: 0.1 is 3602879701896397 / 2^55, the sum
    0.1 + 0.2 is 0.30000000000000004, the quotient 9 / (9 / 7) is just below
    7, and 1e-320 rounds to the subnormal 2024 * 2^-1074. *)
Example rnd_tenth : double.rnd (1 # 10) = (3602879701896397 # 36028797018963968)%Q.
Proof. vm_compute. reflexivity. Qed.

Example add_tenth_fifth :
  double.add (1 # 10) (2 # 10) = (1351079888211149 # 4503599627370496)%Q.
Proof. vm_compute. reflexivity. Qed.

Example div_nine_sevenths :
  double.div 9 (double.div 9 7) = (7881299347898367 # 1125899906842624)%Q.
Proof. vm_compute. reflexivity. Qed.

Example rnd_subnormal :
  (double.rnd (1 # 10 ^ 320) == 2024 * double.pow2 (-1074))%Q.
Proof. apply Qeq_bool_iff. vm_compute. reflexivity. Qed.

(** *** The error of a rounding *)

Lemma pow2_Qpower (e : Z) : (double.pow2 e == 2 ^ e)%Q.
Proof.
  unfold double.pow2. destruct (0 <=? e) eqn:E.
  - apply Z.leb_le in E. by rewrite Zpower_Qpower.
  - apply Z.leb_gt in E. rewrite Zpower_Qpower by lia.
    rewrite <- Qpower_opp, Z.opp_involutive. reflexivity.
Qed.

Lemma pow2_add (a b : Z) : (double.pow2 (a + b) == double.pow2 a * double.pow2 b)%Q.
Proof. rewrite !pow2_Qpower. by apply Qpower_plus. Qed.

Lemma pow2_0 : (double.pow2 0 == 1)%Q.
Proof. reflexivity. Qed.

Lemma pow2_opp (e : Z) : (double.pow2 (- e) * double.pow2 e == 1)%Q.
Proof. rewrite <- pow2_add. replace (- e + e) with 0 by lia. reflexivity. Qed.

(** The test of [ilog2], on a fraction. *)
Lemma pow2_le_fraction (j : Z) (p : Z) (q : positive) :
  (double.pow2 j <= p # q)%Q <->
  (if 0 <=? j then Zpos q * 2 ^ j <= p else Zpos q <= p * 2 ^ (- j)).
Proof.
  unfold double.pow2. destruct (0 <=? j) eqn:E.
  - unfold Qle. simpl. lia.
  - apply Z.leb_gt in E.
    pose proof (Z.pow_pos_nonneg 2 (- j)) as Hpos.
    destruct (2 ^ (- j)) as [|n|n] eqn:Hn; [lia| |lia].
    unfold Qle, Qinv. simpl. lia.
Qed.

Lemma ilog2_spec (x : Q) :
  (0 < x)%Q ->
  (double.pow2 (double.ilog2 x) <= x)%Q /\ (x < double.pow2 (double.ilog2 x + 1))%Q.
Proof.
  destruct x as [p q]. intros Hx.
  assert (Hp : 0 < p) by (unfold Qlt in Hx; simpl in Hx; lia).
  unfold double.ilog2. simpl Qnum. simpl Qden.
  set (a := Z.log2 p). set (b := Z.log2 (Zpos q)). set (k := a - b).
  assert (Ha : 2 ^ a <= p < 2 ^ (a + 1)).
  { pose proof (Z.log2_spec p Hp). subst a. by rewrite <- Z.add_1_r in H. }
  assert (Hb : 2 ^ b <= Zpos q < 2 ^ (b + 1)).
  { pose proof (Z.log2_spec (Zpos q) ltac:(lia)). subst b. by rewrite <- Z.add_1_r in H. }
  assert (Ha0 : 0 <= a) by apply Z.log2_nonneg.
  assert (Hb0 : 0 <= b) by apply Z.log2_nonneg.
  assert (Hlt : forall j, k < j -> ~ (double.pow2 j <= p # q)%Q).
  { intros j Hj. rewrite pow2_le_fraction. destruct (0 <=? j) eqn:E.
    - apply Z.leb_le in E.
      assert (2 ^ (a + 1) <= 2 ^ b * 2 ^ j).
      { rewrite <- Z.pow_add_r by lia. apply Z.pow_le_mono_r; lia. }
      assert (2 ^ b * 2 ^ j <= Zpos q * 2 ^ j).
      { apply Z.mul_le_mono_nonneg_r; [apply Z.pow_nonneg|]; lia. }
      lia.
    - apply Z.leb_gt in E.
      assert (2 ^ (a + 1) * 2 ^ (- j) <= 2 ^ b).
      { rewrite <- Z.pow_add_r by lia. apply Z.pow_le_mono_r; lia. }
      assert (p * 2 ^ (- j) < 2 ^ (a + 1) * 2 ^ (- j)).
      { apply Z.mul_lt_mono_pos_r; [apply Z.pow_pos_nonneg|]; lia. }
      lia. }
  assert (Hge : forall j, j < k -> (double.pow2 j <= p # q)%Q).
  { intros j Hj. rewrite pow2_le_fraction. destruct (0 <=? j) eqn:E.
    - apply Z.leb_le in E.
      assert (2 ^ (b + 1) * 2 ^ j <= 2 ^ a).
      { rewrite <- Z.pow_add_r by lia. apply Z.pow_le_mono_r; lia. }
      assert (Zpos q * 2 ^ j <= 2 ^ (b + 1) * 2 ^ j).
      { apply Z.mul_le_mono_nonneg_r; [apply Z.pow_nonneg|]; lia. }
      lia.
    - apply Z.leb_gt in E.
      assert (2 ^ (b + 1) <= 2 ^ a * 2 ^ (- j)).
      { rewrite <- Z.pow_add_r by lia. apply Z.pow_le_mono_r; lia. }
      assert (2 ^ a * 2 ^ (- j) <= p * 2 ^ (- j)).
      { apply Z.mul_le_mono_nonneg_r; [apply Z.pow_nonneg|]; lia. }
      lia. }
  pose proof (pow2_le_fraction k p q) as Htest.
  destruct (if 0 <=? k then Zpos q * 2 ^ k <=? p else Zpos q <=? p * 2 ^ (- k)) eqn:Et.
  - split.
    + apply Htest. destruct (0 <=? k); by apply Z.leb_le.
    + apply Qnot_le_lt. apply Hlt. lia.
  - split.
    + apply Hge. lia.
    + replace (k - 1 + 1) with k by lia. apply Qnot_le_lt. intros Hle.
      apply Htest in Hle. destruct (0 <=? k); apply Z.leb_gt in Et; lia.
Qed.

Lemma Qabs_pos_eq (x : Q) : (0 < x)%Q -> Qabs x = x.
Proof.
  destruct x as [p q]. unfold Qlt. simpl. intros Hp. unfold Qabs. f_equal. lia.
Qed.

Lemma nearest_even_near (y : Q) :
  (y - (1 # 2) <= inject_Z (double.nearest_even y) <= y + (1 # 2))%Q.
Proof.
  unfold double.nearest_even.
  pose proof (Qfloor_le y) as Hlo. pose proof (Qlt_floor y) as Hhi.
  rewrite inject_Z_plus in Hhi. change (inject_Z 1) with 1%Q in Hhi.
  destruct (y - inject_Z (Qfloor y) ?= 1 # 2)%Q eqn:E.
  - apply Qeq_alt in E.
    destruct (Z.even (Qfloor y)); rewrite ?inject_Z_plus; change (inject_Z 1) with 1%Q; lra.
  - apply Qlt_alt in E. lra.
  - apply Qgt_alt in E. rewrite inject_Z_plus. change (inject_Z 1) with 1%Q. lra.
Qed.

(** The binary64 numbers from 2^-1022 on are spaced so that rounding moves
    a number by at most one part in 2^53 of itself. *)
Lemma rnd_near (x : Q) :
  (double.pow2 (-1022) <= x)%Q ->
  (x * (1 - (1 # 2 ^ 53)) <= double.rnd x <= x * (1 + (1 # 2 ^ 53)))%Q.
Proof.
  intros Hx.
  assert (Hpos : (0 < x)%Q).
  { eapply Qlt_le_trans; [apply (pow2_pos (-1022)) | exact Hx]. }
  unfold double.rnd.
  pose proof (Qred_correct x) as Hred.
  destruct (Qeq_bool (Qred x) 0) eqn:E0.
  { apply Qeq_bool_iff in E0. rewrite Hred in E0. lra. }
  rewrite Qred_correct.
  set (x' := Qred x) in *.
  assert (Hx' : (0 < x')%Q) by (rewrite Hred; exact Hpos).
  unfold double.last_place. rewrite (Qabs_pos_eq x' Hx').
  destruct (ilog2_spec x' Hx') as [Hlo Hhi].
  set (L := double.ilog2 x') in *.
  assert (HL : -1022 <= L).
  { destruct (Z_lt_le_dec L (-1022)) as [Hlt|]; [|assumption]. exfalso.
    assert (double.pow2 (L + 1) <= double.pow2 (-1022))%Q.
    { rewrite !pow2_Qpower. apply Qpower_le_compat_l; [lia | discriminate]. }
    rewrite Hred in Hhi. lra. }
  rewrite Z.max_l by lia.
  set (e := L - 52).
  pose proof (nearest_even_near (x' * double.pow2 (- e))) as [Hn1 Hn2].
  set (n := inject_Z (double.nearest_even (x' * double.pow2 (- e)))) in *.
  pose proof (pow2_pos e) as He. pose proof (pow2_opp e) as Hinv.
  assert (Hhalf : (double.pow2 e * (1 # 2) <= x' * (1 # 2 ^ 53))%Q).
  { assert (double.pow2 L == double.pow2 e * double.pow2 52)%Q as HLe.
    { rewrite <- pow2_add. subst e. replace (L - 52 + 52) with L by lia. reflexivity. }
    change (double.pow2 52) with (inject_Z (2 ^ 52)) in HLe.
    rewrite HLe in Hlo.
    assert (1 # 2 ^ 53 == (1 # 2) * / inject_Z (2 ^ 52))%Q as -> by reflexivity.
    assert (double.pow2 e <= x' * / inject_Z (2 ^ 52))%Q.
    { apply Qle_shift_div_l; [reflexivity | exact Hlo]. }
    lra. }
  assert (Hmul1 : (n * double.pow2 e <= (x' * double.pow2 (- e) + (1 # 2)) * double.pow2 e)%Q).
  { apply Qmult_le_compat_r; [exact Hn2 | lra]. }
  assert (Hmul2 : ((x' * double.pow2 (- e) - (1 # 2)) * double.pow2 e <= n * double.pow2 e)%Q).
  { apply Qmult_le_compat_r; [exact Hn1 | lra]. }
  assert (Hcancel : (x' * double.pow2 (- e) * double.pow2 e == x')%Q).
  { rewrite <- Qmult_assoc, Hinv. ring. }
  rewrite Hred in *.
  assert (Hexp1 : ((x * double.pow2 (- e) + (1 # 2)) * double.pow2 e
                   == x + double.pow2 e * (1 # 2))%Q).
  { transitivity (x * double.pow2 (- e) * double.pow2 e + double.pow2 e * (1 # 2))%Q;
      [ring|]. by rewrite Hcancel. }
  assert (Hexp2 : ((x * double.pow2 (- e) - (1 # 2)) * double.pow2 e
                   == x - double.pow2 e * (1 # 2))%Q).
  { transitivity (x * double.pow2 (- e) * double.pow2 e - double.pow2 e * (1 # 2))%Q;
      [ring|]. by rewrite Hcancel. }
  rewrite Hexp1 in Hmul1. rewrite Hexp2 in Hmul2.
  split; lra.
Qed.

(** ** The predictors return [forecastDays] values *)

Lemma slice_neg_length (data : list Q) :
  slice (- Z.of_nat (length data)) data = data.
Proof.
  unfold slice. destruct (_ <? 0) eqn:E.
  - replace (Z.of_nat (length data) + - Z.of_nat (length data)) with 0 by lia.
    reflexivity.
  - apply Z.ltb_ge in E. assert (length data = 0%nat) as H0 by lia.
    destruct data; [reflexivity|discriminate].
Qed.

Lemma movingAverage_all (data : list Q) :
  movingAverage data (Z.of_nat (length data)) = ss.mean data.
Proof.
  unfold movingAverage. rewrite Z.ltb_irrefl, slice_neg_length. reflexivity.
Qed.

Lemma linearRegression_returns (data : list (Q * Q)) :
  exists line, ss.linearRegression data = Ok line.
Proof.
  unfold ss.linearRegression.
  destruct data as [|[x y] [|p rest]]; [| eauto |];
    match goal with
    | |- context [ss.sums ?l] => destruct (ss.sums l) as [[[sX sY] sXX] sXY]
    end; eauto.
Qed.

Lemma linearTrend_returns (data : list Q) (forecastDays : nat) :
  exists forecasts,
    linearTrend data forecastDays = Ok forecasts /\
    length forecasts = forecastDays /\
    (Forall (Qle 0) data -> Forall (Qle 0) forecasts).
Proof.
  unfold linearTrend. destruct (length data <? 2)%nat eqn:Hlen.
  - eexists. split; [reflexivity|]. split; [apply length_fill|].
    intros Hdata. apply Forall_fill.
    destruct data as [|x xs]; simpl; [apply Qle_refl|].
    by inversion Hdata.
  - destruct (linearRegression_returns
                (imap (fun index value => (inject_Z (Z.of_nat index), value)) data))
      as [line ->].
    simpl. eexists. split; [reflexivity|]. split.
    + by rewrite length_map, length_seq.
    + intros _. apply Forall_map, Forall_forall. intros i _.
      apply Math_max_0_nonneg.
Qed.

Lemma exponentialSmoothing_returns (data : list Q) (alpha : Q) (forecastDays : nat) :
  exists forecasts,
    exponentialSmoothing data alpha forecastDays = Ok forecasts /\
    length forecasts = forecastDays /\
    (Forall (Qle 0) data -> Forall (Qle 0) forecasts).
Proof.
  unfold exponentialSmoothing. destruct data as [|x [|y rest]].
  - eexists. repeat split; [apply length_fill|].
    intros _. apply Forall_fill, Qle_refl.
  - eexists. repeat split; [apply length_fill|].
    intros Hdata. apply Forall_fill. by inversion Hdata.
  - eexists. repeat split; [apply length_fill|].
    intros _. apply Forall_fill, Math_max_0_nonneg.
Qed.

Lemma seasonalNaive_returns (data : list Q) (seasonLength forecastDays : nat) :
  data <> [] ->
  exists forecasts,
    seasonalNaive data seasonLength forecastDays = Ok forecasts /\
    length forecasts = forecastDays /\
    Forall (Qle 0) forecasts.
Proof.
  intros Hne. unfold seasonalNaive.
  destruct (length data <? seasonLength)%nat.
  - rewrite movingAverage_all.
    destruct (proj2 (mean_ok_iff data) Hne) as [avg ->]. simpl.
    eexists. repeat split; [apply length_fill|].
    apply Forall_fill, Math_max_0_nonneg.
  - eexists. repeat split.
    + by rewrite length_map, length_seq.
    + apply Forall_map, Forall_forall. intros i _. apply Math_max_0_nonneg.
Qed.

Lemma seasonalNaive_throws_iff (data : list Q) (seasonLength forecastDays : nat) :
  (exists e, seasonalNaive data seasonLength forecastDays = Throw e) <->
  data = [] /\ (0 < seasonLength)%nat.
Proof.
  split.
  - intros [e He]. destruct data as [|x xs].
    + split; [reflexivity|]. destruct seasonLength; [discriminate|lia].
    + destruct (seasonalNaive_returns (x :: xs) seasonLength forecastDays)
        as (f & Hf & _); congruence.
  - intros [-> Hs]. destruct seasonLength; [lia|].
    eexists. reflexivity.
Qed.

(** ** The divisions of the code have non-zero divisors *)

Lemma sums_snoc (data : list (Q * Q)) (x y : Q) :
  ss.sums (data ++ [(x, y)]) =
  let '(sumX, sumY, sumXX, sumXY) := ss.sums data in
  (sumX + x, sumY + y, sumXX + x * x, sumXY + x * y)%Q.
Proof.
  unfold ss.sums. rewrite foldl_app. simpl.
  by destruct (foldl _ _ data) as [[[sX sY] sXX] sXY].
Qed.

(** Over the day indices [0 .. n-1], [sumX] and [sumXX] are the sums of the
    first integers and of their squares. *)
Lemma index_sums (data : list Q) :
  let '(sumX, _, sumXX, _) :=
    ss.sums (imap (fun index value => (inject_Z (Z.of_nat index), value)) data) in
  let n := inject_Z (Z.of_nat (length data)) in
  (2 * sumX == n * (n - 1) /\ 6 * sumXX == (n - 1) * n * (2 * n - 1))%Q.
Proof.
  induction data as [|v data IH] using rev_ind.
  - simpl. split; reflexivity.
  - rewrite imap_app. simpl imap. rewrite sums_snoc.
    destruct (ss.sums _) as [[[sX sY] sXX] sXY].
    rewrite length_app. simpl length.
    replace (length data + 1)%nat with (S (length data)) by lia.
    rewrite Nat2Z.inj_succ. unfold Z.succ. rewrite inject_Z_plus.
    rewrite Nat.add_0_r.
    set (n := inject_Z (Z.of_nat (length data))) in *.
    change (inject_Z 1) with 1%Q.
    destruct IH as [IH1 IH2]. split.
    + rewrite Qmult_plus_distr_r, IH1. ring.
    + rewrite Qmult_plus_distr_r, IH2. ring.
Qed.

(** The slope of [linearTrend] is a quotient by a positive number. *)
Lemma regression_denominator_positive (data : list Q) :
  (2 <= length data)%nat ->
  let '(sumX, _, sumXX, _) :=
    ss.sums (imap (fun index value => (inject_Z (Z.of_nat index), value)) data) in
  let dataLength := inject_Z (Z.of_nat (length data)) in
  (0 < dataLength * sumXX - sumX * sumX)%Q.
Proof.
  intros Hlen. pose proof (index_sums data) as Hsums.
  destruct (ss.sums _) as [[[sX sY] sXX] sXY]. simpl in *.
  assert (Hn : (2 <= inject_Z (Z.of_nat (length data)))%Q).
  { change 2%Q with (inject_Z 2). rewrite <- Zle_Qle. lia. }
  set (n := inject_Z (Z.of_nat (length data))) in *.
  destruct Hsums as [H1 H2].
  assert (H12 : (12 * (n * sXX - sX * sX) == n * n * (n - 1) * (n + 1))%Q).
  { transitivity (2 * n * (6 * sXX) - 3 * (2 * sX) * (2 * sX))%Q; [ring|].
    rewrite H1, H2. ring. }
  assert (Hpos : (0 < n * n * (n - 1) * (n + 1))%Q).
  { repeat apply Qmult_lt_0_compat; lra. }
  lra.
Qed.

Lemma or_num_1_nonzero (avgDailyDemand : Q) : ~ (or_num avgDailyDemand 1 == 0)%Q.
Proof.
  unfold or_num, falsy. destruct (Qeq_bool avgDailyDemand 0) eqn:E.
  - discriminate.
  - by apply Qeq_bool_neq.
Qed.

(** ** The combined forecast *)

Lemma round_mean3 (l e s : Q) :
  Math.round (ss.sum [or_num l 0; or_num e 0; or_num s 0] / inject_Z (Z.of_nat 3)) =
  Math.round ((l + e + s) / 3).
Proof.
  unfold Math.round. apply Qfloor_comp.
  unfold ss.sum. simpl foldl. rewrite !or_num_0.
  change (inject_Z (Z.of_nat 3)) with 3%Q. field.
Qed.

Lemma combinedForecast_eq (data : list Q) (forecastDays : nat) (linear exponential seasonal : list Q) :
  linearTrend data forecastDays = Ok linear ->
  exponentialSmoothing data (3 # 10) forecastDays = Ok exponential ->
  seasonalNaive data 7 forecastDays = Ok seasonal ->
  combinedForecast data forecastDays =
  Ok (map (fun i : nat =>
             inject_Z (Math.round
               (ss.sum [or_undef (linear !! i) 0; or_undef (exponential !! i) 0;
                        or_undef (seasonal !! i) 0] / inject_Z (Z.of_nat 3))))
          (seq 0 forecastDays)).
Proof.
  intros Hl He Hs. unfold combinedForecast. rewrite Hl, He, Hs. simpl.
  apply mapM_Ok. intros i. reflexivity.
Qed.

Lemma combinedForecast_length (data : list Q) (forecastDays : nat) (combined : list Q) :
  combinedForecast data forecastDays = Ok combined -> length combined = forecastDays.
Proof.
  destruct (linearTrend_returns data forecastDays) as (linear & Hl & _).
  destruct (exponentialSmoothing_returns data (3 # 10) forecastDays)
    as (exponential & He & _).
  destruct (seasonalNaive data 7 forecastDays) as [seasonal|err] eqn:Hs.
  - rewrite (combinedForecast_eq _ _ _ _ _ Hl He Hs). intros [= <-].
    by rewrite length_map, length_seq.
  - unfold combinedForecast. rewrite Hl, He, Hs. discriminate.
Qed.

Lemma combinedForecast_returns (data : list Q) (forecastDays : nat) :
  data <> [] -> exists combined, combinedForecast data forecastDays = Ok combined.
Proof.
  intros Hne.
  destruct (linearTrend_returns data forecastDays) as (linear & Hl & _).
  destruct (exponentialSmoothing_returns data (3 # 10) forecastDays)
    as (exponential & He & _).
  destruct (seasonalNaive_returns data 7 forecastDays Hne) as (seasonal & Hs & _).
  rewrite (combinedForecast_eq _ _ _ _ _ Hl He Hs). by eexists.
Qed.

(** C4.  Whenever the combined forecast exists, the three predictors have
    returned their forecasts for the same series and horizon, it has one
    value per day of the horizon, and its value at day [i] is
    [round(mean(linear[i], exponential[i], seasonal[i]))].  It exists for
    every series but the empty one, on which Seasonal Naive throws. *)
Theorem combined_is_rounded_mean (data : list Q) (forecastDays : nat) :
  match combinedForecast data forecastDays with
  | Ok combined =>
      exists linear exponential seasonal,
        linearTrend data forecastDays = Ok linear /\
        exponentialSmoothing data (3 # 10) forecastDays = Ok exponential /\
        seasonalNaive data 7 forecastDays = Ok seasonal /\
        length combined = forecastDays /\
        forall i : nat, (i < forecastDays)%nat ->
          exists c l e s,
            combined !! i = Some c /\ linear !! i = Some l /\
            exponential !! i = Some e /\ seasonal !! i = Some s /\
            c = inject_Z (Math.round ((l + e + s) / 3))
  | Throw _ => data = []
  end.
Proof.
  destruct (linearTrend_returns data forecastDays) as (linear & Hl & Hll & _).
  destruct (exponentialSmoothing_returns data (3 # 10) forecastDays)
    as (exponential & He & Hle & _).
  destruct (seasonalNaive data 7 forecastDays) as [seasonal|err] eqn:Hs.
  - rewrite (combinedForecast_eq _ _ _ _ _ Hl He Hs).
    exists linear, exponential, seasonal. repeat split; try assumption.
    + by rewrite length_map, length_seq.
    + intros i Hi.
      assert (Hls : length seasonal = forecastDays).
      { destruct data as [|x xs]; [discriminate|].
        destruct (seasonalNaive_returns (x :: xs) 7 forecastDays) as (f & Hf & Hlf & _);
          congruence. }
      destruct (lookup_lt_is_Some_2 linear i) as [l Hli]; [lia|].
      destruct (lookup_lt_is_Some_2 exponential i) as [e Hei]; [lia|].
      destruct (lookup_lt_is_Some_2 seasonal i) as [s Hsi]; [lia|].
      eexists _, l, e, s. repeat split; try assumption.
      rewrite list_lookup_fmap, lookup_seq_lt by lia. simpl.
      rewrite Hli, Hei, Hsi. simpl. by rewrite round_mean3.
  - unfold combinedForecast. rewrite Hl, He, Hs. simpl.
    apply (seasonalNaive_throws_iff data 7 forecastDays). eauto.
Qed.

Lemma combined_is_rounded_mean_witness :
  match combinedForecast (map inject_Z [1; 2; 3; 4; 5; 6; 7; 8]) 3 with
  | Ok combined =>
      exists linear exponential seasonal,
        linearTrend (map inject_Z [1; 2; 3; 4; 5; 6; 7; 8]) 3 = Ok linear /\
        exponentialSmoothing (map inject_Z [1; 2; 3; 4; 5; 6; 7; 8]) (3 # 10) 3
          = Ok exponential /\
        seasonalNaive (map inject_Z [1; 2; 3; 4; 5; 6; 7; 8]) 7 3 = Ok seasonal /\
        length combined = 3%nat /\
        forall i : nat, (i < 3)%nat ->
          exists c l e s,
            combined !! i = Some c /\ linear !! i = Some l /\
            exponential !! i = Some e /\ seasonal !! i = Some s /\
            c = inject_Z (Math.round ((l + e + s) / 3))
  | Throw _ => map inject_Z [1; 2; 3; 4; 5; 6; 7; 8] = []
  end.
Proof. exact (combined_is_rounded_mean (map inject_Z [1; 2; 3; 4; 5; 6; 7; 8]) 3). Defined.

Example combined_example :
  combinedForecast (map inject_Z [1; 2; 3; 4; 5; 6; 7; 8]) 3 = Ok [6; 6; 7]%Q.
Proof. reflexivity. Qed.

(** ** Totality of the predictors *)

(** On every non-empty series of non-negative numbers the three predictors
    return, each with exactly [forecastDays] non-negative values. *)
Lemma predictors_total_on_nonempty (data : list Q) (forecastDays : nat) :
  data <> [] -> Forall (Qle 0) data ->
  forall predict,
    predict ∈ [ (fun d n => linearTrend d n);
                (fun d n => exponentialSmoothing d (3 # 10) n);
                (fun d n => seasonalNaive d 7 n) ] ->
    exists forecasts,
      predict data forecastDays = Ok forecasts /\
      length forecasts = forecastDays /\
      Forall (Qle 0) forecasts.
Proof.
  intros Hne Hdata predict Hin.
  repeat (apply elem_of_cons in Hin as [-> | Hin]).
  - destruct (linearTrend_returns data forecastDays) as (f & ? & ? & ?). eauto.
  - destruct (exponentialSmoothing_returns data (3 # 10) forecastDays) as (f & ? & ? & ?).
    eauto.
  - by apply seasonalNaive_returns.
  - by apply elem_of_nil in Hin.
Qed.

(** C3.  On the empty series with horizon 5, Linear Trend and Exponential
    Smoothing return five zeros, but Seasonal Naive does not return: its
    fallback asks [movingAverage] for the mean of [data.length = 0] periods,
    which passes the guard [data.length < periods] and calls [mean] on the
    empty array. *)
Theorem seasonalNaive_empty_series_throws :
  linearTrend [] 5 = Ok [0; 0; 0; 0; 0]%Q /\
  exponentialSmoothing [] (3 # 10) 5 = Ok [0; 0; 0; 0; 0]%Q /\
  movingAverage [] 7 = Ok 0%Q /\
  movingAverage [] (Z.of_nat (length (@nil Q))) =
    Throw (Error "mean requires at least one data point") /\
  seasonalNaive [] 7 5 = Throw (Error "mean requires at least one data point") /\
  combinedForecast [] 5 = Throw (Error "mean requires at least one data point").
Proof. repeat split. Qed.

(** ** The Moving-Average helper *)

Lemma last_or_undef_last (data : list Q) : last_or_undef data = last data.
Proof.
  unfold last_or_undef. rewrite last_lookup. f_equal. lia.
Qed.

Lemma mean_average (l : list Q) : l <> [] -> ss.mean l = Ok (average l).
Proof. destruct l; [congruence|reflexivity]. Qed.

Lemma slice_neg_lastn (data : list Q) (periods : Z) :
  1 <= periods -> slice (- periods) data = lastn (Z.to_nat periods) data.
Proof.
  intros Hp. unfold slice, lastn.
  replace (- periods <? 0) with true by (symmetry; apply Z.ltb_lt; lia).
  f_equal. lia.
Qed.

Lemma length_lastn (n : nat) (l : list Q) :
  (n <= length l)%nat -> length (lastn n l) = n.
Proof. intros Hn. unfold lastn. rewrite length_drop. lia. Qed.

(** C7, as the code has it.  With at least one period asked for, the helper
    returns the mean of the last [periods] values when the series has that
    many, and otherwise the last value of the series, or 0 when the series
    is empty. *)
Theorem movingAverage_cases (data : list Q) (periods : Z) :
  1 <= periods ->
  (periods <= Z.of_nat (length data) ->
     length (lastn (Z.to_nat periods) data) = Z.to_nat periods /\
     movingAverage data periods = Ok (average (lastn (Z.to_nat periods) data))) /\
  (Z.of_nat (length data) < periods ->
     movingAverage data periods = Ok (default 0%Q (last data))) /\
  movingAverage [] periods = Ok 0%Q.
Proof.
  intros Hp. split; [|split].
  - intros Hlen.
    assert (Hl : length (lastn (Z.to_nat periods) data) = Z.to_nat periods)
      by (apply length_lastn; lia).
    split; [exact Hl|].
    unfold movingAverage.
    replace (Z.of_nat (length data) <? periods) with false
      by (symmetry; apply Z.ltb_ge; lia).
    rewrite slice_neg_lastn by assumption.
    apply mean_average. intros Hnil. rewrite Hnil in Hl. simpl in Hl. lia.
  - intros Hlen. unfold movingAverage.
    replace (Z.of_nat (length data) <? periods) with true
      by (symmetry; apply Z.ltb_lt; lia).
    rewrite last_or_undef_last. destruct data; reflexivity.
  - unfold movingAverage. simpl length.
    replace (Z.of_nat 0 <? periods) with true by (symmetry; apply Z.ltb_lt; lia).
    reflexivity.
Qed.

Lemma movingAverage_cases_witness :
  movingAverage (map inject_Z [4; 1; 2; 3]) 3 =
    Ok (average (map inject_Z [1; 2; 3])) /\
  movingAverage (map inject_Z [1; 2; 3]) 7 = Ok 3%Q /\
  movingAverage [] 7 = Ok 0%Q.
Proof.
  pose proof (movingAverage_cases (map inject_Z [4; 1; 2; 3]) 3 ltac:(lia)) as (H1 & _ & _).
  pose proof (movingAverage_cases (map inject_Z [1; 2; 3]) 7 ltac:(lia)) as (_ & H2 & H3).
  split; [|split].
  - apply H1. simpl. lia.
  - apply H2. simpl. lia.
  - exact H3.
Defined.

(** The helper is not the mean of the last [min(periods, len)] values: on
    [1, 2, 3] with 7 periods it returns the last value, 3, and the mean is 2. *)
Lemma movingAverage_short_series_counterexample :
  ~ (exists v, movingAverage (map inject_Z [1; 2; 3]) 7 = Ok v /\
               Qeq v (movingAverage_spec (map inject_Z [1; 2; 3]) 7)).
Proof.
  intros (v & Hv & Heq). vm_compute in Hv. injection Hv as <-.
  vm_compute in Heq. discriminate.
Qed.

(** ** The reorder suggestion *)

Lemma gtb_lt (a b : Q) : gtb a b = true <-> (b < a)%Q.
Proof.
  unfold gtb. rewrite negb_true_iff, <- not_true_iff_false, Qle_bool_iff.
  split; [apply Qnot_le_lt | apply Qlt_not_le].
Qed.

(** C6, as the code has it.  When the predicted demand exceeds the stock, a
    reorder is needed and the priority is high exactly when
    [currentStock <= reorderThreshold], medium otherwise.  The suggested
    quantity is [ceil(totalPredictedDemand - currentStock +
    reorderThreshold)] with the subtraction and the addition each rounded to
    the nearest binary64 number; where the three numbers are whole, the
    stock and the threshold not negative and the sum below 2^53, nothing is
    rounded and the quantity is [totalPredictedDemand - currentStock +
    reorderThreshold] itself. *)
Theorem reorder_needed_suggestion (totalPredictedDemand avgDailyDemand : Q)
    (currentInventory : InventoryItem) :
  (quantity currentInventory < totalPredictedDemand)%Q ->
  let s := suggest totalPredictedDemand avgDailyDemand currentInventory in
  needed s = true /\
  suggestedQuantity s =
    Some (Math.ceil (double.add
                       (double.sub totalPredictedDemand (quantity currentInventory))
                       (reorder_level currentInventory))) /\
  (forall total stock threshold : Z,
     (totalPredictedDemand == inject_Z total)%Q ->
     (quantity currentInventory == inject_Z stock)%Q ->
     (reorder_level currentInventory == inject_Z threshold)%Q ->
     0 <= stock -> 0 <= threshold -> total + threshold < 2 ^ 53 ->
     suggestedQuantity s =
       Some (Math.ceil (totalPredictedDemand - quantity currentInventory
                        + reorder_level currentInventory)) /\
     suggestedQuantity s = Some (total - stock + threshold)) /\
  (priority s = Some high <->
     (quantity currentInventory <= reorder_level currentInventory)%Q) /\
  (priority s = Some medium <->
     ~ (quantity currentInventory <= reorder_level currentInventory)%Q).
Proof.
  intros Hgt. pose proof Hgt as Hb. apply gtb_lt in Hb. unfold suggest. rewrite Hb. simpl.
  split; [reflexivity|]. split; [reflexivity|]. split.
  - intros total stock threshold Ht Hs Hr Hstock Hthreshold Hsum.
    assert (stock < total).
    { rewrite Ht, Hs in Hgt. by rewrite <- Zlt_Qlt in Hgt. }
    rewrite (sub_whole _ _ total stock Ht Hs) by lia.
    rewrite (add_whole _ _ (total - stock) threshold)
      by (first [reflexivity | exact Hr | lia]).
    unfold Math.ceil. split; f_equal.
    + apply Qceiling_comp. rewrite Ht, Hs, Hr. unfold Z.sub.
      rewrite !inject_Z_plus, inject_Z_opp. ring.
    + apply Qceiling_Z.
  - destruct (Qle_bool (quantity currentInventory) (reorder_level currentInventory)) eqn:E.
    + apply Qle_bool_iff in E. split; split; intros H; try done.
    + assert (~ (quantity currentInventory <= reorder_level currentInventory)%Q) as Hn.
      { rewrite <- Qle_bool_iff. congruence. }
      split; split; intros H; try done.
Qed.

(** For a stock of 5, a predicted demand of 20 and a threshold of 10 a
    reorder of 25 is suggested, with high priority. *)
Lemma reorder_needed_suggestion_witness :
  let s := suggest 20 (double.div 20 30)
             {| item_sku := "SKU-1"; name := "widget"; quantity := 5; reorder_level := 10 |} in
  needed s = true /\ suggestedQuantity s = Some 25 /\ priority s = Some high.
Proof.
  pose proof (reorder_needed_suggestion 20 (double.div 20 30)
                {| item_sku := "SKU-1"; name := "widget"; quantity := 5; reorder_level := 10 |}
                ltac:(reflexivity)) as (Hn & _ & Hq & Hp & _).
  split; [exact Hn|]. split.
  - apply (Hq 20 5 10); (reflexivity || lia).
  - apply Hp. discriminate.
Defined.

(** The suggested quantity is not always the ceiling of the exact
    [totalPredictedDemand - currentStock + reorderThreshold]: three days of
    sales of 1, 1 and 5 units give the seasonal method a flat forecast of
    7/3 a day, whose thirty binary64 values add up to a little more than 70;
    with a stock of 70 and a threshold of 250 a reorder is needed, the exact
    sum is a little more than 250 and its ceiling 251, but the addition
    rounds to 250, which is what the route suggests. *)
Lemma reorder_quantity_counterexample :
  exists data s,
    generate short_season_world seasonal_request = Json data /\
    reorderSuggestion data = Some s /\
    (currentStock s < predictedDemand s)%Q /\
    needed s = true /\
    suggestedQuantity s = Some 250 /\
    Math.ceil (predictedDemand s - currentStock s + 250) = 251.
Proof.
  eexists. eexists. split; [vm_compute; reflexivity|].
  split; [reflexivity|]. repeat split.
Qed.

(** C1, as the code has it.  The day counts divide the stock by the average
    daily demand, with 1 in its place when the average is 0
    ([avgDailyDemand || 1]): [daysUntilStockout] when a reorder is needed,
    [daysOfStock] when it is not.  The quotient is the binary64 one, and so
    is the average.  For a stock of 100 and a predicted demand of 20 over 30
    days no reorder is needed and [daysOfStock] is 150. *)
Theorem day_counts_divide_by_average_or_one :
  (forall (totalPredictedDemand avgDailyDemand : Q) (currentInventory : InventoryItem),
     let s := suggest totalPredictedDemand avgDailyDemand currentInventory in
     let divisor := if Qeq_bool avgDailyDemand 0 then 1%Q else avgDailyDemand in
     needed s = gtb totalPredictedDemand (quantity currentInventory) /\
     (if needed s then daysUntilStockout s else daysOfStock s) =
       Some (Math.floor (double.div (quantity currentInventory) divisor)) /\
     (if needed s then daysOfStock s else daysUntilStockout s) = None) /\
  (forall (sku name : string) (reorderThreshold : Q),
     let s := suggest 20 (double.div 20 (inject_Z (Z.of_nat 30)))
                {| item_sku := sku; name := name; quantity := 100;
                   reorder_level := reorderThreshold |} in
     needed s = false /\ daysOfStock s = Some 150).
Proof.
  split.
  - intros total avg inv. unfold suggest.
    destruct (gtb total (quantity inv)); simpl; repeat split.
  - intros. split; reflexivity.
Qed.

(** Where the average is 0 or at least 1 the divisor is [max(average, 1)]. *)
Lemma divisor_is_max (avgDailyDemand : Q) :
  (avgDailyDemand == 0 \/ 1 <= avgDailyDemand)%Q ->
  (or_num avgDailyDemand 1 == Math.max avgDailyDemand 1)%Q.
Proof.
  unfold or_num, falsy, Math.max. intros H.
  destruct (Qeq_bool avgDailyDemand 0) eqn:E0, (Qle_bool avgDailyDemand 1) eqn:E1;
    try reflexivity.
  - apply Qeq_bool_iff in E0. assert (~ (avgDailyDemand <= 1)%Q) as Hn.
    { rewrite <- Qle_bool_iff. congruence. }
    lra.
  - apply Qle_bool_iff in E1. apply Qeq_bool_neq in E0. lra.
Qed.

(** The day count is not [floor(currentStock / max(averageDailyDemand, 1))].
    For a stock of 100 and a demand of 20 over 30 days the average is not 0,
    so the code divides by it and counts 150 days, not 100.  And it is not
    the floor of the exact quotient either: for a stock of 9 and a demand of
    9 over 7 days the average 9/7 rounds up, the quotient 9 / (9/7) comes
    out just below 7, and the code counts 6 days. *)
Lemma day_counts_max_counterexample :
  (let s := suggest 20 (double.div 20 (inject_Z (Z.of_nat 30)))
              {| item_sku := "SKU-1"; name := "widget"; quantity := 100;
                 reorder_level := 10 |} in
   needed s = false /\
   daysOfStock s <> Some (Math.floor (100 / Math.max (20 / inject_Z (Z.of_nat 30)) 1)) /\
   daysOfStock s <> Some 100) /\
  (let s := suggest 9 (double.div 9 (inject_Z (Z.of_nat 7)))
              {| item_sku := "SKU-1"; name := "widget"; quantity := 9;
                 reorder_level := 2 |} in
   needed s = false /\
   daysOfStock s = Some 6 /\
   Math.floor (9 / Math.max (9 / inject_Z (Z.of_nat 7)) 1) = 7).
Proof. split; vm_compute; repeat split; discriminate. Qed.

(** ** The normalizer *)

Lemma foldr_min_spec (a : Z) (l : list Z) :
  foldr Z.min a l ∈ a :: l /\ Forall (Z.le (foldr Z.min a l)) (a :: l).
Proof.
  induction l as [|x xs [IHin IHle]]; simpl.
  - split; [left | repeat constructor; lia].
  - apply Forall_cons in IHle as [Ha Hxs]. split.
    + destruct (Z.min_spec x (foldr Z.min a xs)) as [[_ ->] | [_ ->]].
      * right; left.
      * apply elem_of_cons in IHin as [-> | Hin]; [left | right; right; exact Hin].
    + repeat constructor; [lia | lia |].
      eapply Forall_impl; [exact Hxs|]. simpl. intros; lia.
Qed.

Lemma foldr_max_spec (a : Z) (l : list Z) :
  foldr Z.max a l ∈ a :: l /\ Forall (fun x => x <= foldr Z.max a l) (a :: l).
Proof.
  induction l as [|x xs [IHin IHle]]; simpl.
  - split; [left | repeat constructor; lia].
  - apply Forall_cons in IHle as [Ha Hxs]. split.
    + destruct (Z.max_spec x (foldr Z.max a xs)) as [[_ ->] | [_ ->]].
      * apply elem_of_cons in IHin as [-> | Hin]; [left | right; right; exact Hin].
      * right; left.
    + repeat constructor; [lia | lia |].
      eapply Forall_impl; [exact Hxs|]. simpl. intros; lia.
Qed.

Lemma d_min_spec (records : list SalesRecord) :
  records <> [] ->
  d_min records ∈ map date records /\ Forall (Z.le (d_min records)) (map date records).
Proof. destruct records as [|r rs]; [done|]. intros _. apply foldr_min_spec. Qed.

Lemma d_max_spec (records : list SalesRecord) :
  records <> [] ->
  d_max records ∈ map date records /\
  Forall (fun x => x <= d_max records) (map date records).
Proof. destruct records as [|r rs]; [done|]. intros _. apply foldr_max_spec. Qed.

Lemma foldl_Qplus_acc (a : Q) (l : list Q) : (foldl Qplus a l == a + ss.sum l)%Q.
Proof.
  unfold ss.sum. revert a. induction l as [|x xs IH]; intros a; simpl.
  - lra.
  - rewrite (IH (a + x)%Q), (IH (0 + x)%Q). lra.
Qed.

Lemma sum_cons (x : Q) (l : list Q) : (ss.sum (x :: l) == x + ss.sum l)%Q.
Proof. unfold ss.sum at 1. simpl. rewrite foldl_Qplus_acc. lra. Qed.

Lemma sold_on_cons (d : Z) (r : SalesRecord) (rs : list SalesRecord) :
  (sold_on d (r :: rs) ==
   (if decide (date r = d) then units_sold r else 0) + sold_on d rs)%Q.
Proof.
  unfold sold_on. rewrite filter_cons. destruct (decide (date r = d)).
  - simpl map. apply sum_cons.
  - lra.
Qed.

Lemma sold_on_absent (d : Z) (records : list SalesRecord) :
  d ∉ map date records -> sold_on d records = 0%Q.
Proof.
  intros Hd. unfold sold_on.
  replace (filter (fun r => date r = d) records) with (@nil SalesRecord); [reflexivity|].
  induction records as [|r rs IH]; [reflexivity|].
  simpl in Hd. apply not_elem_of_cons in Hd as [Hr Hrs].
  rewrite filter_cons. destruct (decide (date r = d)); [congruence|].
  by apply IH.
Qed.

Lemma or_undef_0 (x : option Q) : (or_undef x 0 == default 0 x)%Q.
Proof. destruct x as [v|]; simpl; [apply or_num_0 | reflexivity]. Qed.

Lemma not_undef_reads (x : option Q) : not_undef x = true -> (default 0 x == 0)%Q.
Proof.
  destruct x as [v|]; simpl; [|reflexivity].
  unfold falsy. intros H. by apply Qeq_bool_iff.
Qed.

Lemma group_record_reads (dailySales : gmap Z Q) (r : SalesRecord) (d : Z) :
  (reads (group_record dailySales r) d ==
   reads dailySales d + (if decide (date r = d) then units_sold r else 0))%Q.
Proof.
  unfold reads, group_record. rewrite !or_undef_0.
  destruct (decide (date r = d)) as [<- | Hne].
  - rewrite lookup_insert_eq. simpl.
    destruct (not_undef (dailySales !! date r)) eqn:E.
    + rewrite lookup_insert_eq. simpl. apply not_undef_reads in E. rewrite E. lra.
    + lra.
  - rewrite lookup_insert_ne by assumption.
    destruct (not_undef (dailySales !! date r)).
    + rewrite lookup_insert_ne by assumption. lra.
    + lra.
Qed.

Lemma group_record_dom (dailySales : gmap Z Q) (r : SalesRecord) :
  dom (group_record dailySales r) = {[date r]} ∪ dom dailySales.
Proof.
  unfold group_record. rewrite dom_insert_L.
  destruct (not_undef (dailySales !! date r)).
  - rewrite dom_insert_L. by rewrite (assoc_L (∪)), (idemp_L (∪)).
  - reflexivity.
Qed.

Lemma grouped_reads (records : list SalesRecord) (dailySales : gmap Z Q) (d : Z) :
  (reads (foldl group_record dailySales records) d ==
   reads dailySales d + sold_on d records)%Q.
Proof.
  revert dailySales. induction records as [|r rs IH]; intros dailySales; simpl.
  - unfold sold_on. simpl. change (ss.sum []) with 0%Q. lra.
  - rewrite IH, group_record_reads, sold_on_cons. lra.
Qed.

Lemma grouped_dom (records : list SalesRecord) (dailySales : gmap Z Q) :
  dom (foldl group_record dailySales records) =
  dom dailySales ∪ list_to_set (map date records).
Proof.
  revert dailySales. induction records as [|r rs IH]; intros dailySales; simpl.
  - by rewrite (right_id_L ∅ (∪)).
  - rewrite IH, group_record_dom.
    by rewrite (comm_L (∪) {[date r]} (dom dailySales)), (assoc_L (∪)).
Qed.

(** The sorted keys. *)
Lemma elem_of_sorted_keys (o : gmap Z Q) (k : Z) : k ∈ sorted_keys o <-> k ∈ dom o.
Proof.
  unfold sorted_keys. rewrite merge_sort_Permutation.
  rewrite elem_of_dom. change (map fst (map_to_list o)) with (fst <$> map_to_list o).
  rewrite list_elem_of_fmap. split.
  - intros ([k' v] & -> & Hin). apply elem_of_map_to_list in Hin. eauto.
  - intros [v Hv]. exists (k, v). split; [reflexivity|]. by apply elem_of_map_to_list.
Qed.

Lemma sorted_keys_sorted (o : gmap Z Q) : StronglySorted Z.le (sorted_keys o).
Proof. apply StronglySorted_merge_sort; apply _. Qed.

Lemma sorted_head_least (l : list Z) (x k : Z) :
  StronglySorted Z.le l -> head l = Some x -> k ∈ l -> x <= k.
Proof.
  intros Hs Hh Hk. apply head_Some in Hh as [l' ->].
  apply StronglySorted_cons in Hs as [Hall _].
  apply elem_of_cons in Hk as [-> | Hk]; [lia|].
  rewrite Forall_forall in Hall. by apply Hall.
Qed.

Lemma sorted_last_greatest (l : list Z) (x k : Z) :
  StronglySorted Z.le l -> last l = Some x -> k ∈ l -> k <= x.
Proof.
  intros Hs Hl Hk. apply last_Some in Hl as [l' ->].
  apply elem_of_app in Hk as [Hk | Hk].
  - eapply StronglySorted_app_1_elem_of; [exact Hs | exact Hk | left].
  - apply list_elem_of_singleton in Hk as ->. lia.
Qed.

(** The loop emits one entry per day from [currentDate] to [endDate]. *)
(** *** The walk over the days *)

(** One turn of the loop. *)
Lemma fill_days_step (tz : TimeZone) (dailySales : gmap Z Q) (endDate currentDate : Z)
    (timeSeries : list Q) :
  currentDate <= endDate ->
  fill_days tz dailySales endDate currentDate timeSeries =
  fill_days tz dailySales endDate (localtime.addDays tz currentDate 1)
            (timeSeries ++ [reads dailySales (localtime.format currentDate)]).
Proof.
  intros Hle. rewrite fill_days_equation_1.
  destruct (Z_le_dec currentDate endDate); [reflexivity | lia].
Qed.

Lemma fill_days_stop (tz : TimeZone) (dailySales : gmap Z Q) (endDate currentDate : Z)
    (timeSeries : list Q) :
  endDate < currentDate ->
  fill_days tz dailySales endDate currentDate timeSeries = timeSeries.
Proof.
  intros Hlt. rewrite fill_days_equation_1.
  destruct (Z_le_dec currentDate endDate); [lia | reflexivity].
Qed.

(** The loop only appends. *)
Lemma fill_days_appends (tz : TimeZone) (dailySales : gmap Z Q) (endDate currentDate : Z)
    (timeSeries : list Q) :
  exists rest, fill_days tz dailySales endDate currentDate timeSeries = timeSeries ++ rest.
Proof.
  funelim (fill_days tz dailySales endDate currentDate timeSeries).
  - destruct H as [rest ->]. eexists. by rewrite <- app_assoc.
  - exists []. by rewrite app_nil_r.
Qed.

(** Every entry of the series is a read of the grouped sales. *)
Lemma fill_days_Forall (P : Q -> Prop) (tz : TimeZone) (dailySales : gmap Z Q)
    (endDate currentDate : Z) (timeSeries : list Q) :
  (forall d, P (reads dailySales d)) ->
  Forall P timeSeries ->
  Forall P (fill_days tz dailySales endDate currentDate timeSeries).
Proof.
  intros Hreads.
  funelim (fill_days tz dailySales endDate currentDate timeSeries); intros Hacc.
  - apply H; [exact Hreads|].
    apply Forall_app. split; [exact Hacc|]. constructor; [apply Hreads | constructor].
  - exact Hacc.
Qed.

(** The days the loop visits depend on the zone and on the two ends only. *)
Lemma fill_days_ext (tz : TimeZone) (dailySales1 dailySales2 : gmap Z Q)
    (endDate currentDate : Z) (timeSeries1 timeSeries2 : list Q) :
  (forall d, (reads dailySales1 d == reads dailySales2 d)%Q) ->
  Forall2 Qeq timeSeries1 timeSeries2 ->
  Forall2 Qeq (fill_days tz dailySales1 endDate currentDate timeSeries1)
              (fill_days tz dailySales2 endDate currentDate timeSeries2).
Proof.
  intros Hreads. revert timeSeries2.
  funelim (fill_days tz dailySales1 endDate currentDate timeSeries1);
    intros timeSeries2 Hacc.
  - rewrite (fill_days_step tz dailySales2) by assumption.
    apply H; [exact Hreads|].
    apply Forall2_app; [exact Hacc|]. constructor; [apply Hreads | constructor].
  - rewrite fill_days_stop by lia. exact Hacc.
Qed.

(** Where the zone has the local midnight of each day, the loop goes from
    midnight to midnight and visits every day up to the last. *)
Lemma fill_days_midnights (tz : TimeZone) (dailySales : gmap Z Q) (final : Z) (n : nat)
    (current : Z) (timeSeries : list Q) :
  midnights_exist tz (current + 1) final ->
  Z.of_nat n = final - current + 1 ->
  fill_days tz dailySales (final * msPerDay) (current * msPerDay) timeSeries =
  timeSeries ++ map (reads dailySales) (seqZ current (final - current + 1)).
Proof.
  revert current timeSeries.
  induction n as [|n IH]; intros current timeSeries Hmid Hn.
  - rewrite fill_days_stop by (unfold msPerDay; lia).
    rewrite seqZ_nil by lia. simpl. by rewrite app_nil_r.
  - rewrite fill_days_step by (unfold msPerDay; lia).
    destruct (decide (current + 1 <= final)) as [Hle|Hgt].
    + assert (Hnext : localtime.addDays tz (current * msPerDay) 1
                      = (current + 1) * msPerDay).
      { unfold localtime.addDays, localtime.set.
        replace (current * msPerDay + 1 * msPerDay) with ((current + 1) * msPerDay) by lia.
        rewrite Hmid by lia. lia. }
      rewrite Hnext, IH; [|intros d Hd; apply Hmid; lia | lia].
      rewrite (seqZ_cons current) by lia. simpl.
      rewrite <- app_assoc. simpl.
      unfold localtime.format. rewrite Z.div_mul by (unfold msPerDay; lia).
      replace (Z.succ current) with (current + 1) by lia.
      replace (Z.pred (final - current + 1)) with (final - (current + 1) + 1) by lia.
      reflexivity.
    + assert (current = final) as -> by lia.
      rewrite fill_days_stop.
      2:{ unfold localtime.addDays, localtime.set.
          pose proof (gap_range tz (final * msPerDay + 1 * msPerDay)). unfold msPerDay in *. lia. }
      replace (final - final + 1) with 1 by lia.
      unfold localtime.format. rewrite Z.div_mul by (unfold msPerDay; lia).
      reflexivity.
Qed.

Lemma elem_of_grouped_keys (records : list SalesRecord) (k : Z) :
  k ∈ sorted_keys (foldl group_record ∅ records) <-> k ∈ map date records.
Proof.
  rewrite elem_of_sorted_keys, grouped_dom, dom_empty_L, (left_id_L ∅ (∪)).
  apply elem_of_list_to_set.
Qed.

(** The two ends of the walk are the midnights of the first and of the
    last observed day. *)
Lemma prepareSalesData_walk (tz : TimeZone) (records : list SalesRecord) :
  records <> [] ->
  prepareSalesData tz records =
  fill_days tz (foldl group_record ∅ records)
            (localtime.parseISO tz (d_max records))
            (localtime.parseISO tz (d_min records)) [].
Proof.
  intros Hne. unfold prepareSalesData.
  destruct (d_min_spec records Hne) as [Hmin_in Hmin_le].
  destruct (d_max_spec records Hne) as [Hmax_in Hmax_le].
  rewrite Forall_forall in Hmin_le, Hmax_le.
  pose proof (sorted_keys_sorted (foldl group_record ∅ records)) as Hsorted.
  pose proof (elem_of_grouped_keys records) as Hkeys.
  destruct (head (sorted_keys (foldl group_record ∅ records))) as [lo|] eqn:Hhead.
  2:{ apply head_None in Hhead. apply Hkeys in Hmin_in.
      rewrite Hhead in Hmin_in. by apply elem_of_nil in Hmin_in. }
  destruct (last (sorted_keys (foldl group_record ∅ records))) as [hi|] eqn:Hlast.
  2:{ apply last_None in Hlast. rewrite Hlast in Hhead. discriminate. }
  assert (lo = d_min records) as ->.
  { apply Z.le_antisymm.
    - eapply sorted_head_least; [exact Hsorted | exact Hhead | by apply Hkeys].
    - apply Hmin_le, Hkeys. apply head_Some in Hhead as [l' ->]. left. }
  assert (hi = d_max records) as ->.
  { apply Z.le_antisymm.
    - apply Hmax_le, Hkeys. apply last_Some in Hlast as [l' ->].
      apply elem_of_app. right. left.
    - eapply sorted_last_greatest; [exact Hsorted | exact Hlast | by apply Hkeys]. }
  reflexivity.
Qed.

Lemma d_min_le_d_max (records : list SalesRecord) :
  records <> [] -> d_min records <= d_max records.
Proof.
  intros Hne. destruct (d_min_spec records Hne) as [Hin _].
  destruct (d_max_spec records Hne) as [_ Hle].
  rewrite Forall_forall in Hle. by apply Hle.
Qed.

Lemma prepareSalesData_eq (tz : TimeZone) (records : list SalesRecord) :
  records <> [] ->
  midnights_exist tz (d_min records) (d_max records) ->
  prepareSalesData tz records =
  map (reads (foldl group_record ∅ records))
      (seqZ (d_min records) (d_max records - d_min records + 1)).
Proof.
  intros Hne Hmid. rewrite (prepareSalesData_walk tz records Hne).
  pose proof (d_min_le_d_max records Hne) as Hle.
  unfold localtime.parseISO, localtime.set.
  rewrite !Hmid, !Z.add_0_r by lia.
  rewrite (fill_days_midnights tz _ (d_max records)
             (Z.to_nat (d_max records - d_min records + 1))); [reflexivity| |lia].
  intros d Hd. apply Hmid. lia.
Qed.

(** In every zone the walk visits the first observed day: a series of
    observations is never normalized to the empty series. *)
Lemma prepareSalesData_nonempty (tz : TimeZone) (records : list SalesRecord) :
  records <> [] -> prepareSalesData tz records <> [].
Proof.
  intros Hne. rewrite (prepareSalesData_walk tz records Hne).
  pose proof (d_min_le_d_max records Hne) as Hle.
  rewrite fill_days_step.
  - destruct (fill_days_appends tz (foldl group_record ∅ records)
                (localtime.parseISO tz (d_max records))
                (localtime.addDays tz (localtime.parseISO tz (d_min records)) 1)
                ([] ++ [reads (foldl group_record ∅ records)
                          (localtime.format (localtime.parseISO tz (d_min records)))]))
      as [rest ->].
    simpl. discriminate.
  - unfold localtime.parseISO, localtime.set.
    destruct (decide (d_min records = d_max records)) as [->|Hlt]; [lia|].
    pose proof (gap_range tz (d_min records * msPerDay)).
    pose proof (gap_range tz (d_max records * msPerDay)).
    unfold msPerDay in *. lia.
Qed.

(** The normalizer as the specification has it: where the zone of the
    process has the local midnight of every day from the first observed
    day to the last, the series has one entry per day, [d_max - d_min + 1]
    in all; the entry of a day is the sum of the quantities of the
    observations of that day, and 0 for a day without observation. *)
Theorem normalizer_series (tz : TimeZone) (records : list SalesRecord) :
  records <> [] ->
  midnights_exist tz (d_min records) (d_max records) ->
  let series := prepareSalesData tz records in
  length series = Z.to_nat (d_max records - d_min records + 1) /\
  forall d : Z, d_min records <= d <= d_max records ->
    exists v, series !! Z.to_nat (d - d_min records) = Some v /\
              (v == sold_on d records)%Q /\
              (d ∉ map date records -> (v == 0)%Q).
Proof.
  intros Hne Hmid series. subst series. rewrite (prepareSalesData_eq tz records Hne Hmid).
  split.
  - by rewrite length_map, length_seqZ.
  - intros d Hd. exists (reads (foldl group_record ∅ records) d).
    assert (Hv : (reads (foldl group_record ∅ records) d == sold_on d records)%Q).
    { rewrite grouped_reads. unfold reads. rewrite lookup_empty. simpl. lra. }
    split; [|split].
    + change (map ?f ?l) with (f <$> l).
      rewrite list_lookup_fmap, lookup_seqZ_lt by lia. simpl.
      do 2 f_equal. lia.
    + exact Hv.
    + intros Habsent. rewrite Hv, (sold_on_absent d records Habsent). reflexivity.
Qed.

Lemma normalizer_series_witness :
  let records := [sale 3 5; sale 1 2; sale 3 4; sale 6 1] in
  let series := prepareSalesData utc records in
  length series = Z.to_nat (d_max records - d_min records + 1) /\
  forall d : Z, d_min records <= d <= d_max records ->
    exists v, series !! Z.to_nat (d - d_min records) = Some v /\
              (v == sold_on d records)%Q /\
              (d ∉ map date records -> (v == 0)%Q).
Proof.
  apply (normalizer_series utc [sale 3 5; sale 1 2; sale 3 4; sale 6 1]).
  - discriminate.
  - intros d _. reflexivity.
Defined.

Example normalizer_example :
  prepareSalesData utc [sale 3 5; sale 1 2; sale 3 4; sale 6 1] = [2; 0; 9; 0; 0; 1]%Q.
Proof. vm_compute. reflexivity. Qed.

(** C5 fails where the clocks are put forward at midnight.  With one unit
    sold on 3 November 2018 and two on 5 November, a process in the zone
    America/Sao_Paulo, whose 4 November began at 01:00, walks from the
    midnight of the 3rd to 01:00 of the 4th and to 01:00 of the 5th, which
    is after the [Date] of the last day, its midnight: the loop ends and the
    last day is left out.  The series has two entries where the span has
    three days, and the two units of the last day are lost. *)
Theorem normalizer_drops_last_day :
  let records := [sale (dst_start - 1) 1; sale (dst_start + 1) 2] in
  d_min records = dst_start - 1 /\ d_max records = dst_start + 1 /\
  prepareSalesData sao_paulo records = [1; 0]%Q /\
  length (prepareSalesData sao_paulo records)
    <> Z.to_nat (d_max records - d_min records + 1) /\
  prepareSalesData sao_paulo records !! Z.to_nat (d_max records - d_min records) = None /\
  (sold_on (d_max records) records == 2)%Q /\
  prepareSalesData utc records = [1; 0; 2]%Q.
Proof. vm_compute. repeat split; discriminate. Qed.

(** ** [POST /generate/:sku] *)

Lemma dispatch_length (method : string) (timeSeries : list Q) (forecastDays : nat)
    (forecast : list Q) (forecastMethod : string) :
  dispatch method timeSeries forecastDays = Ok (forecast, forecastMethod) ->
  length forecast = forecastDays.
Proof.
  unfold dispatch. intros H.
  repeat case_decide.
  - destruct (linearTrend_returns timeSeries forecastDays) as (f & Hf & Hlen & _).
    rewrite Hf in H. simpl in H. congruence.
  - destruct (exponentialSmoothing_returns timeSeries (3 # 10) forecastDays)
      as (f & Hf & Hlen & _).
    rewrite Hf in H. simpl in H. congruence.
  - destruct timeSeries as [|x xs].
    + vm_compute in H. discriminate.
    + destruct (seasonalNaive_returns (x :: xs) 7 forecastDays) as (f & Hf & Hlen & _);
        [done|].
      rewrite Hf in H. simpl in H. congruence.
  - destruct (combinedForecast timeSeries forecastDays) as [f|] eqn:Hc; [|discriminate].
    apply combinedForecast_length in Hc. simpl in H. congruence.
Qed.

Lemma points_dates (w : World) (sku : string) (forecast : list Q) :
  fp_date <$> points w sku forecast = seqZ (today w + 1) (Z.of_nat (length forecast)).
Proof.
  unfold points, seqZ. rewrite fmap_imap, Nat2Z.id.
  rewrite <- imap_seq_0. apply imap_ext. intros i x _. simpl. lia.
Qed.

Lemma points_values (w : World) (sku : string) (forecast : list Q) :
  predicted_demand <$> points w sku forecast = forecast.
Proof.
  unfold points. rewrite fmap_imap.
  rewrite (imap_ext _ (fun _ x => x)) by done.
  induction forecast as [|x xs IH]; [done|].
  rewrite imap_cons. f_equal. exact IH.
Qed.

Lemma length_points (w : World) (sku : string) (forecast : list Q) :
  length (points w sku forecast) = length forecast.
Proof. apply length_imap. Qed.

(** What a successful response was made of. *)
Lemma generate_Json_inv (w : World) (req : Request) (data : ForecastData) :
  generate w req = Json data ->
  exists (n : Z) (salesData : list SalesRecord) (predicted : list Q),
    sku req <> "" /\
    default (Int 30) (days req) = Int n /\
    getSalesData w (sku req) (startDate req) (endDate req) = Ok salesData /\
    salesData <> [] /\
    dispatch (default "combined" (method req)) (prepareSalesData (timeZone w) salesData)
             (Z.to_nat (Z.min (Z.max n 1) 90)) = Ok (predicted, data_method data) /\
    period_days data = Z.to_nat (Z.min (Z.max n 1) 90) /\
    requestedMethod data = default "combined" (method req) /\
    forecast data = points w (sku req) predicted.
Proof.
  unfold generate, generate_try. case_decide as Hsku; [discriminate|].
  destruct (default (Int 30) (days req)) as [n|] eqn:Hdays.
  2:{ simpl. destruct (getSalesData w _ _ _) as [salesData|]; simpl; [|discriminate].
      destruct (length salesData =? 0)%nat; discriminate. }
  destruct (getSalesData w _ _ _) as [salesData|] eqn:Hsales; simpl; [|discriminate].
  destruct (length salesData =? 0)%nat eqn:Hlen; [discriminate|].
  unfold Math.minZ, Math.maxZ.
  destruct (dispatch _ _ _) as [[predicted forecastMethod]|] eqn:Hd; simpl; [|discriminate].
  match goal with
  | |- context [mbind _ ?c] => destruct c as [historicalAvg|]; simpl; [|discriminate]
  end.
  match goal with
  | |- context [mbind _ ?c] => destruct c as [peak|]; simpl; [|discriminate]
  end.
  intros [= <-]. simpl.
  exists n, salesData, predicted. repeat split; try done.
  intros ->. discriminate.
Qed.

Lemma dispatch_returns (method : string) (timeSeries : list Q) (forecastDays : nat) :
  timeSeries <> [] ->
  exists predicted,
    dispatch method timeSeries forecastDays = Ok (predicted, served_method method).
Proof.
  intros Hne. unfold dispatch, served_method.
  destruct (decide (method = "linear")) as [_|_].
  { destruct (linearTrend_returns timeSeries forecastDays) as (f & -> & _). by eexists. }
  destruct (decide (method = "exponential")) as [_|_].
  { destruct (exponentialSmoothing_returns timeSeries (3 # 10) forecastDays) as (f & -> & _).
    by eexists. }
  destruct (decide (method = "seasonal")) as [_|_].
  { destruct (seasonalNaive_returns timeSeries 7 forecastDays Hne) as (f & -> & _).
    by eexists. }
  destruct (combinedForecast_returns timeSeries forecastDays Hne) as [f ->]. by eexists.
Qed.

Lemma dispatch_unknown (method : string) (timeSeries : list Q) (forecastDays : nat) :
  method <> "linear" -> method <> "exponential" -> method <> "seasonal" ->
  dispatch method timeSeries forecastDays =
  (f ← combinedForecast timeSeries forecastDays; Ok (f, "combined")).
Proof.
  intros H1 H2 H3. unfold dispatch. by rewrite !decide_False.
Qed.

Lemma clamp_range (n : Z) : (1 <= Z.to_nat (Z.min (Z.max n 1) 90) <= 90)%nat.
Proof. lia. Qed.

(** A request with a sku, a horizon that parses and sales on record is
    answered with a forecast. *)
Lemma generate_accepts (w : World) (req : Request) (n : Z) (salesData : list SalesRecord) :
  sku req <> "" ->
  default (Int 30) (days req) = Int n ->
  getSalesData w (sku req) (startDate req) (endDate req) = Ok salesData ->
  salesData <> [] ->
  exists data, generate w req = Json data.
Proof.
  intros Hsku Hdays Hsales Hne.
  unfold generate, generate_try. rewrite decide_False by assumption.
  rewrite Hdays, Hsales. simpl.
  destruct salesData as [|r rs] eqn:Hrs; [done|]. rewrite <- Hrs in *. simpl length.
  replace (length salesData =? 0)%nat with false
    by (rewrite Hrs; reflexivity).
  pose proof (prepareSalesData_nonempty (timeZone w) salesData Hne) as Hts.
  unfold Math.minZ, Math.maxZ.
  destruct (dispatch_returns (default "combined" (method req))
              (prepareSalesData (timeZone w) salesData)
              (Z.to_nat (Z.min (Z.max n 1) 90)) Hts) as [predicted Hd].
  rewrite Hd. simpl.
  pose proof (dispatch_length _ _ _ _ _ Hd) as Hlen.
  destruct (prepareSalesData (timeZone w) salesData) as [|x xs] eqn:Hp; [done|]. simpl.
  destruct predicted as [|p ps]; [simpl in Hlen; lia|].
  simpl. eexists. reflexivity.
Qed.

(** The advisory of a response is [suggest] at the total predicted demand
    and at its quotient by the horizon; there is none without an inventory
    row. *)
Lemma generate_reorderSuggestion (w : World) (req : Request) (data : ForecastData) :
  generate w req = Json data ->
  reorderSuggestion data =
  match getInventoryBySku w (sku req) with
  | Ok currentInventory =>
    Some (suggest (totalPredictedDemand data)
                  (double.div (totalPredictedDemand data)
                              (inject_Z (Z.of_nat (period_days data))))
                  currentInventory)
  | Throw _ => None
  end.
Proof.
  unfold generate, generate_try. case_decide as Hsku; [discriminate|].
  destruct (getSalesData w _ _ _) as [salesData|]; simpl; [|discriminate].
  destruct (length salesData =? 0)%nat; [discriminate|].
  destruct (clamp_days _) as [n|]; simpl; [|discriminate].
  destruct (dispatch _ _ _) as [[predicted forecastMethod]|]; simpl; [|discriminate].
  match goal with
  | |- context [mbind _ ?c] => destruct c as [historicalAvg|]; simpl; [|discriminate]
  end.
  match goal with
  | |- context [mbind _ ?c] => destruct c as [peak|]; simpl; [|discriminate]
  end.
  intros [= <-]. reflexivity.
Qed.

(** C8, as the code has it.  An accepted request is answered with one
    forecast point per day of the clamped horizon, dated with the
    consecutive days that start the day after the day of the request. *)
Theorem forecast_dates_follow_today (w : World) (req : Request) (data : ForecastData) :
  generate w req = Json data ->
  (1 <= period_days data <= 90)%nat /\
  length (forecast data) = period_days data /\
  fp_date <$> forecast data = seqZ (today w + 1) (Z.of_nat (period_days data)).
Proof.
  intros H. apply generate_Json_inv in H
    as (n & salesData & predicted & _ & _ & _ & _ & Hd & -> & _ & ->).
  apply dispatch_length in Hd.
  split; [apply clamp_range|]. split.
  - by rewrite length_points.
  - by rewrite points_dates, Hd.
Qed.

Lemma forecast_dates_follow_today_witness :
  generate one_sale_world three_day_request = Json three_day_data /\
  fp_date <$> forecast three_day_data = [11; 12; 13].
Proof.
  assert (H : generate one_sale_world three_day_request = Json three_day_data)
    by (vm_compute; reflexivity).
  split; [exact H|].
  destruct (forecast_dates_follow_today one_sale_world three_day_request three_day_data H)
    as (_ & _ & ->).
  reflexivity.
Defined.

(** The dates do not start after the last observed day: with the only sale
    on day 0 and the request made on day 10, the three forecast points are
    dated 11, 12 and 13, not 1, 2 and 3. *)
Lemma forecast_dates_counterexample :
  ~ (forall data salesData,
       generate one_sale_world three_day_request = Json data ->
       getSalesData one_sale_world (sku three_day_request) (startDate three_day_request)
                    (endDate three_day_request) = Ok salesData ->
       fp_date <$> forecast data =
       seqZ (d_max salesData + 1) (Z.of_nat (period_days data))).
Proof.
  intros Hclaim.
  specialize (Hclaim three_day_data [sale 0 5]).
  assert (H : generate one_sale_world three_day_request = Json three_day_data)
    by (vm_compute; reflexivity).
  specialize (Hclaim H eq_refl). clear H. vm_compute in Hclaim. discriminate.
Qed.

(** ** Validation *)

Lemma generate_rejected_iff (w : World) (req : Request) :
  rejected (generate w req) <-> sku req = "".
Proof.
  unfold generate, generate_try. case_decide as Hsku; [done|].
  split; [|done].
  destruct (getSalesData w _ _ _) as [salesData|]; simpl; [|done].
  destruct (length salesData =? 0)%nat; [done|].
  destruct (clamp_days _) as [n|]; simpl; [|done].
  destruct (dispatch _ _ _) as [[predicted forecastMethod]|]; simpl; [|done].
  match goal with
  | |- context [mbind _ ?c] => destruct c as [historicalAvg|]; simpl; [|done]
  end.
  match goal with
  | |- context [mbind _ ?c] => destruct c as [peak|]; simpl; done
  end.
Qed.

(** C2, as the code has it.  The route refuses a request, with status 400
    and whatever the collaborators hold, exactly when its sku is empty.  A
    horizon outside [1, 90] is brought into that range and a method outside
    the four is served as the combined one: with a sku, a horizon that parses
    and sales on record, the request is answered with a forecast. *)
Theorem validation_rejects_only_empty_sku (w : World) (req : Request) :
  (rejected (generate w req) <-> sku req = "") /\
  (sku req = "" -> generate w req = Status400 "Bad Request" "SKU is required") /\
  (forall (n : Z) (salesData : list SalesRecord),
     sku req <> "" ->
     default (Int 30) (days req) = Int n ->
     getSalesData w (sku req) (startDate req) (endDate req) = Ok salesData ->
     salesData <> [] ->
     exists data,
       generate w req = Json data /\
       period_days data = Z.to_nat (Z.min (Z.max n 1) 90) /\
       (1 <= period_days data <= 90)%nat /\
       data_method data = served_method (default "combined" (method req))).
Proof.
  split; [apply generate_rejected_iff|]. split.
  - intros Hsku. unfold generate, generate_try. by rewrite decide_True.
  - intros n salesData Hsku Hdays Hsales Hne.
    destruct (generate_accepts w req n salesData Hsku Hdays Hsales Hne) as [data Hdata].
    exists data. split; [exact Hdata|].
    apply generate_Json_inv in Hdata
      as (n' & salesData' & predicted & _ & Hdays' & Hsales' & Hne' & Hd & Hp & _).
    assert (n' = n) as -> by congruence.
    assert (salesData' = salesData) as -> by congruence.
    split; [exact Hp|]. split; [rewrite Hp; apply clamp_range|].
    destruct (dispatch_returns (default "combined" (method req))
              (prepareSalesData (timeZone w) salesData)
                (Z.to_nat (Z.min (Z.max n 1) 90)))
      as [predicted' Hd']; [by apply prepareSalesData_nonempty|].
    congruence.
Qed.

Lemma validation_rejects_only_empty_sku_witness :
  exists data,
    generate one_sale_world out_of_range_request = Json data /\
    period_days data = 90%nat /\
    data_method data = "combined".
Proof.
  destruct (validation_rejects_only_empty_sku one_sale_world out_of_range_request)
    as (_ & _ & H).
  destruct (H 200 [sale 0 5]) as (data & Hdata & Hdays & _ & Hmethod);
    [discriminate | reflexivity | reflexivity | discriminate |].
  exists data. split; [exact Hdata|]. split; [exact Hdays | exact Hmethod].
Defined.

(** A horizon of 200 days and a method the route does not know are not
    refused: the request is answered with a forecast. *)
Lemma validation_counterexample :
  ~ (invalid_request out_of_range_request ->
     rejected (generate one_sale_world out_of_range_request)).
Proof.
  intros Hclaim.
  apply (generate_rejected_iff one_sale_world out_of_range_request) in Hclaim.
  - discriminate.
  - right. left. simpl. lia.
Qed.

(** ** An unknown method *)

Lemma generate_unknown_as_combined (w : World) (req : Request) (m : string) :
  method req = Some m ->
  m <> "linear" -> m <> "exponential" -> m <> "seasonal" ->
  generate w req = echo_method m (generate w (with_method "combined" req)).
Proof.
  intros Hm H1 H2 H3. unfold generate, generate_try, with_method. simpl.
  rewrite Hm. simpl.
  case_decide as Hsku; [done|].
  destruct (getSalesData w _ _ _) as [salesData|]; simpl; [|done].
  destruct (length salesData =? 0)%nat; [done|].
  destruct (clamp_days _) as [n|]; simpl; [|done].
  rewrite (dispatch_unknown m) by assumption.
  rewrite (dispatch_unknown "combined") by done.
  destruct (combinedForecast _ _) as [predicted|]; simpl; [|done].
  match goal with
  | |- context [mbind _ ?c] => destruct c as [historicalAvg|]; simpl; [|done]
  end.
  match goal with
  | |- context [mbind _ ?c] => destruct c as [peak|]; simpl; done
  end.
Qed.

(** C10.  A request whose method is none of linear, exponential and
    seasonal is not refused for it: it is answered as the same request with
    method combined would be, only echoing the method asked for; and once it
    has a sku, a horizon that parses and sales on record, the answer is the
    Combined forecast of the normalized series, reported with method
    "combined". *)
Theorem unknown_method_is_served_combined (w : World) (req : Request) (m : string) :
  method req = Some m ->
  m <> "linear" -> m <> "exponential" -> m <> "seasonal" ->
  generate w req = echo_method m (generate w (with_method "combined" req)) /\
  (sku req <> "" -> ~ rejected (generate w req)) /\
  (forall (n : Z) (salesData : list SalesRecord),
     sku req <> "" ->
     default (Int 30) (days req) = Int n ->
     getSalesData w (sku req) (startDate req) (endDate req) = Ok salesData ->
     salesData <> [] ->
     exists data combined,
       generate w req = Json data /\
       data_method data = "combined" /\
       requestedMethod data = m /\
       combinedForecast (prepareSalesData (timeZone w) salesData)
                        (Z.to_nat (Z.min (Z.max n 1) 90))
         = Ok combined /\
       predicted_demand <$> forecast data = combined).
Proof.
  intros Hm H1 H2 H3.
  split; [by apply generate_unknown_as_combined|]. split.
  - intros Hsku Hrej. by apply generate_rejected_iff in Hrej.
  - intros n salesData Hsku Hdays Hsales Hne.
    destruct (generate_accepts w req n salesData Hsku Hdays Hsales Hne) as [data Hdata].
    pose proof Hdata as Hinv.
    apply generate_Json_inv in Hinv
      as (n' & salesData' & predicted & _ & Hdays' & Hsales' & _ & Hd & _ & Hreq & Hf).
    assert (n' = n) as -> by congruence.
    assert (salesData' = salesData) as -> by congruence.
    rewrite Hm in Hd, Hreq. simpl in Hd, Hreq.
    rewrite dispatch_unknown in Hd by assumption.
    destruct (combinedForecast _ _) as [combined|]; simpl in Hd; [|discriminate].
    injection Hd as -> Hmethod.
    exists data, predicted. repeat split; try done.
    by rewrite Hf, points_values.
Qed.

Lemma unknown_method_is_served_combined_witness :
  exists data combined,
    generate one_sale_world out_of_range_request = Json data /\
    data_method data = "combined" /\
    requestedMethod data = "prophet" /\
    combinedForecast (prepareSalesData utc [sale 0 5]) 90 = Ok combined /\
    predicted_demand <$> forecast data = combined.
Proof.
  destruct (unknown_method_is_served_combined one_sale_world out_of_range_request "prophet")
    as (_ & _ & H); [reflexivity | discriminate | discriminate | discriminate |].
  apply (H 200 [sale 0 5]); [discriminate | reflexivity | reflexivity | discriminate].
Defined.

(** ** [POST /generate-all] *)

Lemma batch_loop_forecasts (w : World) (days : Q) (inventory : list InventoryItem) :
  fst (batch_loop w days inventory) = omap (success w days) inventory.
Proof.
  unfold batch_loop.
  assert (H : forall forecasts errors,
             fst (foldl (fun '(forecasts, errors) item =>
                           match forecast_item w days item with
                           | inl f => (forecasts ++ [f], errors)
                           | inr e => (forecasts, errors ++ [e])
                           end) (forecasts, errors) inventory)
             = forecasts ++ omap (success w days) inventory).
  { induction inventory as [|item items IH]; intros forecasts errors; simpl.
    - by rewrite app_nil_r.
    - change (omap (success w days) (item :: items))
        with (match success w days item with
              | Some y => y :: omap (success w days) items
              | None => omap (success w days) items
              end).
      unfold success at 1.
      destruct (forecast_item w days item) as [f|e]; rewrite IH.
      + by rewrite <- app_assoc.
      + reflexivity. }
  apply (H [] []).
Qed.

Lemma insert_by_front {A} (compareFn : A -> A -> Z) (x : A) (a : list A) :
  Forall (fun y => compareFn x y <= 0) a -> insert_by compareFn x a = x :: a.
Proof.
  destruct a as [|y ys]; [reflexivity|].
  intros Hall. apply Forall_cons in Hall as [Hy _]. simpl.
  by rewrite (proj2 (Z.leb_le _ _) Hy).
Qed.

Lemma insert_by_skip {A} (compareFn : A -> A -> Z) (x : A) (a1 a2 : list A) :
  Forall (fun y => 0 < compareFn x y) a1 ->
  insert_by compareFn x (a1 ++ a2) = a1 ++ insert_by compareFn x a2.
Proof.
  induction a1 as [|y ys IH]; [reflexivity|].
  intros Hall. apply Forall_cons in Hall as [Hy Hys]. simpl.
  rewrite (proj2 (Z.leb_gt _ _) Hy). f_equal. by apply IH.
Qed.

Lemma Forall_has_priority (p : Priority) (a : list BatchForecast) :
  Forall (has_priority p) (filter (has_priority p) a).
Proof. apply Forall_forall. intros f Hf. by apply list_elem_of_filter in Hf as [? _]. Qed.

(** Sorting by priority lists the high items, then the medium ones, then
    the low ones, each group in the order it had. *)
Lemma sort_by_priority_groups (a : list BatchForecast) :
  sort_by by_priority a =
  filter (has_priority high) a ++ filter (has_priority medium) a
    ++ filter (has_priority low) a.
Proof.
  induction a as [|x xs IH]; [reflexivity|].
  simpl. rewrite IH. clear IH.
  pose proof (Forall_has_priority high xs) as Hh.
  pose proof (Forall_has_priority medium xs) as Hm.
  pose proof (Forall_has_priority low xs) as Hl.
  rewrite !filter_cons.
  destruct (bf_priority x) eqn:Hx; decide_priority Hx.
  - apply insert_by_front. rewrite !Forall_app. repeat split;
      (eapply Forall_impl; [eassumption|]); ranks Hx.
  - rewrite insert_by_skip by (eapply Forall_impl; [exact Hh|]; ranks Hx).
    f_equal. apply insert_by_front. rewrite !Forall_app. split;
      (eapply Forall_impl; [eassumption|]); ranks Hx.
  - rewrite insert_by_skip by (eapply Forall_impl; [exact Hh|]; ranks Hx).
    f_equal.
    rewrite insert_by_skip by (eapply Forall_impl; [exact Hm|]; ranks Hx).
    f_equal. apply insert_by_front.
    eapply Forall_impl; [exact Hl|]. ranks Hx.
Qed.

Lemma success_priority (w : World) (days : Q) (item : InventoryItem) (f : BatchForecast) :
  success w days item = Some f ->
  bf_sku f = item_sku item /\
  bf_currentStock f = quantity item /\
  bf_reorderLevel f = reorder_level item /\
  bf_priority f =
    if Qle_bool (bf_currentStock f) (bf_reorderLevel f) then high
    else if gtb (bf_predictedDemand f) (bf_currentStock f) then medium
    else low.
Proof.
  unfold success, forecast_item.
  destruct (getSalesData w (item_sku item) None None) as [salesData|]; simpl; [|done].
  destruct (length salesData =? 0)%nat; [done|].
  destruct (combinedForecast_number _ _) as [predicted|]; simpl; [|done].
  intros [= <-]. simpl. done.
Qed.

(** C9.  In a batch run the successful items are those of the inventory, in
    its order, for which a forecast was made; each has priority high if
    [currentStock <= reorderThreshold], else medium if the predicted demand
    exceeds the stock, else low; and the results list the high items, then
    the medium ones, then the low ones, each group in inventory order. *)
Theorem batch_sorted_by_priority (w : World) (days : option Q) (data : BatchData) :
  generate_all w days = JsonBatch data ->
  exists inventory,
    getInventory w = Ok inventory /\
    let successes := omap (success w (default 30%Q days)) inventory in
    (forall f, f ∈ successes ->
       bf_priority f =
         if Qle_bool (bf_currentStock f) (bf_reorderLevel f) then high
         else if gtb (bf_predictedDemand f) (bf_currentStock f) then medium
         else low) /\
    forecasts data =
      filter (has_priority high) successes ++ filter (has_priority medium) successes
        ++ filter (has_priority low) successes.
Proof.
  unfold generate_all, generate_all_try.
  destruct (getInventory w) as [inventory|]; simpl; [|discriminate].
  destruct (length inventory =? 0)%nat; [discriminate|].
  pose proof (batch_loop_forecasts w (default 30%Q days) inventory) as Hloop.
  destruct (batch_loop w (default 30%Q days) inventory) as [fs es].
  simpl in Hloop. subst fs. intros [= <-]. simpl.
  exists inventory. split; [reflexivity|]. split.
  - intros f Hf. apply list_elem_of_omap in Hf as (it & _ & Hs).
    by apply success_priority in Hs as (_ & _ & _ & ?).
  - apply sort_by_priority_groups.
Qed.

Lemma batch_sorted_by_priority_witness :
  generate_all five_item_world (Some 2%Q) = JsonBatch five_item_batch /\
  map (fun f => (bf_sku f, bf_priority f)) (forecasts five_item_batch) =
    [("B", high); ("D", high); ("C", medium); ("A", low)].
Proof.
  assert (H : generate_all five_item_world (Some 2%Q) = JsonBatch five_item_batch)
    by (vm_compute; reflexivity).
  split; [exact H|].
  destruct (batch_sorted_by_priority five_item_world (Some 2%Q) five_item_batch H)
    as (inventory & Hinv & _ & ->).
  injection Hinv as <-. vm_compute. reflexivity.
Defined.

(** * Further properties *)

(** ** Exponential smoothing *)

Lemma round_within (s : Q) (lo hi : Z) :
  (inject_Z lo <= s <= inject_Z hi)%Q -> lo <= Math.round s <= hi.
Proof.
  intros [Hlo Hhi]. unfold Math.round. split.
  - rewrite <- (Qfloor_Z lo). apply Qfloor_resp_le. lra.
  - pose proof (Qfloor_le (s + (1 # 2))) as Hf.
    assert (H : (inject_Z (Qfloor (s + (1 # 2))) < inject_Z (hi + 1))%Q).
    { rewrite inject_Z_plus. change (inject_Z 1) with 1%Q. lra. }
    rewrite <- Zlt_Qlt in H. lia.
Qed.

Lemma smoothed_within (alpha lo hi : Q) (rest : list Q) (x : Q) :
  (0 <= alpha <= 1)%Q ->
  (lo <= x <= hi)%Q ->
  Forall (fun d => lo <= d <= hi)%Q rest ->
  (lo <= foldl (fun smoothed d => alpha * d + (1 - alpha) * smoothed) x rest <= hi)%Q.
Proof.
  intros Ha. revert x. induction rest as [|d rest IH]; intros x Hx Hrest; [exact Hx|].
  apply Forall_cons in Hrest as [Hd Hrest]. simpl. apply IH; [|exact Hrest].
  split; nra.
Qed.

(** With a smoothing factor in [0, 1], the smoothed forecast stays between
    integer bounds of the observations. *)
Theorem exponentialSmoothing_within_bounds (data : list Q) (alpha : Q) (forecastDays : nat)
    (lo hi : Z) :
  (0 <= alpha <= 1)%Q ->
  0 <= lo ->
  data <> [] ->
  Forall (fun d => inject_Z lo <= d <= inject_Z hi)%Q data ->
  exists forecasts,
    exponentialSmoothing data alpha forecastDays = Ok forecasts /\
    length forecasts = forecastDays /\
    Forall (fun v => inject_Z lo <= v <= inject_Z hi)%Q forecasts.
Proof.
  intros Ha Hlo Hne Hdata. unfold exponentialSmoothing.
  destruct data as [|x [|y rest]]; [done| |].
  - eexists. split; [reflexivity|]. split; [apply length_fill|].
    apply Forall_fill. by apply Forall_cons in Hdata as [? _].
  - eexists. split; [reflexivity|]. split; [apply length_fill|].
    apply Forall_fill.
    apply Forall_cons in Hdata as [Hx Hrest].
    pose proof (smoothed_within alpha _ _ (y :: rest) x Ha Hx Hrest) as Hs.
    apply round_within in Hs.
    set (r := Math.round _) in *.
    assert (Hr : (inject_Z lo <= inject_Z r <= inject_Z hi)%Q)
      by (split; rewrite <- Zle_Qle; lia).
    unfold Math.max. destruct (Qle_bool 0 (inject_Z r)) eqn:E; [exact Hr|].
    assert (~ (0 <= inject_Z r)%Q) as Hn by (rewrite <- Qle_bool_iff; congruence).
    exfalso. apply Hn. change 0%Q with (inject_Z 0). rewrite <- Zle_Qle. lia.
Qed.

Lemma exponentialSmoothing_within_bounds_witness :
  exists forecasts,
    exponentialSmoothing (map inject_Z [5; 5; 5; 5]) (3 # 10) 3 = Ok forecasts /\
    length forecasts = 3%nat /\
    Forall (fun v => inject_Z 5 <= v <= inject_Z 5)%Q forecasts.
Proof.
  apply (exponentialSmoothing_within_bounds (map inject_Z [5; 5; 5; 5]) (3 # 10) 3 5 5).
  - split; discriminate.
  - lia.
  - discriminate.
  - repeat constructor; discriminate.
Defined.

(** ** Linear trend *)

(** On observations that lie on a line the four sums are those of the line. *)
Lemma line_sums (data : list Q) (a b : Q) :
  (forall (i : nat) (y : Q), data !! i = Some y -> (y == a + b * inject_Z (Z.of_nat i))%Q) ->
  let '(sumX, sumY, sumXX, sumXY) :=
    ss.sums (imap (fun index value => (inject_Z (Z.of_nat index), value)) data) in
  let n := inject_Z (Z.of_nat (length data)) in
  (sumY == n * a + b * sumX /\ sumXY == a * sumX + b * sumXX)%Q.
Proof.
  induction data as [|v data IH] using rev_ind; intros Hline.
  - simpl. split; ring.
  - rewrite imap_app. simpl imap. rewrite sums_snoc.
    assert (Hv : (v == a + b * inject_Z (Z.of_nat (length data)))%Q).
    { apply Hline. rewrite lookup_app_r by lia. by rewrite Nat.sub_diag. }
    specialize (IH (fun i y Hi => Hline i y (lookup_app_l_Some _ _ _ _ Hi))).
    destruct (ss.sums _) as [[[sX sY] sXX] sXY].
    rewrite length_app. simpl length.
    replace (length data + 1)%nat with (S (length data)) by lia.
    rewrite Nat2Z.inj_succ. unfold Z.succ. rewrite inject_Z_plus.
    rewrite Nat.add_0_r.
    set (n := inject_Z (Z.of_nat (length data))) in *.
    change (inject_Z 1) with 1%Q.
    destruct IH as [IH1 IH2]. rewrite Hv, IH1, IH2. split; ring.
Qed.

(** The fitted line of [linearTrend] through observations on a line is that
    line. *)
Lemma regression_of_line (data : list Q) (a b : Q) :
  (2 <= length data)%nat ->
  (forall (i : nat) (y : Q), data !! i = Some y -> (y == a + b * inject_Z (Z.of_nat i))%Q) ->
  exists line,
    ss.linearRegression (imap (fun index value => (inject_Z (Z.of_nat index), value)) data)
      = Ok line /\
    forall x : Q, (ss.linearRegressionLine line x == a + b * x)%Q.
Proof.
  intros Hlen Hline.
  pose proof (line_sums data a b Hline) as Hsums.
  pose proof (index_sums data) as Hidx.
  pose proof (regression_denominator_positive data Hlen) as Hden.
  unfold ss.linearRegression.
  assert (Hshape : exists p q rest,
             imap (fun index value => (inject_Z (Z.of_nat index), value)) data
             = p :: q :: rest).
  { destruct data as [|x [|y rest]]; simpl in Hlen; try lia. by eexists _, _, _. }
  destruct Hshape as (p & q & rest & Hshape).
  assert (Hn : length (imap (fun index value => (inject_Z (Z.of_nat index), value)) data)
               = length data) by apply length_imap.
  destruct (ss.sums _) as [[[sX sY] sXX] sXY].
  rewrite Hshape in *. destruct p as [px py]. rewrite Hn.
  set (n := inject_Z (Z.of_nat (length data))) in *.
  assert (Hn2 : (2 <= n)%Q).
  { subst n. change 2%Q with (inject_Z 2). rewrite <- Zle_Qle. lia. }
  eexists. split; [reflexivity|].
  intros x. unfold ss.linearRegressionLine. simpl.
  destruct Hsums as [HY HXY]. cbv zeta in Hden.
  assert (Hm : ((n * sXY - sX * sY) / (n * sXX - sX * sX) == b)%Q).
  { rewrite HY, HXY.
    transitivity (b * (n * sXX - sX * sX) / (n * sXX - sX * sX))%Q.
    - apply Qmult_comp; [ring | reflexivity].
    - apply Qdiv_mult_l. lra. }
  rewrite Hm, HY. field. lra.
Qed.

(** Observations on a line [a + b i] are extrapolated along it: the
    forecast of day [i] is [a + b (n + i)], rounded and not below 0. *)
Theorem linearTrend_extrapolates_line (data : list Q) (a b : Q) (forecastDays : nat) :
  (2 <= length data)%nat ->
  (forall (i : nat) (y : Q), data !! i = Some y -> (y == a + b * inject_Z (Z.of_nat i))%Q) ->
  linearTrend data forecastDays =
  Ok (map (fun i : nat =>
             Math.max 0 (inject_Z (Math.round
               (a + b * inject_Z (Z.of_nat (length data + i))))))
          (seq 0 forecastDays)).
Proof.
  intros Hlen Hline. unfold linearTrend.
  replace (length data <? 2)%nat with false by (symmetry; apply Nat.ltb_ge; lia).
  destruct (regression_of_line data a b Hlen Hline) as (line & -> & Hpredict).
  simpl. f_equal. apply map_ext. intros i.
  f_equal. f_equal. unfold Math.round. apply Qfloor_comp.
  by rewrite Hpredict.
Qed.

Lemma linearTrend_extrapolates_line_witness :
  linearTrend (map inject_Z [10; 12; 14; 16; 18]) 3 = Ok [20; 22; 24]%Q.
Proof.
  rewrite (linearTrend_extrapolates_line (map inject_Z [10; 12; 14; 16; 18]) 10 2 3).
  - reflexivity.
  - simpl. lia.
  - intros i y Hi.
    do 5 (destruct i as [|i]; [injection Hi as <-; reflexivity|]).
    discriminate.
Defined.

(** ** Seasonal naive *)

Lemma Math_max_0_id (x : Q) : (0 <= x)%Q -> Math.max 0 x = x.
Proof. intros Hx. unfold Math.max. by rewrite (proj2 (Qle_bool_iff 0 x) Hx). Qed.

(** With at least one full season of non-negative observations, the
    forecast of day [i] is the observation [seasonLength - (i mod
    seasonLength)] places from the end: the last season, repeated. *)
Theorem seasonalNaive_repeats_last_season (data : list Q) (seasonLength forecastDays : nat) :
  (0 < seasonLength <= length data)%nat ->
  Forall (Qle 0) data ->
  exists forecasts,
    seasonalNaive data seasonLength forecastDays = Ok forecasts /\
    length forecasts = forecastDays /\
    (forall i : nat, (i < forecastDays)%nat ->
       exists v x,
         forecasts !! i = Some v /\
         data !! (length data - seasonLength + i mod seasonLength)%nat = Some x /\
         (v == x)%Q) /\
    (forall i : nat, (i + seasonLength < forecastDays)%nat ->
       forecasts !! (i + seasonLength)%nat = forecasts !! i).
Proof.
  intros [Hpos Hlen] Hdata. unfold seasonalNaive.
  replace (length data <? seasonLength)%nat with false
    by (symmetry; apply Nat.ltb_ge; lia).
  eexists. split; [reflexivity|]. split; [by rewrite length_map, length_seq|]. split.
  - intros i Hi.
    assert (Hidx : (length data - seasonLength + i mod seasonLength < length data)%nat).
    { pose proof (Nat.mod_upper_bound i seasonLength). lia. }
    destruct (lookup_lt_is_Some_2 data _ Hidx) as [x Hx].
    exists (Math.max 0 (or_num x 0)), x. split; [|split; [exact Hx|]].
    + change (map ?f ?l) with (f <$> l).
      rewrite list_lookup_fmap, lookup_seq_lt by lia. simpl. rewrite Hx. reflexivity.
    + rewrite Forall_forall in Hdata.
      assert (0 <= x)%Q as Hx0 by (apply Hdata; eapply list_elem_of_lookup_2; exact Hx).
      rewrite Math_max_0_id by (by rewrite or_num_0).
      apply or_num_0.
  - intros i Hi. change (map ?f ?l) with (f <$> l).
    rewrite !list_lookup_fmap, !lookup_seq_lt by lia. simpl.
    replace ((i + seasonLength) mod seasonLength)%nat with (i mod seasonLength)%nat.
    + reflexivity.
    + replace (i + seasonLength)%nat with (i + 1 * seasonLength)%nat by lia.
      by rewrite Nat.Div0.mod_add.
Qed.

Lemma seasonalNaive_repeats_last_season_witness :
  exists forecasts,
    seasonalNaive (map inject_Z [9; 1; 2; 3; 4; 5; 6; 7]) 7 9 = Ok forecasts /\
    forecasts !! 0%nat = Some 1%Q /\ forecasts !! 7%nat = forecasts !! 0%nat.
Proof.
  destruct (seasonalNaive_repeats_last_season (map inject_Z [9; 1; 2; 3; 4; 5; 6; 7]) 7 9)
    as (forecasts & Hf & _ & _ & Hper).
  - simpl. lia.
  - repeat constructor; discriminate.
  - exists forecasts. split; [exact Hf|]. split.
    + vm_compute in Hf. injection Hf as <-. reflexivity.
    + apply (Hper 0%nat). lia.
Defined.

(** A non-empty series shorter than a season gives a flat forecast at the
    mean of all its observations (never below 0). *)
Theorem seasonalNaive_short_series_is_flat_mean (data : list Q)
    (seasonLength forecastDays : nat) :
  (0 < length data < seasonLength)%nat ->
  seasonalNaive data seasonLength forecastDays
    = Ok (fill forecastDays (Math.max 0 (average data))) /\
  (Forall (Qle 0) data -> Math.max 0 (average data) = average data).
Proof.
  intros [Hpos Hlen]. split.
  - unfold seasonalNaive.
    replace (length data <? seasonLength)%nat with true
      by (symmetry; apply Nat.ltb_lt; lia).
    rewrite movingAverage_all, mean_average; [reflexivity|].
    intros ->. simpl in Hpos. lia.
  - intros Hdata. apply Math_max_0_id.
    apply (mean_nonneg data); [exact Hdata|].
    apply mean_average. intros ->. simpl in Hpos. lia.
Qed.

Lemma seasonalNaive_short_series_is_flat_mean_witness :
  seasonalNaive (map inject_Z [1; 2; 6]) 7 4 = Ok (fill 4 (Math.max 0 (9 # 3))).
Proof.
  destruct (seasonalNaive_short_series_is_flat_mean (map inject_Z [1; 2; 6]) 7 4) as [H _].
  - simpl. lia.
  - exact H.
Defined.

(** ** More on the normalizer *)

Lemma sum_map_ext {A} (f g : A -> Q) (l : list A) :
  (forall x, x ∈ l -> (f x == g x)%Q) -> (ss.sum (map f l) == ss.sum (map g l))%Q.
Proof.
  induction l as [|x xs IH]; intros Hfg; [reflexivity|].
  simpl map. rewrite !sum_cons, IH.
  - rewrite (Hfg x) by left. reflexivity.
  - intros y Hy. apply Hfg. by right.
Qed.

Lemma sum_map_plus {A} (f g : A -> Q) (l : list A) :
  (ss.sum (map (fun x => f x + g x) l) == ss.sum (map f l) + ss.sum (map g l))%Q.
Proof.
  induction l as [|x xs IH]; [reflexivity|].
  simpl map. rewrite !sum_cons, IH. ring.
Qed.

Lemma sum_map_zero {A} (l : list A) : (ss.sum (map (fun _ => 0%Q) l) == 0)%Q.
Proof.
  induction l as [|x xs IH]; [reflexivity|]. simpl map. rewrite sum_cons, IH. ring.
Qed.

Lemma sum_map_indicator (k : Z) (u : Q) (l : list Z) :
  NoDup l -> k ∈ l ->
  (ss.sum (map (fun d => if decide (k = d) then u else 0) l) == u)%Q.
Proof.
  induction l as [|d ds IH]; intros Hnd Hk; [by apply elem_of_nil in Hk|].
  apply NoDup_cons in Hnd as [Hd Hnd]. simpl map. rewrite sum_cons.
  destruct (decide (k = d)) as [->|Hne].
  - rewrite (sum_map_ext _ (fun _ => 0%Q)).
    + rewrite sum_map_zero. ring.
    + intros x Hx. destruct (decide (d = x)) as [->|]; [done|reflexivity].
  - apply elem_of_cons in Hk as [->|Hk]; [done|]. rewrite IH by assumption. ring.
Qed.

Lemma sum_sold_on (records : list SalesRecord) (l : list Z) :
  NoDup l -> (forall r, r ∈ records -> date r ∈ l) ->
  (ss.sum (map (fun d => sold_on d records) l) == ss.sum (map units_sold records))%Q.
Proof.
  intros Hnd. induction records as [|r rs IH]; intros Hin.
  - rewrite (sum_map_ext _ (fun _ => 0%Q)) by (intros; reflexivity).
    rewrite sum_map_zero. reflexivity.
  - rewrite (sum_map_ext _ (fun d => (if decide (date r = d) then units_sold r else 0)
                                     + sold_on d rs)%Q)
      by (intros; apply sold_on_cons).
    rewrite sum_map_plus, sum_map_indicator, IH.
    + simpl map. by rewrite sum_cons.
    + intros r' Hr'. apply Hin. by right.
    + exact Hnd.
    + apply Hin. left.
Qed.

Lemma series_total (records : list SalesRecord) :
  records <> [] ->
  (ss.sum (map (reads (foldl group_record ∅ records))
               (seqZ (d_min records) (d_max records - d_min records + 1)))
   == ss.sum (map units_sold records))%Q.
Proof.
  intros Hne. rewrite (sum_map_ext _ (fun d => sold_on d records)).
  - apply sum_sold_on; [apply NoDup_seqZ|].
    intros r Hr. apply elem_of_seqZ.
    destruct (d_min_spec records Hne) as [_ Hmin].
    destruct (d_max_spec records Hne) as [_ Hmax].
    rewrite Forall_forall in Hmin, Hmax.
    assert (date r ∈ map date records) as Hd by (by apply list_elem_of_fmap_2).
    specialize (Hmin _ Hd). specialize (Hmax _ Hd). simpl in Hmax. lia.
  - intros d _. rewrite grouped_reads. unfold reads. rewrite lookup_empty. simpl. ring.
Qed.

(** Where the zone of the process has the local midnight of every day
    from the first observed day to the last, normalizing keeps the total:
    the entries of the series add up to the quantities of all the
    observations. *)
Theorem normalizer_keeps_total (tz : TimeZone) (records : list SalesRecord) :
  midnights_exist tz (d_min records) (d_max records) ->
  (ss.sum (prepareSalesData tz records) == ss.sum (map units_sold records))%Q.
Proof.
  intros Hmid. destruct records as [|r rs]; [reflexivity|].
  rewrite prepareSalesData_eq by (discriminate || exact Hmid).
  apply series_total. discriminate.
Qed.

Lemma normalizer_keeps_total_witness :
  (ss.sum (prepareSalesData sao_paulo
             [sale (dst_start + 1) 5; sale (dst_start + 3) 2; sale (dst_start + 1) 4])
   == ss.sum (map units_sold
                [sale (dst_start + 1) 5; sale (dst_start + 3) 2; sale (dst_start + 1) 4]))%Q.
Proof.
  apply (normalizer_keeps_total sao_paulo
           [sale (dst_start + 1) 5; sale (dst_start + 3) 2; sale (dst_start + 1) 4]).
  intros d Hd.
  change (d_min _) with 17840 in Hd. simpl.
  destruct (Z.ltb_spec (d * msPerDay) (dst_start * msPerDay + 3600000)) as [Hlt|_];
    [|by rewrite andb_false_r].
  unfold dst_start, msPerDay in Hlt. lia.
Defined.

Lemma sold_on_nonneg (d : Z) (records : list SalesRecord) :
  Forall (fun r => 0 <= units_sold r)%Q records -> (0 <= sold_on d records)%Q.
Proof.
  intros Hrec. unfold sold_on. apply sum_nonneg.
  apply Forall_map, Forall_forall. intros r Hr.
  apply list_elem_of_filter in Hr as [_ Hr].
  rewrite Forall_forall in Hrec. by apply Hrec.
Qed.

Lemma reads_grouped_nonneg (records : list SalesRecord) (d : Z) :
  Forall (fun r => 0 <= units_sold r)%Q records ->
  (0 <= reads (foldl group_record ∅ records) d)%Q.
Proof.
  intros Hrec. rewrite grouped_reads. unfold reads. rewrite lookup_empty. simpl.
  pose proof (sold_on_nonneg d records Hrec). lra.
Qed.

Lemma prepareSalesData_nonneg (tz : TimeZone) (records : list SalesRecord) :
  Forall (fun r => 0 <= units_sold r)%Q records ->
  Forall (Qle 0) (prepareSalesData tz records).
Proof.
  intros Hrec. destruct records as [|r0 rs] eqn:Heq; [constructor|]. rewrite <- Heq in *.
  rewrite prepareSalesData_walk by (rewrite Heq; discriminate).
  apply fill_days_Forall; [|constructor].
  intros d. by apply reads_grouped_nonneg.
Qed.

(** Observations with non-negative quantities give a series without
    negative entries, in every zone. *)
Theorem normalizer_nonnegative (tz : TimeZone) (records : list SalesRecord) :
  Forall (fun r => 0 <= units_sold r)%Q records ->
  Forall (Qle 0) (prepareSalesData tz records).
Proof. apply prepareSalesData_nonneg. Qed.

Lemma normalizer_nonnegative_witness :
  Forall (Qle 0) (prepareSalesData sao_paulo [sale 3 5; sale 1 2; sale 3 4; sale 6 1]).
Proof.
  apply (normalizer_nonnegative sao_paulo [sale 3 5; sale 1 2; sale 3 4; sale 6 1]).
  repeat constructor; discriminate.
Defined.

Lemma sum_Permutation (l1 l2 : list Q) : l1 ≡ₚ l2 -> (ss.sum l1 == ss.sum l2)%Q.
Proof.
  induction 1 as [|x l1 l2 _ IH|x y l|l1 l2 l3 _ IH1 _ IH2].
  - reflexivity.
  - by rewrite !sum_cons, IH.
  - rewrite !sum_cons. ring.
  - by rewrite IH1.
Qed.

Lemma sold_on_Permutation (d : Z) (records1 records2 : list SalesRecord) :
  records1 ≡ₚ records2 -> (sold_on d records1 == sold_on d records2)%Q.
Proof.
  intros Hperm. unfold sold_on. apply sum_Permutation.
  change (map units_sold ?l) with (units_sold <$> l). by rewrite Hperm.
Qed.

Lemma d_min_Permutation (records1 records2 : list SalesRecord) :
  records1 <> [] -> records1 ≡ₚ records2 -> d_min records1 = d_min records2.
Proof.
  intros Hne Hperm.
  assert (Hne2 : records2 <> []).
  { intros ->. by apply Permutation_nil_r in Hperm. }
  destruct (d_min_spec records1 Hne) as [Hin1 Hle1].
  destruct (d_min_spec records2 Hne2) as [Hin2 Hle2].
  rewrite Forall_forall in Hle1, Hle2.
  change (map date ?l) with (date <$> l) in *.
  apply Z.le_antisymm.
  - apply Hle1. by rewrite Hperm.
  - apply Hle2. by rewrite <- Hperm.
Qed.

Lemma d_max_Permutation (records1 records2 : list SalesRecord) :
  records1 <> [] -> records1 ≡ₚ records2 -> d_max records1 = d_max records2.
Proof.
  intros Hne Hperm.
  assert (Hne2 : records2 <> []).
  { intros ->. by apply Permutation_nil_r in Hperm. }
  destruct (d_max_spec records1 Hne) as [Hin1 Hle1].
  destruct (d_max_spec records2 Hne2) as [Hin2 Hle2].
  rewrite Forall_forall in Hle1, Hle2.
  change (map date ?l) with (date <$> l) in *.
  apply Z.le_antisymm.
  - apply Hle2. by rewrite <- Hperm.
  - apply Hle1. by rewrite Hperm.
Qed.

Lemma Forall2_map_same {A} (f g : A -> Q) (l : list A) :
  (forall x, (f x == g x)%Q) -> Forall2 Qeq (map f l) (map g l).
Proof. intros Hfg. induction l; constructor; auto. Qed.

(** The series does not depend on the order in which the observations
    arrive, in any zone. *)
Theorem normalizer_order_independent (tz : TimeZone) (records1 records2 : list SalesRecord) :
  records1 ≡ₚ records2 ->
  Forall2 Qeq (prepareSalesData tz records1) (prepareSalesData tz records2).
Proof.
  intros Hperm. destruct records1 as [|r rs].
  - apply Permutation_nil_l in Hperm. subst records2.
    change (prepareSalesData tz []) with (@nil Q). constructor.
  - remember (r :: rs) as records1 eqn:Heq.
    assert (Hne : records1 <> []) by (rewrite Heq; discriminate).
    assert (Hne2 : records2 <> []).
    { intros ->. by apply Permutation_nil_r in Hperm. }
    rewrite (prepareSalesData_walk tz records1 Hne), (prepareSalesData_walk tz records2 Hne2).
    rewrite <- (d_min_Permutation records1 records2 Hne Hperm).
    rewrite <- (d_max_Permutation records1 records2 Hne Hperm).
    apply fill_days_ext; [|constructor]. intros d.
    rewrite !grouped_reads. by rewrite (sold_on_Permutation d _ _ Hperm).
Qed.

Lemma normalizer_order_independent_witness :
  Forall2 Qeq (prepareSalesData sao_paulo [sale 3 5; sale 1 2; sale 3 4])
              (prepareSalesData sao_paulo [sale 3 4; sale 3 5; sale 1 2]).
Proof.
  apply (normalizer_order_independent sao_paulo [sale 3 5; sale 1 2; sale 3 4]
                                      [sale 3 4; sale 3 5; sale 1 2]).
  etransitivity; [apply Permutation_skip, Permutation_swap|].
  apply Permutation_swap.
Defined.

(** ** More on [POST /generate/:sku] *)

Lemma round_nonneg (x : Q) : (0 <= x)%Q -> 0 <= Math.round x.
Proof.
  intros Hx. unfold Math.round. rewrite <- (Qfloor_Z 0).
  apply Qfloor_resp_le. change (inject_Z 0) with 0%Q. lra.
Qed.

Lemma or_undef_nonneg (l : list Q) (i : nat) :
  Forall (Qle 0) l -> (0 <= or_undef (l !! i) 0)%Q.
Proof.
  intros Hl. destruct (l !! i) as [v|] eqn:E; simpl; [|apply Qle_refl].
  rewrite or_num_0. rewrite Forall_forall in Hl.
  apply Hl. eapply list_elem_of_lookup_2. exact E.
Qed.

Lemma combinedForecast_nonneg (data : list Q) (forecastDays : nat) (combined : list Q) :
  Forall (Qle 0) data ->
  combinedForecast data forecastDays = Ok combined ->
  Forall (Qle 0) combined.
Proof.
  intros Hdata.
  destruct (linearTrend_returns data forecastDays) as (linear & Hl & _ & Hln).
  destruct (exponentialSmoothing_returns data (3 # 10) forecastDays)
    as (exponential & He & _ & Hen).
  destruct (seasonalNaive data 7 forecastDays) as [seasonal|err] eqn:Hs.
  - rewrite (combinedForecast_eq _ _ _ _ _ Hl He Hs). intros [= <-].
    assert (Hsn : Forall (Qle 0) seasonal).
    { destruct data as [|x xs]; [discriminate|].
      destruct (seasonalNaive_returns (x :: xs) 7 forecastDays) as (f & Hf & _ & Hfn);
        [done|]. congruence. }
    apply Forall_map, Forall_forall. intros i _.
    change 0%Q with (inject_Z 0). rewrite <- Zle_Qle. apply round_nonneg.
    apply Qle_shift_div_l; [reflexivity|]. rewrite Qmult_0_l.
    apply sum_nonneg. repeat constructor; apply or_undef_nonneg; auto.
  - unfold combinedForecast. rewrite Hl, He, Hs. discriminate.
Qed.

Lemma dispatch_nonneg (method : string) (timeSeries : list Q) (forecastDays : nat)
    (predicted : list Q) (forecastMethod : string) :
  Forall (Qle 0) timeSeries ->
  dispatch method timeSeries forecastDays = Ok (predicted, forecastMethod) ->
  Forall (Qle 0) predicted.
Proof.
  intros Hts. unfold dispatch. repeat case_decide.
  - destruct (linearTrend_returns timeSeries forecastDays) as (f & -> & _ & Hf).
    intros [= <- _]. auto.
  - destruct (exponentialSmoothing_returns timeSeries (3 # 10) forecastDays)
      as (f & -> & _ & Hf).
    intros [= <- _]. auto.
  - destruct timeSeries as [|x xs]; [discriminate|].
    destruct (seasonalNaive_returns (x :: xs) 7 forecastDays) as (f & -> & _ & Hf); [done|].
    by intros [= <- _].
  - destruct (combinedForecast timeSeries forecastDays) as [f|] eqn:Hc; [|discriminate].
    intros [= <- _]. by eapply combinedForecast_nonneg.
Qed.

Lemma foldl_add_nonneg (l : list Q) : Forall (Qle 0) l -> (0 <= foldl double.add 0 l)%Q.
Proof.
  assert (H : forall a, (0 <= a)%Q -> Forall (Qle 0) l -> (0 <= foldl double.add a l)%Q).
  { induction l as [|x xs IH]; intros a Ha Hl; [exact Ha|].
    apply Forall_cons in Hl as [Hx Hxs]. simpl. apply IH; [|exact Hxs].
    by apply add_nonneg. }
  apply H. apply Qle_refl.
Qed.

(** The total of a response is the sum of its forecast. *)
Lemma generate_total (w : World) (req : Request) (data : ForecastData) :
  generate w req = Json data ->
  exists predicted,
    forecast data = points w (sku req) predicted /\
    totalPredictedDemand data = foldl double.add 0%Q predicted.
Proof.
  unfold generate, generate_try. case_decide; [discriminate|].
  destruct (getSalesData w _ _ _) as [sd|]; simpl; [|discriminate].
  destruct (length sd =? 0)%nat; [discriminate|].
  destruct (clamp_days _) as [n|]; simpl; [|discriminate].
  destruct (dispatch _ _ _) as [[predicted fm]|]; simpl; [|discriminate].
  match goal with
  | |- context [mbind _ ?c] => destruct c as [historicalAvg|]; simpl; [|discriminate]
  end.
  match goal with
  | |- context [mbind _ ?c] => destruct c as [peak|]; simpl; [|discriminate]
  end.
  intros [= <-]. exists predicted. split; reflexivity.
Qed.

(** From sales with non-negative quantities no method forecasts a negative
    demand: every forecast point of a response, and their total, is at least
    0. *)
Theorem generate_forecast_nonnegative (w : World) (req : Request) (data : ForecastData)
    (salesData : list SalesRecord) :
  generate w req = Json data ->
  getSalesData w (sku req) (startDate req) (endDate req) = Ok salesData ->
  Forall (fun r => 0 <= units_sold r)%Q salesData ->
  Forall (fun p => 0 <= predicted_demand p)%Q (forecast data) /\
  (0 <= totalPredictedDemand data)%Q.
Proof.
  intros Hgen Hsales Hunits.
  destruct (generate_total w req data Hgen) as (predicted' & Hf' & Htotal).
  apply generate_Json_inv in Hgen
    as (n & salesData' & predicted & _ & _ & Hsales' & _ & Hd & _ & _ & Hf).
  assert (salesData' = salesData) as -> by congruence.
  assert (predicted' = predicted) as ->.
  { rewrite <- (points_values w (sku req) predicted'),
            <- (points_values w (sku req) predicted). congruence. }
  assert (Hseries : Forall (Qle 0) (prepareSalesData (timeZone w) salesData))
    by (by apply prepareSalesData_nonneg).
  apply dispatch_nonneg in Hd; [|exact Hseries].
  assert (Hvalues : Forall (Qle 0) (predicted_demand <$> forecast data))
    by (by rewrite Hf, points_values).
  split.
  - rewrite Forall_forall in Hvalues. apply Forall_forall. intros p Hp.
    apply Hvalues. by apply list_elem_of_fmap_2.
  - rewrite Htotal. by apply foldl_add_nonneg.
Qed.

Lemma generate_forecast_nonnegative_witness :
  Forall (fun p => 0 <= predicted_demand p)%Q (forecast three_day_data) /\
  (0 <= totalPredictedDemand three_day_data)%Q.
Proof.
  apply (generate_forecast_nonnegative one_sale_world three_day_request three_day_data
           [sale 0 5]).
  - vm_compute. reflexivity.
  - reflexivity.
  - repeat constructor. discriminate.
Defined.

(** The pick of [peakDay]: the running maximum changes only for a strictly
    greater demand. *)
Lemma peak_fold (first : ForecastPoint) (others : list ForecastPoint) :
  let peak := foldl (fun max current =>
                       if gtb (predicted_demand current) (predicted_demand max)
                       then current else max) first others in
  exists i : nat,
    (first :: others) !! i = Some peak /\
    (forall p, p ∈ first :: others -> (predicted_demand p <= predicted_demand peak)%Q) /\
    (forall (j : nat) p, (j < i)%nat -> (first :: others) !! j = Some p ->
       (predicted_demand p < predicted_demand peak)%Q).
Proof.
  induction others as [|y others IH] using rev_ind; simpl.
  - exists 0%nat. split; [reflexivity|]. split.
    + intros p Hp. apply list_elem_of_singleton in Hp as ->. apply Qle_refl.
    + intros j p Hj. lia.
  - rewrite foldl_app. simpl.
    set (peak := foldl _ first others) in *.
    destruct IH as (i & Hi & Hmax & Hbefore).
    assert (Hilen : (i < length (first :: others))%nat)
      by (eapply lookup_lt_Some; exact Hi).
    destruct (gtb (predicted_demand y) (predicted_demand peak)) eqn:E.
    + apply gtb_lt in E. exists (length (first :: others)). split; [|split].
      * change (first :: others ++ [y]) with ((first :: others) ++ [y]).
        rewrite lookup_app_r by lia. by rewrite Nat.sub_diag.
      * intros p Hp. change (first :: others ++ [y]) with ((first :: others) ++ [y]) in Hp.
        apply elem_of_app in Hp as [Hp|Hp].
        -- specialize (Hmax p Hp). lra.
        -- apply list_elem_of_singleton in Hp as ->. apply Qle_refl.
      * intros j p Hj Hp.
        change (first :: others ++ [y]) with ((first :: others) ++ [y]) in Hp.
        rewrite lookup_app_l in Hp by lia.
        assert (p ∈ first :: others) as Hin by (eapply list_elem_of_lookup_2; exact Hp).
        specialize (Hmax p Hin). lra.
    + assert (Hy : (predicted_demand y <= predicted_demand peak)%Q).
      { unfold gtb in E. apply negb_false_iff in E. by apply Qle_bool_iff. }
      exists i. split; [|split].
      * change (first :: others ++ [y]) with ((first :: others) ++ [y]).
        by rewrite lookup_app_l by lia.
      * intros p Hp. change (first :: others ++ [y]) with ((first :: others) ++ [y]) in Hp.
        apply elem_of_app in Hp as [Hp|Hp]; [by apply Hmax|].
        by apply list_elem_of_singleton in Hp as ->.
      * intros j p Hj Hp.
        change (first :: others ++ [y]) with ((first :: others) ++ [y]) in Hp.
        rewrite lookup_app_l in Hp by lia. by eapply Hbefore.
Qed.

Lemma generate_peakDay (w : World) (req : Request) (data : ForecastData) :
  generate w req = Json data ->
  reduce1 (fun max current =>
             if gtb (predicted_demand current) (predicted_demand max)
             then current else max) (forecast data) = Ok (peakDay data).
Proof.
  unfold generate, generate_try. case_decide; [discriminate|].
  destruct (getSalesData w _ _ _) as [sd|]; simpl; [|discriminate].
  destruct (length sd =? 0)%nat; [discriminate|].
  destruct (clamp_days _) as [n|]; simpl; [|discriminate].
  destruct (dispatch _ _ _) as [[predicted fm]|]; simpl; [|discriminate].
  match goal with
  | |- context [mbind _ ?c] => destruct c as [historicalAvg|]; simpl; [|discriminate]
  end.
  match goal with
  | |- context [mbind _ ?c] => destruct c as [peak|] eqn:Hpeak; simpl; [|discriminate]
  end.
  intros [= <-]. exact Hpeak.
Qed.

Lemma points_lookup (w : World) (sku : string) (predicted : list Q) (i : nat)
    (p : ForecastPoint) :
  points w sku predicted !! i = Some p -> fp_date p = today w + (Z.of_nat i + 1).
Proof.
  unfold points. rewrite list_lookup_imap.
  destruct (predicted !! i); simpl; [|discriminate]. by intros [= <-].
Qed.

(** The peak day of a response is one of its forecast points, no point has
    a greater demand, and among the points of equal demand it is the
    earliest. *)
Theorem peakDay_is_earliest_maximum (w : World) (req : Request) (data : ForecastData) :
  generate w req = Json data ->
  peakDay data ∈ forecast data /\
  forall p, p ∈ forecast data ->
    (predicted_demand p <= predicted_demand (peakDay data))%Q /\
    ((predicted_demand p == predicted_demand (peakDay data))%Q ->
     fp_date (peakDay data) <= fp_date p).
Proof.
  intros Hgen. pose proof (generate_peakDay w req data Hgen) as Hpeak.
  destruct (generate_total w req data Hgen) as (predicted & Hf & _).
  destruct (forecast data) as [|first others] eqn:Hforecast; [discriminate|].
  injection Hpeak as Hpeak.
  destruct (peak_fold first others) as (i & Hi & Hmax & Hbefore).
  rewrite Hpeak in Hi, Hmax, Hbefore.
  split; [eapply list_elem_of_lookup_2; exact Hi|].
  intros p Hp. split; [by apply Hmax|].
  intros Heq. apply list_elem_of_lookup_1 in Hp as [j Hj].
  rewrite Hf in Hi, Hj.
  apply points_lookup in Hi as Hdi. apply points_lookup in Hj as Hdj.
  rewrite Hdi, Hdj.
  destruct (decide (j < i)%nat) as [Hlt|Hge]; [|lia].
  rewrite <- Hf in Hj. specialize (Hbefore j p Hlt Hj). lra.
Qed.

Lemma peakDay_is_earliest_maximum_witness :
  peakDay three_day_data ∈ forecast three_day_data /\
  forall p, p ∈ forecast three_day_data ->
    (predicted_demand p <= predicted_demand (peakDay three_day_data))%Q /\
    ((predicted_demand p == predicted_demand (peakDay three_day_data))%Q ->
     fp_date (peakDay three_day_data) <= fp_date p).
Proof.
  apply (peakDay_is_earliest_maximum one_sale_world three_day_request three_day_data).
  vm_compute. reflexivity.
Defined.

(** The error answers of the route, for a request with a sku: a failed read
    of the sales is a 500; no sales on record is a 404 naming the sku,
    whatever the horizon and the method; and with sales on record a horizon
    that does not parse is a 500. *)
Theorem generate_error_responses (w : World) (req : Request) :
  sku req <> "" ->
  (forall e, getSalesData w (sku req) (startDate req) (endDate req) = Throw e ->
     generate w req = Status500 "Internal Server Error" "Failed to generate forecast") /\
  (getSalesData w (sku req) (startDate req) (endDate req) = Ok [] ->
     generate w req = Status404 "No Data" ("No sales data found for SKU: " +:+ sku req)) /\
  (forall salesData,
     getSalesData w (sku req) (startDate req) (endDate req) = Ok salesData ->
     salesData <> [] ->
     days req = Some NaN ->
     generate w req = Status500 "Internal Server Error" "Failed to generate forecast").
Proof.
  intros Hsku. unfold generate, generate_try. rewrite decide_False by assumption.
  split; [|split].
  - intros e ->. reflexivity.
  - intros ->. reflexivity.
  - intros salesData -> Hne ->. simpl.
    destruct salesData; [done|]. reflexivity.
Qed.

Lemma generate_error_responses_witness :
  generate one_sale_world
    {| sku := "SKU-1"; days := Some NaN; method := None;
       startDate := None; endDate := None |}
  = Status500 "Internal Server Error" "Failed to generate forecast".
Proof.
  destruct (generate_error_responses one_sale_world
              {| sku := "SKU-1"; days := Some NaN; method := None;
                 startDate := None; endDate := None |}) as (_ & _ & H).
  - discriminate.
  - apply (H [sale 0 5]); [reflexivity | discriminate | reflexivity].
Defined.

(** An inventory row that cannot be read does not fail the request: the
    forecast is answered without a reorder suggestion. *)
Theorem missing_inventory_omits_suggestion (w : World) (req : Request) (n : Z)
    (salesData : list SalesRecord) (e : exn) :
  sku req <> "" ->
  default (Int 30) (days req) = Int n ->
  getSalesData w (sku req) (startDate req) (endDate req) = Ok salesData ->
  salesData <> [] ->
  getInventoryBySku w (sku req) = Throw e ->
  exists data, generate w req = Json data /\ reorderSuggestion data = None.
Proof.
  intros Hsku Hdays Hsales Hne Hinv.
  destruct (generate_accepts w req n salesData Hsku Hdays Hsales Hne) as [data Hdata].
  exists data. split; [exact Hdata|].
  rewrite (generate_reorderSuggestion w req data Hdata), Hinv. reflexivity.
Qed.

Lemma missing_inventory_omits_suggestion_witness :
  exists data,
    generate one_sale_world three_day_request = Json data /\ reorderSuggestion data = None.
Proof.
  apply (missing_inventory_omits_suggestion one_sale_world three_day_request 3 [sale 0 5]
           (Error "no rows")); (reflexivity || discriminate).
Defined.

(** ** More on the reorder suggestion *)

Lemma floor_ge (z : Z) (x : Q) : (inject_Z z <= x)%Q -> z <= Qfloor x.
Proof. intros H. apply Qfloor_resp_le in H. by rewrite Qfloor_Z in H. Qed.

Lemma rnd_0 (x : Q) : (x == 0)%Q -> double.rnd x = 0%Q.
Proof. intros H. rewrite (rnd_comp x 0 H). reflexivity. Qed.

Lemma normal_from (x : Q) : (1 # 1152921504606846976 <= x)%Q -> (double.pow2 (-1022) <= x)%Q.
Proof.
  intros H. eapply Qle_trans; [|exact H].
  apply Qle_bool_iff. vm_compute. reflexivity.
Qed.

(** The arithmetic of the two cases, [u] being one part in 2^53. *)
Lemma before_horizon (T D B X q s : Q) :
  let u := (1 # 9007199254740992)%Q in
  (1 <= T <= 2251799813685248)%Q -> (1 <= D)%Q -> (0 <= s <= T - 1)%Q ->
  (0 < B)%Q -> (T * (1 - u) * (1 - u) <= B * D)%Q ->
  (X * B == s)%Q -> (q <= X * (1 + u))%Q ->
  (q < D)%Q.
Proof.
  intros u HT HD Hs HB HBD HX Hq. subst u.
  apply Qnot_le_lt. intros Hle.
  assert (D * B <= X * (1 + (1 # 9007199254740992)) * B)%Q
    by (apply Qmult_le_compat_r; lra).
  assert (X * (1 + (1 # 9007199254740992)) * B == s * (1 + (1 # 9007199254740992)))%Q as Heq
    by (rewrite <- HX; ring).
  rewrite Heq in H. lra.
Qed.

Lemma within_a_day_of_horizon (T D B X q s : Q) :
  let u := (1 # 9007199254740992)%Q in
  (0 < T)%Q -> (1 <= D <= 90)%Q -> (T <= s)%Q ->
  (0 < B)%Q -> (B * D <= T * (1 + u) * (1 + u))%Q ->
  (X * B == s)%Q -> (X * (1 - u) <= q)%Q ->
  (D - 1 <= q)%Q.
Proof.
  intros u HT HD Hs HB HBD HX Hq. subst u.
  eapply Qle_trans; [|exact Hq].
  apply Qnot_lt_le. intros Hlt.
  assert (X * (1 - (1 # 9007199254740992)) * B < (D - 1) * B)%Q
    by (apply Qmult_lt_compat_r; lra).
  assert (X * (1 - (1 # 9007199254740992)) * B == s * (1 - (1 # 9007199254740992)))%Q as Heq
    by (rewrite <- HX; ring).
  rewrite Heq in H.
  assert ((D - 1) * (B * D) <= (D - 1) * (T * (1 + (1 # 9007199254740992))
                                           * (1 + (1 # 9007199254740992))))%Q as H1.
  { rewrite !(Qmult_comm (D - 1)). apply Qmult_le_compat_r; lra. }
  assert (s * (1 - (1 # 9007199254740992)) * D < (D - 1) * B * D)%Q as H2
    by (apply Qmult_lt_compat_r; lra).
  assert (T * (1 - (1 # 9007199254740992)) * D <= s * (1 - (1 # 9007199254740992)) * D)%Q as H3.
  { apply Qmult_le_compat_r; [|lra]. apply Qmult_le_compat_r; lra. }
  assert ((D - 1) * B * D == (D - 1) * (B * D))%Q as H4 by ring.
  rewrite H4 in H2.
  assert (T * ((D - 1) * (1 + (1 # 9007199254740992)) * (1 + (1 # 9007199254740992))
               - (1 - (1 # 9007199254740992)) * D) <= 0)%Q as H5.
  { rewrite <- (Qmult_0_r T). 
    rewrite !(Qmult_comm T). apply Qmult_le_compat_r; lra. }
  lra.
Qed.

(** With whole numbers for the stock and for the predicted demand, the day
    counts tell on which side of the horizon the stock runs out, up to the
    rounding of the two divisions: before the horizon ends when a reorder
    is needed, and not more than a day before it ends when none is needed.
    The day is lost to rounding for a stock of 9 and a demand of 9 over 7
    days, where 6 days of stock are counted. *)
Theorem day_counts_against_horizon (total stock : Z) (forecastDays : nat)
    (currentInventory : InventoryItem) :
  (quantity currentInventory == inject_Z stock)%Q ->
  0 <= stock < 2 ^ 53 ->
  0 < total < 2 ^ 51 ->
  (1 <= forecastDays <= 90)%nat ->
  let s := suggest (inject_Z total)
             (double.div (inject_Z total) (inject_Z (Z.of_nat forecastDays)))
             currentInventory in
  (stock < total ->
     exists d, daysUntilStockout s = Some d /\ 0 <= d < Z.of_nat forecastDays) /\
  (total <= stock ->
     exists d, daysOfStock s = Some d /\ Z.of_nat forecastDays - 1 <= d).
Proof.
  intros Hq Hstock Htotal Hdays s. subst s.
  set (T := inject_Z total). set (D := inject_Z (Z.of_nat forecastDays)).
  set (u := (1 # 9007199254740992)%Q).
  assert (HT : (1 <= T <= 2251799813685248)%Q).
  { subst T. change 1%Q with (inject_Z 1).
    change 2251799813685248%Q with (inject_Z (2 ^ 51)). rewrite <- !Zle_Qle. lia. }
  assert (HD : (1 <= D <= 90)%Q).
  { subst D. change 1%Q with (inject_Z 1). change 90%Q with (inject_Z 90).
    rewrite <- !Zle_Qle. lia. }
  (* the average *)
  set (A := double.div T D).
  assert (HA : (T / D * (1 - u) <= A <= T / D * (1 + u))%Q).
  { subst A. unfold double.div.
    rewrite (rnd_whole T total) by (reflexivity || lia).
    rewrite (rnd_whole D (Z.of_nat forecastDays)) by (reflexivity || lia).
    apply rnd_near, normal_from.
    apply Qle_shift_div_l; lra. }
  assert (HTD : (T / D * D == T)%Q) by (field; lra).
  assert (HAD : (T * (1 - u) <= A * D <= T * (1 + u))%Q).
  { destruct HA as [HA1 HA2]. split.
    - apply (Qmult_le_compat_r _ _ D) in HA1; [|lra].
      assert (T / D * (1 - u) * D == T * (1 - u))%Q as Heq
        by (transitivity (T / D * D * (1 - u))%Q; [ring | by rewrite HTD]).
      by rewrite Heq in HA1.
    - apply (Qmult_le_compat_r _ _ D) in HA2; [|lra].
      assert (T / D * (1 + u) * D == T * (1 + u))%Q as Heq
        by (transitivity (T / D * D * (1 + u))%Q; [ring | by rewrite HTD]).
      by rewrite Heq in HA2. }
  assert (HApos : (1 # 1152921504606846976 <= A)%Q).
  { assert (1 # 128 <= T / D)%Q by (apply Qle_shift_div_l; lra).
    destruct HA as [HA1 _]. eapply Qle_trans; [|exact HA1].
    apply Qle_trans with ((1 # 128) * (1 - u))%Q; [subst u; lra|].
    apply Qmult_le_compat_r; [assumption | subst u; lra]. }
  assert (HA0 : (0 < A)%Q).
  { eapply Qlt_le_trans; [|exact HApos]. reflexivity. }
  assert (Hor : or_num A 1 = A).
  { unfold or_num, falsy. destruct (Qeq_bool A 0) eqn:E; [|reflexivity].
    apply Qeq_bool_iff in E. lra. }
  (* the quotient *)
  set (B := double.rnd A).
  assert (HB : (A * (1 - u) <= B <= A * (1 + u))%Q)
    by (apply rnd_near, normal_from, HApos).
  assert (HB0 : (0 < B)%Q).
  { destruct HB as [HB1 _]. eapply Qlt_le_trans; [|exact HB1].
    apply Qmult_lt_0_compat; [exact HA0 | subst u; reflexivity]. }
  assert (HBD : (T * (1 - u) * (1 - u) <= B * D <= T * (1 + u) * (1 + u))%Q).
  { destruct HB as [HB1 HB2], HAD as [HAD1 HAD2]. split.
    - apply Qle_trans with (A * (1 - u) * D)%Q; [|apply Qmult_le_compat_r; lra].
      assert (A * (1 - u) * D == A * D * (1 - u))%Q as -> by ring.
      apply Qmult_le_compat_r; [exact HAD1 | subst u; lra].
    - apply Qle_trans with (A * (1 + u) * D)%Q; [apply Qmult_le_compat_r; lra|].
      assert (A * (1 + u) * D == A * D * (1 + u))%Q as -> by ring.
      apply Qmult_le_compat_r; [exact HAD2 | subst u; lra]. }
  set (S' := inject_Z stock).
  set (X := (S' / B)%Q).
  assert (HXB : (X * B == S')%Q) by (subst X; field; lra).
  assert (Hcount : double.div (quantity currentInventory) (or_num A 1) = double.rnd X).
  { rewrite Hor. unfold double.div. fold B.
    by rewrite (rnd_whole (quantity currentInventory) stock Hq) by lia. }
  assert (HS : (0 <= S')%Q).
  { subst S'. change 0%Q with (inject_Z 0). rewrite <- Zle_Qle. lia. }
  assert (Hnear : (0 < S')%Q ->
                  (X * (1 - u) <= double.rnd X <= X * (1 + u))%Q).
  { intros HS1. apply rnd_near, normal_from.
    assert (1 <= S')%Q.
    { subst S'. change 1%Q with (inject_Z 1). rewrite <- Zle_Qle.
      change 0%Q with (inject_Z 0) in HS1. rewrite <- Zlt_Qlt in HS1. lia. }
    subst X. apply Qle_shift_div_l; [exact HB0|].
    destruct HBD as [_ HBD2].
    assert (B <= B * D)%Q.
    { rewrite <- (Qmult_1_r B) at 1. rewrite !(Qmult_comm B).
      apply Qmult_le_compat_r; lra. }
    assert (B <= 4503599627370496)%Q by (subst u; lra).
    lra. }
  split.
  - intros Hlt.
    assert (Hb : gtb T (quantity currentInventory) = true).
    { apply gtb_lt. rewrite Hq. subst T. by rewrite <- Zlt_Qlt. }
    unfold suggest. rewrite Hb. cbn [daysUntilStockout daysOfStock].
    fold T D A. rewrite Hcount.
    eexists. split; [reflexivity|]. unfold Math.floor.
    destruct (decide (stock = 0)) as [->|Hs0].
    + rewrite (rnd_0 X) by (subst X S'; unfold Qdiv; change (inject_Z 0) with 0%Q; ring).
      change (Qfloor 0) with 0. lia.
    + assert (HS1 : (0 < S')%Q).
      { subst S'. change 0%Q with (inject_Z 0). rewrite <- Zlt_Qlt. lia. }
      destruct (Hnear HS1) as [Hn1 Hn2].
      assert (HX0 : (0 <= X)%Q) by (subst X; apply Qle_shift_div_l; lra).
      split.
      * apply floor_ge. change (inject_Z 0) with 0%Q.
        eapply Qle_trans; [|exact Hn1].
        apply Qmult_le_0_compat; [exact HX0 | subst u; discriminate].
      * assert (double.rnd X < D)%Q as Hbefore.
        { apply (before_horizon T D B X (double.rnd X) S'); try assumption.
          - lra.
          - split; [exact HS|]. subst S' T. change 1%Q with (inject_Z 1).
            unfold Qminus. rewrite <- inject_Z_opp, <- inject_Z_plus, <- Zle_Qle. lia.
          - apply HBD. }
        pose proof (Qfloor_le (double.rnd X)) as Hf.
        assert (inject_Z (Qfloor (double.rnd X)) < D)%Q as Hfl by lra.
        subst D. by rewrite <- Zlt_Qlt in Hfl.
  - intros Hle.
    assert (Hb : gtb T (quantity currentInventory) = false).
    { apply not_true_iff_false. rewrite gtb_lt, Hq. subst T. rewrite <- Zlt_Qlt. lia. }
    unfold suggest. rewrite Hb. cbn [daysUntilStockout daysOfStock].
    fold T D A. rewrite Hcount.
    eexists. split; [reflexivity|]. unfold Math.floor.
    assert (HTS : (T <= S')%Q) by (subst T S'; by rewrite <- Zle_Qle).
    assert (HS1 : (0 < S')%Q) by lra.
    destruct (Hnear HS1) as [Hn1 Hn2].
    apply floor_ge.
    replace (inject_Z (Z.of_nat forecastDays - 1)) with (D - 1)%Q.
    2:{ subst D. unfold Z.sub. rewrite inject_Z_plus. reflexivity. }
    apply (within_a_day_of_horizon T D B X (double.rnd X) S'); try assumption.
    + lra.
    + apply HBD.
Qed.

Lemma day_counts_against_horizon_witness :
  (exists d, daysUntilStockout
               (suggest 20 (double.div 20 (inject_Z (Z.of_nat 30))) (item "SKU-1" 5 10))
             = Some d /\ 0 <= d < 30) /\
  (exists d, daysOfStock
               (suggest 9 (double.div 9 (inject_Z (Z.of_nat 7))) (item "SKU-2" 9 2))
             = Some d /\ 7 - 1 <= d) /\
  daysOfStock (suggest 9 (double.div 9 (inject_Z (Z.of_nat 7))) (item "SKU-2" 9 2))
    = Some 6.
Proof.
  split; [|split].
  - apply (day_counts_against_horizon 20 5 30 (item "SKU-1" 5 10)); (reflexivity || lia).
  - apply (day_counts_against_horizon 9 9 7 (item "SKU-2" 9 2)); (reflexivity || lia).
  - vm_compute. reflexivity.
Defined.

(** ** More on [POST /generate-all] *)

Lemma batch_loop_errors (w : World) (days : Q) (inventory : list InventoryItem) :
  snd (batch_loop w days inventory) = omap (failure w days) inventory.
Proof.
  unfold batch_loop.
  assert (H : forall forecasts errors,
             snd (foldl (fun '(forecasts, errors) item =>
                           match forecast_item w days item with
                           | inl f => (forecasts ++ [f], errors)
                           | inr e => (forecasts, errors ++ [e])
                           end) (forecasts, errors) inventory)
             = errors ++ omap (failure w days) inventory).
  { induction inventory as [|item items IH]; intros forecasts errors; simpl.
    - by rewrite app_nil_r.
    - change (omap (failure w days) (item :: items))
        with (match failure w days item with
              | Some y => y :: omap (failure w days) items
              | None => omap (failure w days) items
              end).
      unfold failure at 1.
      destruct (forecast_item w days item) as [f|e]; rewrite IH.
      + reflexivity.
      + by rewrite <- app_assoc. }
  apply (H [] []).
Qed.

Lemma success_or_failure (w : World) (days : Q) (inventory : list InventoryItem) :
  (length (omap (success w days) inventory) + length (omap (failure w days) inventory)
   = length inventory)%nat.
Proof.
  induction inventory as [|item items IH]; [reflexivity|].
  change (omap (success w days) (item :: items))
    with (match success w days item with
          | Some y => y :: omap (success w days) items
          | None => omap (success w days) items
          end).
  change (omap (failure w days) (item :: items))
    with (match failure w days item with
          | Some y => y :: omap (failure w days) items
          | None => omap (failure w days) items
          end).
  unfold success at 1, failure at 1.
  destruct (forecast_item w days item); simpl; lia.
Qed.

Lemma length_insert_by {A} (compareFn : A -> A -> Z) (x : A) (a : list A) :
  length (insert_by compareFn x a) = S (length a).
Proof.
  induction a as [|y ys IH]; [reflexivity|].
  simpl. destruct (compareFn x y <=? 0); simpl; [reflexivity|]. by rewrite IH.
Qed.

Lemma length_sort_by {A} (compareFn : A -> A -> Z) (a : list A) :
  length (sort_by compareFn a) = length a.
Proof.
  induction a as [|x xs IH]; [reflexivity|].
  simpl. by rewrite length_insert_by, IH.
Qed.

(** What a batch response was made of. *)
Lemma generate_all_inv (w : World) (days : option Q) (data : BatchData) :
  generate_all w days = JsonBatch data ->
  exists inventory,
    getInventory w = Ok inventory /\
    inventory <> [] /\
    totalSkus data = length inventory /\
    forecasts data = sort_by by_priority (omap (success w (default 30%Q days)) inventory) /\
    successfulForecasts data = length (forecasts data) /\
    errors data = length (omap (failure w (default 30%Q days)) inventory) /\
    errorDetails data =
      (if (0 <? errors data)%nat
       then Some (omap (failure w (default 30%Q days)) inventory) else None) /\
    highPriority data = length (filter (has_priority high) (forecasts data)) /\
    mediumPriority data = length (filter (has_priority medium) (forecasts data)) /\
    summary_reorderNeeded data
      = length (filter (fun f => reorderNeeded f = true) (forecasts data)).
Proof.
  unfold generate_all, generate_all_try.
  destruct (getInventory w) as [inventory|]; simpl; [|discriminate].
  destruct (length inventory =? 0)%nat eqn:Hlen; [discriminate|].
  pose proof (batch_loop_forecasts w (default 30%Q days) inventory) as Hfs.
  pose proof (batch_loop_errors w (default 30%Q days) inventory) as Hes.
  destruct (batch_loop w (default 30%Q days) inventory) as [fs es].
  simpl in Hfs, Hes. subst fs es. intros [= <-]. simpl.
  exists inventory. repeat split.
  intros ->. discriminate.
Qed.

(** A batch run accounts for every item of the inventory once, as a
    forecast or as an error, and lists the error details exactly when there
    is an error. *)
Theorem batch_accounts_for_every_item (w : World) (days : option Q) (data : BatchData) :
  generate_all w days = JsonBatch data ->
  exists inventory,
    getInventory w = Ok inventory /\
    totalSkus data = length inventory /\
    (successfulForecasts data + errors data = totalSkus data)%nat /\
    length (forecasts data) = successfulForecasts data /\
    match errorDetails data with
    | Some details => length details = errors data /\ (0 < errors data)%nat
    | None => errors data = 0%nat
    end.
Proof.
  intros H. apply generate_all_inv in H
    as (inventory & Hinv & _ & Ht & Hf & Hs & He & Hd & _).
  exists inventory. split; [exact Hinv|]. split; [exact Ht|]. split; [|split].
  - rewrite Hs, Hf, length_sort_by, He, Ht. apply success_or_failure.
  - by rewrite Hs.
  - rewrite Hd. destruct (0 <? errors data)%nat eqn:E.
    + apply Nat.ltb_lt in E. by rewrite He in *.
    + apply Nat.ltb_ge in E. lia.
Qed.

Lemma batch_accounts_for_every_item_witness :
  exists inventory,
    getInventory five_item_world = Ok inventory /\
    totalSkus five_item_batch = length inventory /\
    (successfulForecasts five_item_batch + errors five_item_batch
     = totalSkus five_item_batch)%nat /\
    length (forecasts five_item_batch) = successfulForecasts five_item_batch /\
    match errorDetails five_item_batch with
    | Some details => length details = errors five_item_batch /\
                      (0 < errors five_item_batch)%nat
    | None => errors five_item_batch = 0%nat
    end.
Proof.
  apply (batch_accounts_for_every_item five_item_world (Some 2%Q) five_item_batch).
  vm_compute. reflexivity.
Defined.

Lemma insert_by_Permutation {A} (compareFn : A -> A -> Z) (x : A) (a : list A) :
  insert_by compareFn x a ≡ₚ x :: a.
Proof.
  induction a as [|y ys IH]; [reflexivity|].
  simpl. destruct (compareFn x y <=? 0); [reflexivity|].
  rewrite IH. apply Permutation_swap.
Qed.

Lemma sort_by_Permutation {A} (compareFn : A -> A -> Z) (a : list A) :
  sort_by compareFn a ≡ₚ a.
Proof.
  induction a as [|x xs IH]; [reflexivity|].
  simpl. by rewrite insert_by_Permutation, IH.
Qed.

Lemma forecast_item_cases (w : World) (days : Q) (item : InventoryItem) :
  match getSalesData w (item_sku item) None None with
  | Ok [] =>
    forecast_item w days item
    = inr {| be_sku := item_sku item; be_error := "No sales data found" |}
  | Ok (_ :: _) =>
    if is_array_length days then
      exists f, forecast_item w days item = inl f /\
                bf_sku f = item_sku item /\ bf_currentStock f = quantity item
    else
      forecast_item w days item
      = inr {| be_sku := item_sku item; be_error := "Invalid array length" |}
  | Throw e =>
    forecast_item w days item = inr {| be_sku := item_sku item; be_error := message e |}
  end.
Proof.
  unfold forecast_item.
  destruct (getSalesData w (item_sku item) None None) as [[|r rs]|e]; simpl;
    [reflexivity | | reflexivity].
  unfold combinedForecast_number. destruct (is_array_length days); [|reflexivity].
  destruct (combinedForecast_returns (prepareSalesData (timeZone w) (r :: rs))
              (Z.to_nat (Qfloor days))) as [f ->];
    [by apply prepareSalesData_nonempty|].
  simpl. eexists. repeat split.
Qed.

(** A batch run over an inventory that can be read and is not empty is
    answered with its results, whatever the items do. *)
Lemma batch_answers (w : World) (days : option Q) (inventory : list InventoryItem) :
  getInventory w = Ok inventory -> inventory <> [] ->
  exists data, generate_all w days = JsonBatch data.
Proof.
  intros Hinv Hne. unfold generate_all, generate_all_try. rewrite Hinv. simpl.
  destruct inventory as [|item items]; [done|]. simpl length. cbn [Nat.eqb].
  destruct (batch_loop w (default 30%Q days) (item :: items)) as [fs es].
  eexists. reflexivity.
Qed.

(** No item stops the batch: where the inventory can be read and is not
    empty, the run is answered with its results.  An item without sales is
    reported among the error details with the message of the route, and an
    item whose sales cannot be read with the message of the exception.  An
    item with sales on record has its forecast among the results when the
    [days] of the body is a number that can be an array length; when it is
    not (a negative number, or one with a fraction) the item is reported
    among the error details with the message of the [RangeError]. *)
Theorem batch_isolates_failures (w : World) (days : option Q)
    (inventory : list InventoryItem) :
  getInventory w = Ok inventory ->
  inventory <> [] ->
  exists data,
    generate_all w days = JsonBatch data /\
    forall item, item ∈ inventory ->
      match getSalesData w (item_sku item) None None with
      | Ok [] =>
        exists details,
          errorDetails data = Some details /\
          {| be_sku := item_sku item; be_error := "No sales data found" |} ∈ details
      | Ok (_ :: _) =>
        if is_array_length (default 30%Q days) then
          exists f, f ∈ forecasts data /\
                    bf_sku f = item_sku item /\ bf_currentStock f = quantity item
        else
          exists details,
            errorDetails data = Some details /\
            {| be_sku := item_sku item; be_error := "Invalid array length" |} ∈ details
      | Throw e =>
        exists details,
          errorDetails data = Some details /\
          {| be_sku := item_sku item; be_error := message e |} ∈ details
      end.
Proof.
  intros Hinv Hne.
  destruct (batch_answers w days inventory Hinv Hne) as [data H].
  exists data. split; [exact H|]. intros item Hitem.
  apply generate_all_inv in H
    as (inventory' & Hinv' & _ & _ & Hf & _ & He & Hd & _).
  assert (inventory' = inventory) as -> by congruence.
  assert (Hfail : forall entry, forecast_item w (default 30%Q days) item = inr entry ->
            exists details, errorDetails data = Some details /\ entry ∈ details).
  { intros entry Hentry.
    assert (Hin : entry ∈ omap (failure w (default 30%Q days)) inventory).
    { apply list_elem_of_omap. exists item. split; [exact Hitem|].
      unfold failure. by rewrite Hentry. }
    rewrite Hd, He.
    destruct (omap (failure w (default 30%Q days)) inventory) as [|d ds] eqn:Hds;
      [by apply elem_of_nil in Hin|].
    simpl. eexists. split; [reflexivity | exact Hin]. }
  pose proof (forecast_item_cases w (default 30%Q days) item) as Hcases.
  destruct (getSalesData w (item_sku item) None None) as [[|r rs]|e].
  - by apply Hfail.
  - destruct (is_array_length (default 30%Q days)); [|by apply Hfail].
    destruct Hcases as (f & Hfi & Hsku & Hstock). exists f. split; [|by split].
    rewrite Hf, sort_by_Permutation. apply list_elem_of_omap.
    exists item. split; [exact Hitem|]. unfold success. by rewrite Hfi.
  - by apply Hfail.
Qed.

(** Over the inventory of five items: with [days] = 2 the item "C" has its
    forecast and "E", without sales, is reported; with [days] = -1 the run
    is still answered and "C" is reported with the [RangeError]. *)
Lemma batch_isolates_failures_witness :
  (exists data,
     generate_all five_item_world (Some 2%Q) = JsonBatch data /\
     (exists details,
        errorDetails data = Some details /\
        {| be_sku := "E"; be_error := "No sales data found" |} ∈ details) /\
     (exists f, f ∈ forecasts data /\ bf_sku f = "C" /\ bf_currentStock f = inject_Z 8)) /\
  (exists data,
     generate_all five_item_world (Some (-1)%Q) = JsonBatch data /\
     (exists details,
        errorDetails data = Some details /\
        {| be_sku := "C"; be_error := "Invalid array length" |} ∈ details)).
Proof.
  split.
  - destruct (batch_isolates_failures five_item_world (Some 2%Q)
                [item "A" 100 10; item "B" 5 10; item "E" 1 1; item "C" 8 2; item "D" 0 0]
                eq_refl ltac:(discriminate)) as (data & H & Hitems).
    exists data. split; [exact H|]. split.
    + apply (Hitems (item "E" 1 1)). do 2 right. left.
    + apply (Hitems (item "C" 8 2)). do 3 right. left.
  - destruct (batch_isolates_failures five_item_world (Some (-1)%Q)
                [item "A" 100 10; item "B" 5 10; item "E" 1 1; item "C" 8 2; item "D" 0 0]
                eq_refl ltac:(discriminate)) as (data & H & Hitems).
    exists data. split; [exact H|].
    apply (Hitems (item "C" 8 2)). do 3 right. left.
Defined.

Lemma success_reorderNeeded (w : World) (days : Q) (item : InventoryItem)
    (f : BatchForecast) :
  success w days item = Some f ->
  reorderNeeded f = gtb (bf_predictedDemand f) (bf_currentStock f).
Proof.
  unfold success, forecast_item.
  destruct (getSalesData w (item_sku item) None None) as [salesData|]; simpl; [|done].
  destruct (length salesData =? 0)%nat; [done|].
  destruct (combinedForecast_number _ _) as [predicted|]; simpl; [|done].
  by intros [= <-].
Qed.

Lemma priority_counts (l : list BatchForecast) :
  Forall (fun f =>
            (bf_priority f = medium -> reorderNeeded f = true) /\
            (bf_priority f = low -> reorderNeeded f = false)) l ->
  (length (filter (has_priority high) l) + length (filter (has_priority medium) l)
   <= length l)%nat /\
  (length (filter (has_priority medium) l)
   <= length (filter (fun f => reorderNeeded f = true) l))%nat /\
  (length (filter (fun f => reorderNeeded f = true) l)
   <= length (filter (has_priority high) l) + length (filter (has_priority medium) l))%nat.
Proof.
  induction 1 as [|f l [Hm Hl] _ IH]; [simpl; lia|].
  rewrite !filter_cons.
  destruct (bf_priority f) eqn:Hp; decide_priority Hp.
  - destruct (decide (reorderNeeded f = true)); simpl; lia.
  - rewrite decide_True by auto. simpl. lia.
  - rewrite decide_False by (rewrite Hl; [discriminate | reflexivity]). simpl. lia.
Qed.

(** The counts of the batch summary agree with the entries: every medium
    item needs a reorder and no low item does, so the reorder count lies
    between the medium count and the sum of the high and medium counts, and
    these two counts do not exceed the number of forecasts. *)
Theorem batch_summary_counts (w : World) (days : option Q) (data : BatchData) :
  generate_all w days = JsonBatch data ->
  (highPriority data + mediumPriority data <= successfulForecasts data)%nat /\
  (mediumPriority data <= summary_reorderNeeded data)%nat /\
  (summary_reorderNeeded data <= highPriority data + mediumPriority data)%nat.
Proof.
  intros H. apply generate_all_inv in H
    as (inventory & _ & _ & _ & Hf & Hs & _ & _ & Hh & Hm & Hr).
  rewrite Hh, Hm, Hr, Hs. apply priority_counts.
  apply Forall_forall. intros f Hin.
  rewrite Hf, sort_by_Permutation in Hin.
  apply list_elem_of_omap in Hin as (it & _ & Hsucc).
  pose proof (success_priority _ _ _ _ Hsucc) as (_ & _ & _ & Hp).
  pose proof (success_reorderNeeded _ _ _ _ Hsucc) as Hn.
  rewrite Hp, Hn.
  destruct (Qle_bool _ _); [split; discriminate|].
  destruct (gtb _ _); split; (reflexivity || discriminate).
Qed.

Lemma batch_summary_counts_witness :
  (highPriority five_item_batch + mediumPriority five_item_batch
   <= successfulForecasts five_item_batch)%nat /\
  (mediumPriority five_item_batch <= summary_reorderNeeded five_item_batch)%nat /\
  (summary_reorderNeeded five_item_batch
   <= highPriority five_item_batch + mediumPriority five_item_batch)%nat.
Proof.
  apply (batch_summary_counts five_item_world (Some 2%Q)).
  vm_compute. reflexivity.
Defined.

(** A batch run over an empty inventory is answered 404, and one whose
    inventory cannot be read 500; neither makes a forecast. *)
Lemma batch_without_inventory (w : World) (days : option Q) :
  (getInventory w = Ok [] ->
     generate_all w days = Status404 "No Data" "No inventory items found") /\
  (forall e, getInventory w = Throw e ->
     generate_all w days
     = Status500 "Internal Server Error" "Failed to generate batch forecasts").
Proof.
  unfold generate_all, generate_all_try. split.
  - intros ->. reflexivity.
  - intros e ->. reflexivity.
Qed.

(** ** [GET /dashboard/summary] *)

Lemma bind_Ok {A B} (a : A) (k : A -> result B) : (Ok a ≫= k) = k a.
Proof. reflexivity. Qed.

Lemma summary_item_eq (w : World) (days : IntOrNaN)
    (quickForecasts : list QuickForecast) (lowStockItems : list InventoryItem)
    (item : InventoryItem) :
  summary_item w days (quickForecasts, lowStockItems) item =
  (quickForecasts ++ option_list (quick_of w days item),
   lowStockItems ++ (if completes w days item && low_stock item then [item] else [])).
Proof.
  unfold summary_item, quick_of, completes, low_stock.
  destruct (getSalesData w (item_sku item) None None) as [salesData|];
    [|simpl; by rewrite !app_nil_r].
  rewrite bind_Ok.
  destruct (Qle_bool (quantity item) (reorder_level item));
    (destruct (length salesData) as [|[|n]];
     [| |destruct (combinedForecast_parsed _ _) as [forecast|]]);
    simpl; by rewrite ?app_nil_r.
Qed.

Lemma summary_loop (w : World) (days : IntOrNaN) (items : list InventoryItem)
    (quickForecasts : list QuickForecast) (lowStockItems : list InventoryItem) :
  foldl (summary_item w days) (quickForecasts, lowStockItems) items =
  (quickForecasts ++ omap (quick_of w days) items,
   lowStockItems ++ filter (reported_low w days) items).
Proof.
  revert quickForecasts lowStockItems.
  induction items as [|item items IH]; intros quickForecasts lowStockItems.
  - simpl. by rewrite !app_nil_r.
  - change (foldl (summary_item w days) (quickForecasts, lowStockItems) (item :: items))
      with (foldl (summary_item w days)
                  (summary_item w days (quickForecasts, lowStockItems) item) items).
    rewrite summary_item_eq, IH, filter_cons.
    change (omap (quick_of w days) (item :: items))
      with (match quick_of w days item with
            | Some y => y :: omap (quick_of w days) items
            | None => omap (quick_of w days) items
            end).
    destruct (completes w days item && low_stock item) eqn:E;
      [rewrite decide_True by exact E
      |rewrite decide_False by (unfold reported_low; rewrite E; discriminate)];
      destruct (quick_of w days item); simpl;
      by rewrite <- ?app_assoc, ?app_nil_r.
Qed.

Lemma floor_times_3 (n : nat) : Math.floor (inject_Z (Z.of_nat n) * 3) = Z.of_nat n * 3.
Proof.
  unfold Math.floor. rewrite <- (Qfloor_Z (Z.of_nat n * 3)).
  apply Qfloor_comp. rewrite inject_Z_mult. reflexivity.
Qed.

(** What a dashboard response was made of. *)
Lemma dashboard_summary_inv (w : World) (random : Q) (days : option IntOrNaN)
    (data : SummaryData) :
  dashboard_summary w random days = SummaryJson data ->
  exists inventory,
    getInventory w = Ok inventory /\
    ((inventory = [] /\
      data = {| quickForecasts := []; lowStockCount := 0; lowStockItems := [];
                trendingSKUs := []; accuracy := 85; demandTrend := 5;
                accuracyTrend := 2 |}) \/
     (inventory <> [] /\
      let quick := omap (quick_of w (default (Int 7) days)) (take 5 inventory) in
      quickForecasts data = sort_by by_predictedDemand quick /\
      lowStockItems data = filter (reported_low w (default (Int 7) days)) (take 5 inventory) /\
      lowStockCount data = length (lowStockItems data) /\
      trendingSKUs data = take 3 (quickForecasts data) /\
      accuracy data
        = Z.max 0 (Z.min 100 (Z.min 95 (Z.max 70 (75 + Z.of_nat (length quick) * 3)))) /\
      demandTrend data
        = Z.max (-20) (Z.min 30
            (if (0 <? length quick)%nat then
               Math.round
                 (double.mul
                    (double.div
                       (foldl (fun sum f =>
                                 sum + (inject_Z (qf_predictedDemand f) - qf_totalSales f))%Q
                              0%Q quick)
                       (inject_Z (Z.of_nat (length quick))))
                    (1 # 10))
             else 0)) /\
      accuracyTrend data
        = Z.max (-5) (Z.min 8 (Math.floor (double.sub (double.mul random 6) 1))))).
Proof.
  unfold dashboard_summary, dashboard_summary_try.
  destruct (getInventory w) as [inventory|]; [rewrite bind_Ok | discriminate].
  destruct (length inventory =? 0)%nat eqn:Hlen.
  - intros [= <-]. exists inventory. split; [reflexivity|]. left.
    split; [|reflexivity]. destruct inventory; [reflexivity|discriminate].
  - rewrite (summary_loop w (default (Int 7) days) (take 5 inventory) [] []).
    cbv beta iota zeta. rewrite !app_nil_l, floor_times_3.
    intros [= <-]. exists inventory. split; [reflexivity|]. right.
    split; [intros ->; discriminate|].
    unfold Math.maxZ, Math.minZ.
    cbn [quickForecasts lowStockItems lowStockCount trendingSKUs accuracy demandTrend
         accuracyTrend].
    repeat split.
Qed.

Lemma length_omap_le {A B} (f : A -> option B) (l : list A) :
  (length (omap f l) <= length l)%nat.
Proof.
  induction l as [|x xs IH]; [reflexivity|].
  change (omap f (x :: xs)) with (match f x with
                                  | Some y => y :: omap f xs
                                  | None => omap f xs
                                  end).
  destruct (f x); simpl; lia.
Qed.

(** The dashboard over an inventory that can be read is answered with its
    figures, whatever the items and the horizon do. *)
Lemma dashboard_answers (w : World) (random : Q) (days : option IntOrNaN)
    (inventory : list InventoryItem) :
  getInventory w = Ok inventory ->
  exists data, dashboard_summary w random days = SummaryJson data.
Proof.
  intros Hinv. unfold dashboard_summary, dashboard_summary_try. rewrite Hinv, bind_Ok.
  destruct (length inventory =? 0)%nat; [eexists; reflexivity|].
  rewrite (summary_loop w (default (Int 7) days) (take 5 inventory) [] []).
  eexists. reflexivity.
Qed.

(** The accuracy figure of the dashboard tells whether there is an
    inventory: it is 85 exactly when the inventory is empty, and otherwise
    75 plus 3 for each quick forecast, of which there are at most five, one
    for each of the first five items that has two sales records or more and
    whose forecast is made.  So it is one of 75, 78, 81, 84, 87 and 90, and
    none of the limits 70, 95, 0 and 100 that the route puts on it is ever
    reached. *)
Theorem dashboard_accuracy (w : World) (random : Q) (days : option IntOrNaN)
    (inventory : list InventoryItem) :
  getInventory w = Ok inventory ->
  exists data,
    dashboard_summary w random days = SummaryJson data /\
    (accuracy data = 85 <-> inventory = []) /\
    (inventory <> [] ->
       quickForecasts data
         ≡ₚ omap (quick_of w (default (Int 7) days)) (take 5 inventory) /\
       (length (quickForecasts data) <= 5)%nat /\
       accuracy data = 75 + 3 * Z.of_nat (length (quickForecasts data))).
Proof.
  intros Hinv.
  destruct (dashboard_answers w random days inventory Hinv) as [data H].
  exists data. split; [exact H|].
  apply dashboard_summary_inv in H as (inventory' & Hinv' & Hdata).
  assert (inventory' = inventory) as -> by congruence.
  destruct Hdata as [[-> ->] | (Hne & Hdata)].
  - simpl. split; [done|]. intros Hne. done.
  - cbv zeta in Hdata. destruct Hdata as (Hq & _ & _ & _ & Ha & _).
    set (quick := omap _ _) in *.
    assert (Hquick : (length quick <= 5)%nat).
    { etransitivity; [apply length_omap_le|]. rewrite length_take. lia. }
    assert (Hlenq : length (quickForecasts data) = length quick)
      by (by rewrite Hq, length_sort_by).
    split; [|intros _; split; [|split]].
    + rewrite Ha. split; [lia | done].
    + rewrite Hq. apply sort_by_Permutation.
    + lia.
    + rewrite Ha, Hlenq. lia.
Qed.

Lemma dashboard_accuracy_witness :
  exists data,
    dashboard_summary dashboard_world (1 # 2) (Some (Int 3)) = SummaryJson data /\
    map qf_sku (quickForecasts data) = ["A"; "C"; "B"] /\
    accuracy data = 84.
Proof.
  destruct (dashboard_accuracy dashboard_world (1 # 2) (Some (Int 3))
              [item "A" 100 10; item "B" 5 10; item "C" 8 2; item "D" 0 0; item "E" 1 1;
               item "F" 0 3] eq_refl) as (data & H & _ & Hfigures).
  exists data. split; [exact H|].
  destruct (Hfigures ltac:(discriminate)) as (_ & _ & Ha).
  assert (Hd : data = dashboard_data).
  { assert (H' : dashboard_summary dashboard_world (1 # 2) (Some (Int 3))
                 = SummaryJson dashboard_data) by (vm_compute; reflexivity).
    congruence. }
  rewrite Ha, Hd. split; reflexivity.
Defined.

Lemma insert_by_key_sorted {A} (key : A -> Z) (x : A) (a : list A) :
  StronglySorted (fun u v => key v <= key u) a ->
  StronglySorted (fun u v => key v <= key u) (insert_by (fun u v => key v - key u) x a).
Proof.
  induction 1 as [|y ys Hys IH Hall]; simpl.
  - repeat constructor.
  - destruct (key y - key x <=? 0) eqn:E.
    + apply Z.leb_le in E. constructor; [by constructor|].
      constructor; [lia|]. eapply Forall_impl; [exact Hall|]. simpl. intros; lia.
    + apply Z.leb_gt in E. constructor; [exact IH|].
      rewrite (insert_by_Permutation _ x ys). constructor; [lia | exact Hall].
Qed.

Lemma sort_by_key_sorted {A} (key : A -> Z) (a : list A) :
  StronglySorted (fun u v => key v <= key u) (sort_by (fun u v => key v - key u) a).
Proof.
  induction a as [|x xs IH]; [constructor|].
  simpl. by apply insert_by_key_sorted.
Qed.

(** The quick forecasts of the dashboard are listed by decreasing predicted
    demand, and the trending SKUs are the first three of that list: no other
    quick forecast has a greater predicted demand than a trending one. *)
Theorem dashboard_trending_are_top_three (w : World) (random : Q) (days : option IntOrNaN)
    (data : SummaryData) :
  dashboard_summary w random days = SummaryJson data ->
  StronglySorted (fun u v => qf_predictedDemand v <= qf_predictedDemand u)
                 (quickForecasts data) /\
  trendingSKUs data = take 3 (quickForecasts data) /\
  forall t q, t ∈ trendingSKUs data -> q ∈ drop 3 (quickForecasts data) ->
    qf_predictedDemand q <= qf_predictedDemand t.
Proof.
  intros H.
  apply dashboard_summary_inv in H as (inventory & _ & [[_ ->] | (_ & H)]).
  - simpl. split; [constructor|]. split; [reflexivity|].
    intros t q Ht. by apply elem_of_nil in Ht.
  - cbv zeta in H. destruct H as (Hq & _ & _ & Ht & _).
    assert (Hsorted : StronglySorted
                        (fun u v => qf_predictedDemand v <= qf_predictedDemand u)
                        (quickForecasts data)).
    { rewrite Hq. apply (sort_by_key_sorted qf_predictedDemand). }
    split; [exact Hsorted|]. split; [exact Ht|].
    intros t q Hin Hq'. rewrite Ht in Hin.
    rewrite <- (take_drop 3 (quickForecasts data)) in Hsorted.
    by apply (StronglySorted_app_1_elem_of _ _ _ _ _ Hsorted Hin Hq').
Qed.

Lemma dashboard_trending_are_top_three_witness :
  StronglySorted (fun u v => qf_predictedDemand v <= qf_predictedDemand u)
                 (quickForecasts dashboard_data) /\
  trendingSKUs dashboard_data = take 3 (quickForecasts dashboard_data) /\
  forall t q, t ∈ trendingSKUs dashboard_data -> q ∈ drop 3 (quickForecasts dashboard_data) ->
    qf_predictedDemand q <= qf_predictedDemand t.
Proof.
  apply (dashboard_trending_are_top_three dashboard_world (1 # 2) (Some (Int 3))).
  vm_compute. reflexivity.
Defined.

Lemma combinedForecast_parsed_returns (timeSeries : list Q) (n : Z) :
  0 <= n -> timeSeries <> [] ->
  exists forecast, combinedForecast_parsed timeSeries (Int n) = Ok forecast.
Proof.
  intros Hn Hne. unfold combinedForecast_parsed.
  replace (n <? 0) with false by (symmetry; apply Z.ltb_ge; lia).
  by apply combinedForecast_returns.
Qed.

Lemma completes_when_readable (w : World) (n : Z) (item : InventoryItem)
    (salesData : list SalesRecord) :
  0 <= n ->
  getSalesData w (item_sku item) None None = Ok salesData ->
  completes w (Int n) item = true.
Proof.
  intros Hn Hsales. unfold completes. rewrite Hsales.
  destruct (2 <=? length salesData)%nat eqn:E; [|reflexivity].
  apply Nat.leb_le in E.
  destruct (combinedForecast_parsed_returns (prepareSalesData (timeZone w) salesData) n Hn)
    as [forecast ->]; [|reflexivity].
  apply prepareSalesData_nonempty. intros ->. simpl in E. lia.
Qed.

Lemma filter_ext_elem {A} (P1 P2 : A -> Prop)
    `{!forall x, Decision (P1 x), !forall x, Decision (P2 x)} (l : list A) :
  (forall x, x ∈ l -> P1 x <-> P2 x) -> filter P1 l = filter P2 l.
Proof.
  induction l as [|x xs IH]; intros Hiff; [reflexivity|].
  rewrite !filter_cons, IH by (intros y Hy; apply Hiff; by right).
  pose proof (Hiff x (list_elem_of_here _ _)) as Hx.
  destruct (decide (P1 x)) as [H1|H1], (decide (P2 x)) as [H2|H2];
    try reflexivity; tauto.
Qed.

(** The low-stock list of the dashboard holds items of the first five of the
    inventory whose quantity is at most their reorder level.  When the
    horizon parses to a non-negative number and the sales of each of the
    five can be read, it holds all of them, in inventory order. *)
Theorem dashboard_low_stock_items (w : World) (random : Q) (days : option IntOrNaN)
    (data : SummaryData) (inventory : list InventoryItem) :
  dashboard_summary w random days = SummaryJson data ->
  getInventory w = Ok inventory ->
  lowStockCount data = length (lowStockItems data) /\
  (forall item, item ∈ lowStockItems data ->
     item ∈ take 5 inventory /\ (quantity item <= reorder_level item)%Q) /\
  (forall n : Z,
     default (Int 7) days = Int n -> 0 <= n ->
     (forall item, item ∈ take 5 inventory ->
        exists salesData, getSalesData w (item_sku item) None None = Ok salesData) ->
     lowStockItems data = filter is_low (take 5 inventory)).
Proof.
  intros H Hinv.
  apply dashboard_summary_inv in H as (inventory' & Hinv' & [[-> ->] | (_ & H)]).
  - assert (inventory = []) as -> by congruence. simpl.
    split; [reflexivity|]. split; [|reflexivity].
    intros item Hitem. by apply elem_of_nil in Hitem.
  - assert (inventory' = inventory) as -> by congruence.
    cbv zeta in H. destruct H as (_ & Hl & Hc & _).
    split; [exact Hc|]. split.
    + intros item Hitem. rewrite Hl in Hitem.
      apply list_elem_of_filter in Hitem as [Hrep Hin]. split; [exact Hin|].
      unfold reported_low in Hrep. apply andb_true_iff in Hrep as [_ Hlow].
      by apply Qle_bool_iff.
    + intros n Hdays Hn Hread. rewrite Hl, Hdays.
      apply filter_ext_elem. intros item Hitem.
      destruct (Hread item Hitem) as [salesData Hsales].
      unfold reported_low, is_low.
      rewrite (completes_when_readable w n item salesData Hn Hsales). reflexivity.
Qed.

Lemma dashboard_low_stock_items_witness :
  lowStockCount dashboard_data = length (lowStockItems dashboard_data) /\
  (forall low, low ∈ lowStockItems dashboard_data ->
     low ∈ take 5 [item "A" 100 10; item "B" 5 10; item "C" 8 2; item "D" 0 0;
                   item "E" 1 1; item "F" 0 3] /\
     (quantity low <= reorder_level low)%Q).
Proof.
  destruct (dashboard_low_stock_items dashboard_world (1 # 2) (Some (Int 3)) dashboard_data
              [item "A" 100 10; item "B" 5 10; item "C" 8 2; item "D" 0 0;
               item "E" 1 1; item "F" 0 3]) as (Hc & Hin & _).
  - vm_compute. reflexivity.
  - reflexivity.
  - split; [exact Hc | exact Hin].
Defined.

Lemma omap_all_None {A B} (f : A -> option B) (l : list A) :
  (forall x, f x = None) -> omap f l = [].
Proof.
  intros Hf. induction l as [|x xs IH]; [reflexivity|].
  change (omap f (x :: xs)) with (match f x with
                                  | Some y => y :: omap f xs
                                  | None => omap f xs
                                  end).
  by rewrite Hf.
Qed.

(** A horizon that does not parse, or a negative one, does not fail the
    dashboard: where the inventory can be read and is not empty it is still
    answered, but with no quick forecast, an accuracy of 75 and no demand
    trend, and every item with two or more sales records is skipped, its low
    stock not reported. *)
Theorem dashboard_with_unusable_horizon (w : World) (random : Q) (days : option IntOrNaN)
    (inventory : list InventoryItem) :
  getInventory w = Ok inventory ->
  inventory <> [] ->
  (default (Int 7) days = NaN \/ exists n, default (Int 7) days = Int n /\ n < 0) ->
  exists data,
    dashboard_summary w random days = SummaryJson data /\
    quickForecasts data = [] /\
    trendingSKUs data = [] /\
    accuracy data = 75 /\
    demandTrend data = 0 /\
    forall item, item ∈ lowStockItems data ->
      exists salesData,
        getSalesData w (item_sku item) None None = Ok salesData /\
        (length salesData < 2)%nat.
Proof.
  intros Hinv Hne Hdays.
  destruct (dashboard_answers w random days inventory Hinv) as [data H].
  exists data. split; [exact H|].
  apply dashboard_summary_inv in H as (inventory' & Hinv' & [[-> _] | (_ & H)]).
  { congruence. }
  assert (inventory' = inventory) as -> by congruence.
  cbv zeta in H. destruct H as (Hq & Hl & _ & Ht & Ha & Hd & _).
  assert (Hthrow : forall timeSeries,
            exists e, combinedForecast_parsed timeSeries (default (Int 7) days) = Throw e).
  { intros ts. destruct Hdays as [-> | (n & -> & Hn)]; simpl; [by eexists|].
    replace (n <? 0) with true by (symmetry; apply Z.ltb_lt; lia). by eexists. }
  assert (Hnone : forall item, quick_of w (default (Int 7) days) item = None).
  { intros item. unfold quick_of.
    destruct (getSalesData w (item_sku item) None None) as [salesData|]; [|reflexivity].
    destruct (2 <=? length salesData)%nat; [|reflexivity].
    by destruct (Hthrow (prepareSalesData (timeZone w) salesData)) as [e ->]. }
  assert (Hquick : omap (quick_of w (default (Int 7) days)) (take 5 inventory) = []).
  { by apply omap_all_None. }
  rewrite Hquick in *. simpl in Hq, Ha, Hd.
  split; [exact Hq|]. split; [by rewrite Ht, Hq|]. split; [exact Ha|].
  split; [exact Hd|].
  intros item Hitem. rewrite Hl in Hitem.
  apply list_elem_of_filter in Hitem as [Hrep _].
  unfold reported_low in Hrep. apply andb_true_iff in Hrep as [Hcomp _].
  unfold completes in Hcomp.
  destruct (getSalesData w (item_sku item) None None) as [salesData|]; [|discriminate].
  exists salesData. split; [reflexivity|].
  destruct (2 <=? length salesData)%nat eqn:E; [|by apply Nat.leb_gt in E].
  destruct (Hthrow (prepareSalesData (timeZone w) salesData)) as [e He]. rewrite He in Hcomp.
  discriminate.
Qed.

Lemma dashboard_with_unusable_horizon_witness :
  exists data,
    dashboard_summary dashboard_world (1 # 2) (Some NaN) = SummaryJson data /\
    quickForecasts data = [] /\ accuracy data = 75 /\
    lowStockItems data = [item "D" 0 0].
Proof.
  destruct (dashboard_with_unusable_horizon dashboard_world (1 # 2) (Some NaN)
              [item "A" 100 10; item "B" 5 10; item "C" 8 2; item "D" 0 0;
               item "E" 1 1; item "F" 0 3])
    as (data & H & Hq & _ & Ha & _); [reflexivity | discriminate | by left |].
  exists data. split; [exact H|]. split; [exact Hq|]. split; [exact Ha|].
  assert (H' : dashboard_summary dashboard_world (1 # 2) (Some NaN)
               = SummaryJson
                   {| quickForecasts := []; lowStockCount := 1;
                      lowStockItems := [item "D" 0 0]; trendingSKUs := [];
                      accuracy := 75; demandTrend := 0; accuracyTrend := 2 |})
    by (vm_compute; reflexivity).
  rewrite H in H'. by injection H' as ->.
Defined.

(** ** [GET /:sku] *)

(** The saved forecasts of a sku are answered with their full count and a
    leading part of the list: its first [limit] entries for a limit of 0 or
    more, all but the last [-limit] for a negative limit, and none for a
    limit that does not parse. *)
Theorem saved_forecasts_are_a_prefix {A} (getForecast : string -> result (list A))
    (sku : string) (limit : option IntOrNaN) (forecasts : list A) :
  sku <> "" ->
  getForecast sku = Ok forecasts ->
  exists data,
    saved_forecasts getForecast sku limit = SavedJson data (length forecasts) /\
    data `prefix_of` forecasts /\
    length data =
      match default (Int 30) limit with
      | Int n => if n <? 0 then (length forecasts - Z.to_nat (- n))%nat
                 else Nat.min (Z.to_nat n) (length forecasts)
      | NaN => 0%nat
      end.
Proof.
  intros Hsku Hget. unfold saved_forecasts. rewrite decide_False by assumption.
  rewrite Hget. eexists. split; [reflexivity|]. unfold slice_0. split.
  - apply prefix_take.
  - rewrite length_take. destruct (default (Int 30) limit) as [n|]; [|reflexivity].
    destruct (n <? 0) eqn:E; [apply Z.ltb_lt in E | apply Z.ltb_ge in E]; lia.
Qed.

Lemma saved_forecasts_are_a_prefix_witness :
  exists data,
    saved_forecasts (fun _ => Ok [1; 2; 3; 4]) "SKU-1" (Some (Int (-1)))
      = SavedJson data 4 /\
    data `prefix_of` [1; 2; 3; 4] /\ length data = 3%nat.
Proof.
  apply (saved_forecasts_are_a_prefix (fun _ => Ok [1; 2; 3; 4]) "SKU-1" (Some (Int (-1)))
           [1; 2; 3; 4]); [discriminate | reflexivity].
Defined.

(** ** The history of a response *)

Lemma foldl_units_sum (salesData : list SalesRecord) :
  foldl (fun sum record => sum + units_sold record)%Q 0%Q salesData
  = ss.sum (map units_sold salesData).
Proof.
  unfold ss.sum. generalize 0%Q.
  induction salesData as [|r rs IH]; intros a; [reflexivity|]. simpl. apply IH.
Qed.

Lemma round2_comp (x y : Q) : (x == y)%Q -> round2 x = round2 y.
Proof.
  intros H. unfold round2, double.mul. by rewrite (rnd_comp x y H).
Qed.

(** The historical figures of a response count the records read, add up
    their quantities, and average that total over the calendar days from
    the first to the last observed day, not over the records nor over the
    days that have one, where the zone of the process has the local midnight
    of each of those days.  The average is rounded to two decimals in
    binary64: 23 units over 40 days, 0.575 a day, are reported as 0.57. *)
Theorem historical_average_is_per_calendar_day (w : World) (req : Request)
    (data : ForecastData) (salesData : list SalesRecord) :
  generate w req = Json data ->
  getSalesData w (sku req) (startDate req) (endDate req) = Ok salesData ->
  midnights_exist (timeZone w) (d_min salesData) (d_max salesData) ->
  totalRecords data = length salesData /\
  totalHistoricalSales data = ss.sum (map units_sold salesData) /\
  historical_averageDailyDemand data =
    round2 (ss.sum (map units_sold salesData)
            / inject_Z (d_max salesData - d_min salesData + 1)).
Proof.
  unfold generate, generate_try. case_decide as Hsku; [discriminate|].
  intros H Hsales Hmid. rewrite Hsales in H. rewrite bind_Ok in H.
  destruct (length salesData =? 0)%nat eqn:Hlen; [discriminate|].
  assert (Hne : salesData <> []) by (intros ->; discriminate).
  destruct (clamp_days _) as [n|]; [|discriminate].
  unfold with_days in H.
  destruct (dispatch _ _ _) as [[predicted fm]|]; [rewrite bind_Ok in H | discriminate].
  pose proof (prepareSalesData_nonempty (timeZone w) salesData Hne) as Hts.
  pose proof (prepareSalesData_eq (timeZone w) salesData Hne Hmid) as Heq.
  replace (0 <? length (prepareSalesData (timeZone w) salesData))%nat with true in H
    by (symmetry; apply Nat.ltb_lt;
        destruct (prepareSalesData (timeZone w) salesData); [done|simpl; lia]).
  rewrite (mean_average _ Hts), bind_Ok in H.
  match type of H with
  | match mbind _ ?c with _ => _ end = _ => destruct c as [peak|]; [|discriminate]
  end.
  rewrite bind_Ok in H. injection H as <-.
  cbn [totalRecords totalHistoricalSales historical_averageDailyDemand].
  split; [reflexivity|]. split; [apply foldl_units_sum|].
  apply round2_comp. unfold average.
  rewrite Heq, length_map, length_seqZ, (series_total salesData Hne).
  rewrite Z2Nat.id by (pose proof (d_min_le_d_max salesData Hne); lia).
  reflexivity.
Qed.

(** Three records on two days forty days apart, 23 units in all: the
    average is neither 23/3 nor 23/2 but 23/40, reported as the binary64
    number nearest to 0.57. *)
Lemma historical_average_is_per_calendar_day_witness :
  exists data,
    generate forty_day_world three_day_request = Json data /\
    totalRecords data = 3%nat /\
    (totalHistoricalSales data == 23)%Q /\
    historical_averageDailyDemand data = round2 (23 / 40) /\
    historical_averageDailyDemand data = double.rnd (57 # 100).
Proof.
  destruct (generate_accepts forty_day_world three_day_request 3
              [sale 0 20; sale 39 0; sale 0 3]) as [data H];
    [discriminate | reflexivity | reflexivity | discriminate |].
  exists data. split; [exact H|].
  destruct (historical_average_is_per_calendar_day forty_day_world three_day_request data
              [sale 0 20; sale 39 0; sale 0 3] H eq_refl) as (Hr & Ht & Ha).
  - intros d _. reflexivity.
  - rewrite Hr, Ht, Ha. repeat split.
Defined.

Lemma predictors_total_on_nonempty_witness :
  exists forecasts,
    seasonalNaive (map inject_Z [3; 0; 4]) 7 5 = Ok forecasts /\
    length forecasts = 5%nat /\
    Forall (Qle 0) forecasts.
Proof.
  apply (predictors_total_on_nonempty (map inject_Z [3; 0; 4]) 5
           ltac:(discriminate) ltac:(repeat constructor; discriminate)
           (fun d n => seasonalNaive d 7 n)).
  do 2 right. left.
Defined.
